(** * MCP ticket server: a shallow embedding of the Python sources

    Part I holds the definitions, one module per source file or library:
    - [Py]            : the fragment of the Python run time the sources rely
                        on (exceptions, [str] methods, values, [json.dumps],
                        [round], the store of [dict] objects);
    - [Re]            : the fragment of the [re] module the sources use, as a
                        backtracking matcher with Python's priorities;
    - [TicketId]      : [tools/get_ticket.py], the identifier parser;
    - [Bs4]           : the fragment of BeautifulSoup the normalizers use;
    - [CleanHtml]     : [PY_Scripts/clean_html.py], the lenient normalizer,
                        the text preprocessor and the ingestion loop;
    - [TicketCleaner] : [tools/ticket_cleaner.py], the display normalizer
                        and [format_ticket_data];
    - [Search]        : [tools/search.py];
    - [GetTicket]     : [tools/get_ticket.py], the direct lookup;
    - [TicketLoader]  : [PY_Scripts/ticket_loader.py], the loading of the
                        documents into the vector store;
    - [Server]        : [server.py], the dispatch of the tool calls;
    - [Reference], [MatchAux], [Notions] : notions used to state the
                        properties.
    Part II holds the properties of the specification, Part III further
    properties of the sources.

    A Python [str] is modelled by a Rocq [string] whose characters are
    read as the code points 0..255.  The character classes ([\s], [\d],
    [\w], [str.strip]) are Python's classes restricted to that range.
    The HTML parser, the two stores, the clock and [datetime.fromisoformat]
    are external: they are arguments of the functions that use them, and
    each may return or raise. *)

From Stdlib Require Import ZArith QArith Qround Lqa Ascii String List Lia.
From stdpp Require Import base option list strings gmap pretty.

Local Open Scope string_scope.

(** ** Python run time *)
Module Py.

(** A raised exception: [type(e).__name__] and [str(e)]. *)
Record exn := Exn { exn_type : string; exn_msg : string }.

Definition ValueError (msg : string) : exn := Exn "ValueError" msg.
Definition TypeError (msg : string) : exn := Exn "TypeError" msg.
Definition AttributeError (msg : string) : exn := Exn "AttributeError" msg.

(** The outcome of a computation that may raise. *)
Inductive result (A : Type) : Type :=
| Ok (a : A)
| Raise (e : exn).
Arguments Ok {A} a.
Arguments Raise {A} e.

Definition bind {A B} (m : result A) (f : A → result B) : result B :=
  match m with
  | Ok a => f a
  | Raise e => Raise e
  end.

(** [try: body except Exception as e: handler e] *)
Definition try_except {A} (body : result A) (handler : exn → result A) : result A :=
  match body with
  | Ok a => Ok a
  | Raise e => handler e
  end.

(** [try: body finally: cleanup] : the clean-up always runs; when it raises,
    its exception replaces the outcome of the body. *)
Definition try_finally {A} (body : result A) (cleanup : result unit) : result A :=
  match cleanup with
  | Ok _ => body
  | Raise e => Raise e
  end.

Definition returns {A} (m : result A) : Prop := ∃ a, m = Ok a.

Definition code (c : ascii) : N := N_of_ascii c.

Definition in_range (lo hi : N) (c : ascii) : bool :=
  (lo <=? code c)%N && (code c <=? hi)%N.

(** [str.isspace] for one character, which is also the class [\s] of
    [re] on [str] patterns: TAB..CR, FS..US, SPACE, NEL and NBSP. *)
Definition isspace (c : ascii) : bool :=
  in_range 9 13 c || in_range 28 32 c || (code c =? 133)%N || (code c =? 160)%N.

(** [\d] on [str] patterns: the decimal digits (category Nd). *)
Definition isdigit (c : ascii) : bool := in_range 48 57 c.

(** [[A-Za-z]] *)
Definition isletter (c : ascii) : bool := in_range 65 90 c || in_range 97 122 c.

(** [\w] on [str] patterns: [str.isalnum] or the underscore. *)
Definition isword (c : ascii) : bool :=
  isletter c || isdigit c || (code c =? 95)%N
  || (code c =? 170)%N || (code c =? 181)%N || (code c =? 186)%N
  || in_range 178 179 c || (code c =? 185)%N || in_range 188 190 c
  || in_range 192 214 c || in_range 216 246 c || in_range 248 255 c.

Definition is_char (a : ascii) (c : ascii) : bool := bool_decide (a = c).

Fixpoint all_chars (p : ascii → bool) (s : string) : bool :=
  match s with
  | "" => true
  | String c s' => p c && all_chars p s'
  end.

Fixpoint any_char (p : ascii → bool) (s : string) : bool :=
  match s with
  | "" => false
  | String c s' => p c || any_char p s'
  end.

(** [s.lstrip()], [s.rstrip()] and [s.strip()] *)
Fixpoint lstrip (s : string) : string :=
  match s with
  | "" => ""
  | String c s' => if isspace c then lstrip s' else s
  end.

Fixpoint rstrip (s : string) : string :=
  match s with
  | "" => ""
  | String c s' =>
      match rstrip s' with
      | "" => if isspace c then "" else String c ""
      | r => String c r
      end
  end.

Definition strip (s : string) : string := lstrip (rstrip s).

(** Truth value of a [str]: [not s] holds for the empty string only. *)
Definition str_truthy (s : string) : bool := negb (bool_decide (s = "")).

(** [int(s)] for the literals the sources pass to it: a non-empty run of
    decimal digits.  Anything else is reported as [ValueError]. *)
Definition digit_value (c : ascii) : Z := Z.of_N (code c) - 48.

Fixpoint int_digits (acc : Z) (s : string) : Z :=
  match s with
  | "" => acc
  | String c s' => int_digits (10 * acc + digit_value c) s'
  end.

Definition int (s : string) : result Z :=
  if str_truthy s && all_chars isdigit s
  then Ok (int_digits 0 s)
  else Raise (ValueError ("invalid literal for int() with base 10: " +:+ s)).

(** Python values: what the rows of the relational store, the metadata of
    the vector store and the JSON documents are made of.  A [float] and a
    [Decimal] are modelled by the rational they denote, a [datetime] by its
    [isoformat()] text. *)
#[warnings="-register-all"]
Inductive pyval :=
| PNone
| PBool (b : bool)
| PInt (z : Z)
| PFloat (q : Q)
| PStr (s : string)
| PDecimal (q : Q)
| PDateTime (iso : string)
| PList (l : list pyval)
| PDict (d : gmap string pyval).

(** Truth value testing ([if v], [not v]). *)
Definition truthy (v : pyval) : bool :=
  match v with
  | PNone => false
  | PBool b => b
  | PInt z => negb (z =? 0)%Z
  | PFloat q | PDecimal q => negb (Qeq_bool q 0)
  | PStr s => str_truthy s
  | PDateTime _ => true
  | PList l => negb (bool_decide (l = []))
  | PDict d => negb (bool_decide (d = ∅))
  end.

(** [d.get(key, default)] *)
Definition dict_get (d : gmap string pyval) (key : string) (dflt : pyval) : pyval :=
  default dflt (d !! key).

Definition nl : string := String "010" "".

(** [sub in s] for two strings. *)
Fixpoint str_contains (sub s : string) : bool :=
  String.prefix sub s ||
  match s with
  | "" => false
  | String _ s' => str_contains sub s'
  end.

(** [str(n)] for an [int]. *)
Definition str_int (n : Z) : string := pretty n.

(** The text produced by [json.dumps] is represented by the value it
    denotes.  [Decimal] and [datetime] objects are not serializable. *)
Record json_text := JsonText { json_value : pyval }.

Fixpoint serializable (v : pyval) : bool :=
  match v with
  | PDecimal _ | PDateTime _ => false
  | PList l => forallb serializable l
  | PDict d => map_fold (λ _ v ok, serializable v && ok) true d
  | _ => true
  end.

Definition json_dumps (v : pyval) : result json_text :=
  if serializable v then Ok (JsonText v)
  else Raise (TypeError "Object is not JSON serializable").

(** [l[0]] *)
Definition first {A} (l : list A) : result A :=
  match l with
  | x :: _ => Ok x
  | [] => Raise (Exn "IndexError" "list index out of range")
  end.

(** [try: x = m except: pass], with [dflt] the value [x] had before. *)
Definition swallow {A} (dflt : A) (m : result A) : A :=
  match m with
  | Ok a => a
  | Raise _ => dflt
  end.

(** The e-grave and o-grave of the Italian messages, as code points. *)
Definition o_grave : string := String "242" "".

(** [round(x, ndigits)] on the rational [x] denotes: the nearest multiple
    of [10^-ndigits], a tie going to the even one. *)
Definition round_half_even (q : Q) : Z :=
  let f := Qfloor q in
  match (q - inject_Z f ?= 1 # 2)%Q with
  | Lt => f
  | Gt => (f + 1)%Z
  | Eq => if Z.even f then f else (f + 1)%Z
  end.

Definition round (q : Q) (ndigits : nat) : Q :=
  let scale := Z.to_pos (10 ^ Z.of_nat ndigits) in
  Qmake (round_half_even (q * inject_Z (Z.pos scale))) scale.

(** The store of the mutable [dict] objects a function is handed or
    creates; a reference is the identity of the object. *)
Abbreviation loc := positive.
Abbreviation heap := (gmap positive (gmap string pyval)).

(** A new object: [dict(d)], [d.copy()] or a dict display. *)
Definition alloc (d : gmap string pyval) (h : heap) : loc * heap :=
  let l := fresh (dom h) in (l, <[l := d]> h).

(** Every reference held by a Python program designates an object; the
    model reports a reference outside the store as this error. *)
Definition invalid_reference : exn := Exn "ReferenceError" "no such object".

End Py.

#[global] Instance result_bind : MBind Py.result := λ A B f m, Py.bind m f.
#[global] Instance result_ret : MRet Py.result := λ A a, Py.Ok a.

(** ** The [re] module *)
Module Re.
Import Py.

(** Pattern syntax.  Quantifiers are applied to character classes only,
    which is all the sources use; [Rep cls lo hi] is the greedy [cls{lo,hi}]
    ([hi = None] for an open bound), [Grp i r] is the [i]-th capturing
    group. *)
Inductive regex :=
| Eps
| Bol                                  (* ^ *)
| Eol                                  (* $ *)
| WordB                                (* \b *)
| Rep (cls : ascii → bool) (lo : nat) (hi : option nat)
| Seq (r1 r2 : regex)
| Alt (r1 r2 : regex)
| Grp (i : nat) (r : regex).

Definition Chr (c : ascii) : regex := Rep (is_char c) 1 (Some 1).
Definition Plus (cls : ascii → bool) : regex := Rep cls 1 None.
Definition Star (cls : ascii → bool) : regex := Rep cls 0 None.
Definition Opt (r : regex) : regex := Alt r Eps.

Fixpoint Lit (s : string) : regex :=
  match s with
  | "" => Eps
  | String c s' => Seq (Chr c) (Lit s')
  end.

(** Concatenation of a list of patterns. *)
Definition cat (rs : list regex) : regex := foldr Seq Eps rs.

(** [re.compile(p).groups] *)
Fixpoint ngroups (r : regex) : nat :=
  match r with
  | Seq r1 r2 | Alt r1 r2 => (ngroups r1 + ngroups r2)%nat
  | Grp _ r => S (ngroups r)
  | _ => 0%nat
  end.

(** A position in the subject: the character before it, and what follows. *)
Definition at_bol (multiline : bool) (prev : option ascii) : bool :=
  match prev with
  | None => true
  | Some c => multiline && is_char "010" c
  end.

Definition at_eol (multiline : bool) (s : string) : bool :=
  match s with
  | "" => true
  | String c "" => is_char "010" c
  | String c _ => multiline && is_char "010" c
  end.

Definition at_wordb (prev : option ascii) (s : string) : bool :=
  let before := match prev with Some c => isword c | None => false end in
  let after := match s with String c _ => isword c | "" => false end in
  xorb before after.

Abbreviation groups := (gmap nat string).

Section matcher.
Context {R : Type}.

(** Greedy repetition with backtracking: take as many characters as the
    bounds allow, then give back one at a time until the rest matches. *)
Fixpoint rep (cls : ascii → bool) (lo : nat) (hi : option nat)
    (prev : option ascii) (s : string)
    (k : option ascii → string → option R) : option R :=
  let stop := match lo with O => k prev s | S _ => None end in
  match s, hi with
  | _, Some O => stop
  | "", _ => stop
  | String c s', _ =>
      if cls c then
        match rep cls (Nat.pred lo) (Nat.pred <$> hi) (Some c) s' k with
        | Some x => Some x
        | None => stop
        end
      else stop
  end.

(** The text consumed between two positions of the same subject. *)
Definition consumed (s s' : string) : string :=
  substring 0 (String.length s - String.length s') s.

Fixpoint rmatch (multiline : bool) (r : regex)
    (prev : option ascii) (s : string) (g : groups)
    (k : option ascii → string → groups → option R) : option R :=
  match r with
  | Eps => k prev s g
  | Bol => if at_bol multiline prev then k prev s g else None
  | Eol => if at_eol multiline s then k prev s g else None
  | WordB => if at_wordb prev s then k prev s g else None
  | Rep cls lo hi => rep cls lo hi prev s (λ p s', k p s' g)
  | Seq r1 r2 =>
      rmatch multiline r1 prev s g (λ p s' g', rmatch multiline r2 p s' g' k)
  | Alt r1 r2 =>
      match rmatch multiline r1 prev s g k with
      | Some x => Some x
      | None => rmatch multiline r2 prev s g k
      end
  | Grp i r =>
      rmatch multiline r prev s g (λ p s' g', k p s' (<[i := consumed s s']> g'))
  end.
End matcher.

(** A match object: the text after the match and the groups. *)
Record match_obj := Match { m_rest : string; m_groups : groups }.

(** One matching attempt at a position; [advance] is set when the match
    must not be empty. *)
Definition match_here (multiline advance : bool) (r : regex)
    (prev : option ascii) (s : string) : option match_obj :=
  rmatch multiline r prev s ∅
    (λ _ s' g,
       if advance && bool_decide (String.length s' = String.length s)
       then None else Some (Match s' g)).

(** [m.group(i)] for [i >= 1]; [None] stands for Python's [None]. *)
Definition group (m : match_obj) (i : nat) : option string := m_groups m !! i.

(** [re.match(r, s)] *)
Definition re_match (r : regex) (s : string) : option match_obj :=
  match_here false false r None s.

(** [re.search(r, s)]: the leftmost position where the pattern matches,
    given as the text from that position on, with the match found there. *)
Fixpoint search_from (multiline : bool) (r : regex)
    (prev : option ascii) (s : string) : option (string * match_obj) :=
  match match_here multiline false r prev s with
  | Some m => Some (s, m)
  | None =>
      match s with
      | "" => None
      | String c s' => search_from multiline r (Some c) s'
      end
  end.

Definition re_search (r : regex) (s : string) : option match_obj :=
  snd <$> search_from false r None s.

(** Replacement templates: literal text and back references [\i]. *)
Inductive piece := PLit (s : string) | PRef (i : nat).

Fixpoint expand (t : list piece) (g : groups) : string :=
  match t with
  | [] => ""
  | PLit s :: t' => s +:+ expand t' g
  | PRef i :: t' => default "" (g !! i) +:+ expand t' g
  end.

Definition match_len (s : string) (m : match_obj) : nat :=
  (String.length s - String.length (m_rest m))%nat.

(** [re.sub(r, t, s, flags)]: every non-overlapping match, leftmost first,
    is replaced.  [skip] counts the characters of the current position that
    belong to the match already replaced.  After an empty match a second,
    non-empty one is tried at the same position, as [re] does. *)
Fixpoint sub_go (multiline : bool) (r : regex) (t : list piece)
    (prev : option ascii) (s : string) (skip : nat) : string :=
  match skip with
  | S n =>
      match s with
      | "" => ""
      | String c s' => sub_go multiline r t (Some c) s' n
      end
  | O =>
      let step (hit : option match_obj) : string :=
        match hit, s with
        | Some m, "" => expand t (m_groups m)
        | Some m, String c s' =>
            expand t (m_groups m)
              +:+ sub_go multiline r t (Some c) s' (Nat.pred (match_len s m))
        | None, "" => ""
        | None, String c s' => String c (sub_go multiline r t (Some c) s' 0)
        end in
      match match_here multiline false r prev s with
      | Some m =>
          if bool_decide (match_len s m = 0%nat)
          then expand t (m_groups m) +:+ step (match_here multiline true r prev s)
          else step (Some m)
      | None => step None
      end
  end.

Definition re_sub (multiline : bool) (r : regex) (t : list piece) (s : string) : string :=
  sub_go multiline r t None s 0.

(** [s.replace(old, new)] for a non-empty [old]: the occurrences of [old],
    leftmost first and without overlap, are what the literal pattern finds. *)
Definition str_replace (old new s : string) : string :=
  re_sub false (Lit old) [PLit new] s.

End Re.

(** ** tools/get_ticket.py : the identifier parser *)
Module TicketId.
Import Py Re.

(** The [patterns] list of [parse_ticket_id], in source order. *)
Definition pat_prefixed : regex :=          (* ^(\d+)/[A-Za-z]*-?(\d{4})$ *)
  cat [Bol; Grp 1 (Plus isdigit); Chr "/"; Star isletter;
       Rep (is_char "-") 0 (Some 1%nat); Grp 2 (Rep isdigit 4 (Some 4%nat)); Eol].
Definition pat_slash : regex :=             (* ^(\d+)/(\d{4})$ *)
  cat [Bol; Grp 1 (Plus isdigit); Chr "/"; Grp 2 (Rep isdigit 4 (Some 4%nat)); Eol].
Definition pat_dash : regex :=              (* ^(\d+)-(\d{4})$ *)
  cat [Bol; Grp 1 (Plus isdigit); Chr "-"; Grp 2 (Rep isdigit 4 (Some 4%nat)); Eol].
Definition pat_number : regex :=            (* ^(\d+)$ *)
  cat [Bol; Grp 1 (Plus isdigit); Eol].

Definition patterns : list regex := [pat_prefixed; pat_slash; pat_dash; pat_number].

Definition pat_any_number : regex := Grp 1 (Plus isdigit).     (* (\d+) *)

(** [m.group(i)] of a group that takes part in every match of its pattern. *)
Definition group_text (m : match_obj) (i : nat) : string := default "" (group m i).

(** The [for pattern in patterns] loop.  [None] means that the loop ran to
    its end without returning.  [now_year] is [datetime.now().year]. *)
Fixpoint try_patterns (now_year : Z) (ps : list regex) (ticket_id : string)
    : option (result (string * Z)) :=
  match ps with
  | [] => None
  | pattern :: ps' =>
      match re_match pattern ticket_id with
      | Some m =>
          if bool_decide (ngroups pattern = 2%nat) then
            Some (year ← int (group_text m 2); mret (group_text m 1, year))
          else if bool_decide (ngroups pattern = 1%nat) then
            Some (mret (group_text m 1, now_year))
          else try_patterns now_year ps' ticket_id
      | None => try_patterns now_year ps' ticket_id
      end
  end.

Definition unrecognised (ticket_id : string) : exn :=
  ValueError ("Formato ticket ID non riconosciuto: " +:+ ticket_id).

Definition parse_ticket_id (now_year : Z) (ticket_id : string) : result (string * Z) :=
  let ticket_id := strip ticket_id in
  match try_patterns now_year patterns ticket_id with
  | Some r => r
  | None =>
      match re_search pat_any_number ticket_id with
      | Some number_match => Ok (group_text number_match 1, now_year)
      | None => Raise (unrecognised ticket_id)
      end
  end.

End TicketId.


(** ** The fragment of BeautifulSoup used by the two normalizers *)
Module Bs4.
Import Py.

(** A parsed document.  [Special] stands for the strings [get_text] leaves
    out (comments, declarations, the contents of script and style).  Of the
    attributes of a tag only [class] is read by the sources: [cls] is
    [tag.get('class')], the list of class names, [None] when absent. *)
#[warnings="-register-all"]
Inductive node :=
| NavigableString (s : string)
| Special (s : string)
| Tag (name : string) (cls : option (list string)) (children : list node).

Definition children (n : node) : list node :=
  match n with
  | Tag _ _ ch => ch
  | _ => []
  end.

(** The tags named in [names] among [n] and below it, in document order. *)
Fixpoint tags_named (names : list string) (n : node) : list node :=
  match n with
  | Tag name _ ch =>
      (if bool_decide (name ∈ names) then [n] else [])
        ++ flat_map (tags_named names) ch
  | _ => []
  end.

(** [n.find_all(names)]: the search covers the descendants of [n]. *)
Definition find_all (names : list string) (n : node) : list node :=
  flat_map (tags_named names) (children n).

(** The text strings below [n], in document order. *)
Fixpoint strings (n : node) : list string :=
  match n with
  | NavigableString s => [s]
  | Special _ => []
  | Tag _ _ ch => flat_map strings ch
  end.

(** [n.get_text()] *)
Definition get_text (n : node) : string := String.concat "" (strings n).

(** [n.get_text(strip=True)]: every string is stripped, the empty ones are
    dropped. *)
Definition get_text_strip (n : node) : string :=
  String.concat "" (filter (λ s, s ≠ "") (strip <$> strings n)).

(** The loops [for t in soup.find_all(names): ... t.replace_with(text)].
    [find_all] lists the tags before the loop starts, in document order, so
    a tag comes before the tags below it: when its turn comes nothing below
    it has been replaced yet, and once it is replaced the tags below it are
    no longer part of the document, so that replacing them changes nothing
    there.  The loop is therefore the top-down pass below.  [f t] is the
    replacement text, [None] when the loop leaves [t] alone. *)
Fixpoint replace_tags (f : node → option string) (n : node) : node :=
  match n with
  | Tag name c ch =>
      match f n with
      | Some text => NavigableString text
      | None => Tag name c (replace_tags f <$> ch)
      end
  | _ => n
  end.

Definition replace_each (f : node → option string) (soup : node) : node :=
  match soup with
  | Tag name c ch => Tag name c (replace_tags f <$> ch)
  | _ => soup
  end.

Definition has_name (names : list string) (n : node) : bool :=
  match n with
  | Tag name _ _ => bool_decide (name ∈ names)
  | _ => false
  end.

(** The HTML parser is an external collaborator: it maps the markup to the
    root of the document or raises. *)
Definition parser := string → result node.

(** [BeautifulSoup(markup, 'html.parser')]; markup that is not text is
    rejected with a [TypeError]. *)
Definition BeautifulSoup (html_parser : parser) (markup : pyval) : result node :=
  match markup with
  | PStr s => html_parser s
  | _ => Raise (TypeError "markup is not a string")
  end.

End Bs4.

(** ** PY_Scripts/clean_html.py : the lenient normalizer *)
Module CleanHtml.
Import Py Re Bs4.

Definition nonempty (l : list string) : bool := negb (bool_decide (l = [])).

(** The items of a list: the stripped text of every [li], empty ones skipped. *)
Definition list_items (ul : node) : list string :=
  filter (λ s, s ≠ "") (get_text_strip <$> find_all ["li"] ul).

Definition list_text (ul : node) : option string :=
  if has_name ["ul"; "ol"] ul then
    let items := list_items ul in
    if nonempty items
    then Some ("I punti sono: " +:+ String.concat ", " items +:+ ".")
    else None
  else None.

(** One [tr] of a table: [None] when the row adds nothing to [table_text]. *)
Definition row_text (row : node) : option string :=
  let cells := find_all ["td"; "th"] row in
  if bool_decide (2 ≤ length cells)%nat then
    let cell_texts := filter (λ s, s ≠ "") (get_text_strip <$> cells) in
    if nonempty cell_texts then Some (String.concat ": " cell_texts) else None
  else None.

Definition table_rows (table : node) : list string :=
  omap row_text (find_all ["tr"] table).

Definition formatted_table (table : node) : option string :=
  if has_name ["table"] table then
    let table_text := table_rows table in
    if nonempty table_text
    then Some (String.concat ". " table_text +:+ ".")
    else None
  else None.

Definition re_spaces : regex := Plus isspace.                       (* \s+ *)
Definition re_blank_lines : regex :=                                (* \n\s*\n *)
  cat [Chr "010"; Star isspace; Chr "010"].

Definition clean_html_content (html_parser : parser) (html_content : pyval)
    : result string :=
  if negb (truthy html_content) then Ok ""
  else
    soup ← BeautifulSoup html_parser html_content;
    let soup := replace_each list_text soup in
    let soup := replace_each formatted_table soup in
    let text := get_text soup in
    let text := re_sub false re_spaces [PLit " "] text in
    let text := re_sub false re_blank_lines [PLit (nl +:+ nl)] text in
    Ok (strip text).

Definition not_space (c : ascii) : bool := negb (isspace c).
Definition one_of (chars : string) (c : ascii) : bool := any_char (is_char c) chars.
Definition is_upper (c : ascii) : bool := in_range 65 90 c.
Definition is_lower (c : ascii) : bool := in_range 97 122 c.

Definition re_url : regex :=                          (* https?://[^\s]+ *)
  cat [Lit "http"; Rep (is_char "s") 0 (Some 1%nat); Lit "://"; Plus not_space].
Definition mail_local (c : ascii) : bool :=           (* [A-Za-z0-9._%+-] *)
  isletter c || isdigit c || one_of "._%+-" c.
Definition mail_domain (c : ascii) : bool :=          (* [A-Za-z0-9.-] *)
  isletter c || isdigit c || one_of ".-" c.
Definition mail_tld (c : ascii) : bool :=             (* [A-Z|a-z] *)
  is_upper c || is_char "|" c || is_lower c.
Definition re_email : regex :=
  cat [WordB; Plus mail_local; Chr "@"; Plus mail_domain; Chr "."; Rep mail_tld 2 None; WordB].
(** The pattern [(\+39\s* )?(\d{3})\s*(\d{3})\s*(\d{4})] (the source has no
    blank before the first closing parenthesis). *)
Definition re_phone : regex :=
  cat [Opt (Grp 1 (cat [Lit "+39"; Star isspace]));
       Grp 2 (Rep isdigit 3 (Some 3%nat)); Star isspace;
       Grp 3 (Rep isdigit 3 (Some 3%nat)); Star isspace;
       Grp 4 (Rep isdigit 4 (Some 4%nat))].
Definition date_sep (c : ascii) : bool := one_of "/.-" c.
Definition re_date : regex :=                (* (\d{1,2})[/.-](\d{1,2})[/.-](\d{4}) *)
  cat [Grp 1 (Rep isdigit 1 (Some 2%nat)); Rep date_sep 1 (Some 1%nat);
       Grp 2 (Rep isdigit 1 (Some 2%nat)); Rep date_sep 1 (Some 1%nat);
       Grp 3 (Rep isdigit 4 (Some 4%nat))].

Definition preprocess_text (text : string) : string :=
  if negb (str_truthy text) then ""
  else
    let text := re_sub false re_url [PLit "[URL]"] text in
    let text := re_sub false re_email [PLit "[EMAIL]"] text in
    let text := re_sub false re_phone
                  [PLit "+39 "; PRef 2; PLit " "; PRef 3; PLit " "; PRef 4] text in
    let text := re_sub false re_date [PRef 1; PLit "/"; PRef 2; PLit "/"; PRef 3] text in
    strip (re_sub false re_spaces [PLit " "] text).

(** A document for the vector store. *)
Record document := Document {
  doc_id : string;
  doc_text : string;
  meta_title : pyval;
  meta_company : pyval;
  meta_date : pyval;
  meta_year : string;
  meta_original_id : pyval
}.

(** [s.split('T')[0]] *)
Fixpoint before_T (s : string) : string :=
  match s with
  | "" => ""
  | String c s' => if is_char "T" c then "" else String c (before_T s')
  end.

Definition is_T (v : pyval) : bool :=
  match v with
  | PStr s => bool_decide (s = "T")
  | _ => false
  end.

(** [date_str.split('T')[0] if 'T' in date_str else date_str] *)
Definition date_only (date_str : pyval) : result pyval :=
  match date_str with
  | PStr s => Ok (if str_contains "T" s then PStr (before_T s) else date_str)
  | PList l =>
      if existsb is_T l then Raise (AttributeError "object has no attribute 'split'")
      else Ok date_str
  | PDict d =>
      if bool_decide (is_Some (d !! "T"))
      then Raise (AttributeError "object has no attribute 'split'")
      else Ok date_str
  | _ => Raise (TypeError "argument is not iterable")
  end.

Section ingestion.
(** [datetime.fromisoformat(s).year], and the text an f-string gives for a
    value, are taken from the run time. *)
Context (html_parser : parser).
Context (fromisoformat_year : string → result Z).
Context (format_value : pyval → string).

(** [ticket.get(key, '')] *)
Definition ticket_get (ticket : pyval) (key : string) : result pyval :=
  match ticket with
  | PDict d => Ok (dict_get d key (PStr ""))
  | _ => Raise (AttributeError "object has no attribute 'get'")
  end.

(** The year of the record: ["2024"] unless the date parses. *)
Definition ticket_year (date_str : pyval) : string :=
  let year := "2024" in
  if truthy date_str then
    swallow year
      match date_str with
      | PStr s =>
          date_obj_year ← fromisoformat_year (str_replace "Z" "+00:00" s);
          mret (str_int date_obj_year)
      | _ => Raise (AttributeError "object has no attribute 'replace'")
      end
  else year.

(** The body of the [try] block of the loop. *)
Definition process_ticket (ticket : pyval) : result document :=
  ttnumtic ← ticket_get ticket "ttnumtic";
  title ← ticket_get ticket "ttshotxt";
  company ← ticket_get ticket "cotitle";
  html_content ← ticket_get ticket "dt_testo";
  date_str ← ticket_get ticket "dt__data";
  clean_text ← clean_html_content html_parser html_content;
  let processed_text := preprocess_text clean_text in
  let year := ticket_year date_str in
  let ticket_id := format_value ttnumtic +:+ "/SPC-" +:+ year in
  date ← date_only date_str;
  mret (Document ticket_id processed_text title company date year ttnumtic).

(** The loop over the tickets: a record that raises is reported and
    skipped. *)
Fixpoint processed_documents (tickets : list pyval) : list document :=
  match tickets with
  | [] => []
  | ticket :: rest =>
      match process_ticket ticket with
      | Ok document => document :: processed_documents rest
      | Raise _ => processed_documents rest
      end
  end.

(** The array of tickets in the loaded file: the value of the only key of
    an object, or the array itself. *)
Definition tickets_of (tickets_data : pyval) : option (list pyval) :=
  match tickets_data with
  | PDict d =>
      match map_to_list d with
      | [(_, PList tickets)] => Some tickets
      | _ => None
      end
  | PList tickets => Some tickets
  | _ => None
  end.

(** [process_tickets] up to the file it writes: the documents, or [None]
    when the function returns early. *)
Definition process_tickets (tickets_data : pyval) : option (list document) :=
  processed_documents <$> tickets_of tickets_data.

End ingestion.

End CleanHtml.


(** ** tools/ticket_cleaner.py : the display normalizer *)
Module TicketCleaner.
Import Py Re Bs4.

(** The bullet U+2022 lies outside the 8-bit alphabet of the model; it is
    written as the three characters of its UTF-8 form, none of which is
    touched by the later steps. *)
Definition bullet : string := "•".

Definition list_items (ul : node) : list string :=
  (λ item_text, bullet +:+ " " +:+ item_text)
    <$> filter (λ s, s ≠ "") (get_text_strip <$> find_all ["li"] ul).

Definition list_text (ul : node) : option string :=
  if has_name ["ul"; "ol"] ul then
    match list_items ul with
    | [] => None
    | items => Some (nl +:+ String.concat nl items +:+ nl)
    end
  else None.

Definition row_text (row : node) : option string :=
  let cells := find_all ["td"; "th"] row in
  if bool_decide (2 ≤ length cells)%nat then
    match filter (λ s, s ≠ "") (get_text_strip <$> cells) with
    | label :: value :: values =>
        Some (label +:+ ": " +:+ String.concat " | " (value :: values))
    | _ => None
    end
  else None.

Definition formatted_table (table : node) : option string :=
  if has_name ["table"] table then
    match omap row_text (find_all ["tr"] table) with
    | [] => None
    | table_text => Some (nl +:+ String.concat nl table_text +:+ nl)
    end
  else None.

(** [blockquote.get('class') and 'quote' in str(blockquote.get('class'))]:
    the printed list shows the class names between quotes and commas, so
    the word occurs in it exactly when it occurs in one of the names. *)
Definition is_quote (n : node) : bool :=
  match n with
  | Tag _ (Some (c :: cs)) _ => existsb (str_contains "quote") (c :: cs)
  | _ => false
  end.

Definition quote_text (n : node) : option string :=
  if has_name ["blockquote"; "div"] n && is_quote n then
    let quote_text := get_text_strip n in
    if str_truthy quote_text then Some (nl +:+ "> " +:+ quote_text +:+ nl) else None
  else None.

Definition paragraph_text (n : node) : option string :=
  if has_name ["p"] n then Some (get_text n +:+ nl +:+ nl) else None.

Definition br_text (n : node) : option string :=
  if has_name ["br"] n then Some nl else None.

Definition is_blank (c : ascii) : bool := is_char " " c || is_char "009" c.
Definition not_char (a : ascii) (c : ascii) : bool := negb (is_char a c).

Definition re_blanks : regex := Plus is_blank.                        (* [ \t]+ *)
Definition re_newlines : regex := Rep (is_char "010") 3 None.         (* \n{3,} *)
Definition re_line_edges : regex :=                                   (* ^\s+|\s+$ *)
  Alt (Seq Bol (Plus isspace)) (Seq (Plus isspace) Eol).
Definition re_office_open : regex :=                                  (* <o:p[^>]*> *)
  cat [Lit "<o:p"; Star (not_char ">"); Chr ">"].
Definition re_office_close : regex := Lit "</o:p>".                   (* </o:p> *)
Definition re_mso : regex :=                                          (* mso-[^;]+;? *)
  cat [Lit "mso-"; Plus (not_char ";"); Rep (is_char ";") 0 (Some 1%nat)].
Definition re_tag : regex := cat [Chr "<"; Plus (not_char ">"); Chr ">"].   (* <[^>]+> *)
Definition re_spaces : regex := Plus isspace.                         (* \s+ *)

(** The body of the [try] block. *)
Definition structured (html_parser : parser) (html_content : string) : result string :=
  soup ← BeautifulSoup html_parser (PStr html_content);
  let soup := replace_each list_text soup in
  let soup := replace_each formatted_table soup in
  let soup := replace_each quote_text soup in
  let soup := replace_each paragraph_text soup in
  let soup := replace_each br_text soup in
  let text := get_text soup in
  let text := re_sub false re_blanks [PLit " "] text in
  let text := re_sub false re_newlines [PLit (nl +:+ nl)] text in
  let text := re_sub true re_line_edges [] text in
  let text := str_replace "&nbsp;" " " text in
  let text := str_replace "&lt;" "<" text in
  let text := str_replace "&gt;" ">" text in
  let text := str_replace "&amp;" "&" text in
  let text := str_replace "&quot;" (String "034" "") text in
  let text := re_sub false re_office_open [] text in
  let text := re_sub false re_office_close [] text in
  let text := re_sub false re_mso [] text in
  Ok (strip text).

(** The body of the [except Exception] block. *)
Definition fallback (html_content : string) : string :=
  let clean_text := re_sub false re_tag [] html_content in
  let clean_text := re_sub false re_spaces [PLit " "] clean_text in
  strip clean_text.

Definition clean_html_content (html_parser : parser) (html_content : pyval)
    : result string :=
  match html_content with
  | PStr s =>
      if negb (str_truthy s) || bool_decide (strip s = "") then Ok ""
      else try_except (structured html_parser s) (λ _, Ok (fallback s))
  | _ =>
      if negb (truthy html_content) then Ok ""
      else Raise (AttributeError "object has no attribute 'strip'")
  end.

(** One turn of the loop of [format_ticket_data]: the reference of the
    formatted copy, and the store after it. *)
Definition format_entry (html_parser : parser) (entry : loc) (h : heap)
    : result loc * heap :=
  match h !! entry with
  | None => (Raise invalid_reference, h)
  | Some d =>
      let '(formatted_entry, h) := alloc d h in
      match d !! "dt_testo" with
      | Some dt_testo =>
          if truthy dt_testo then
            match clean_html_content html_parser dt_testo with
            | Ok text =>
                (Ok formatted_entry,
                 <[formatted_entry := <["dt_testo" := PStr text]> d]> h)
            | Raise e => (Raise e, h)
            end
          else (Ok formatted_entry, h)
      | None => (Ok formatted_entry, h)
      end
  end.

Fixpoint format_ticket_data (html_parser : parser) (ticket_data : list loc) (h : heap)
    : result (list loc) * heap :=
  match ticket_data with
  | [] => (Ok [], h)
  | entry :: rest =>
      match format_entry html_parser entry h with
      | (Ok formatted_entry, h) =>
          match format_ticket_data html_parser rest h with
          | (Ok formatted_data, h) => (Ok (formatted_entry :: formatted_data), h)
          | (Raise e, h) => (Raise e, h)
          end
      | (Raise e, h) => (Raise e, h)
      end
  end.

End TicketCleaner.


(** ** tools/search.py : semantic search *)
Module Search.
Import Py.

(** What [collection.query] returns: one inner list per query text. *)
Record query_result := QueryResult {
  ids : list (list string);
  distances : list (list Q);
  metadatas : list (list (gmap string pyval));
  documents : list (list string)
}.

(** The vector store is an external collaborator: [get_collection ()] and
    [collection.query(query_texts=..., n_results=...)] return or raise. *)
Record vector_store := VectorStore {
  get_collection : result unit;
  collection_query : list string → Z → result query_result
}.

(** The accesses to the store made by one call, in order. *)
Inductive store_call :=
| GetCollection
| Query (query_texts : list string) (n_results : Z).

Definition empty_query : exn :=
  ValueError ("Il testo di ricerca non pu" +:+ o_grave +:+ " essere vuoto").
Definition bad_n_results : exn :=
  ValueError "Il numero di risultati deve essere tra 1 e 20".

Definition similarity_score (distance : Q) : Q := round (1 - distance) 3.

Definition document_preview (document : string) : string :=
  if bool_decide (300 < String.length document)%nat
  then substring 0 300 document +:+ "..."
  else document.

(** The body of the [for] loop: one entry of [formatted_results]. *)
Definition formatted_result (i : nat) (ticket_id : string) (distance : Q)
    (metadata : gmap string pyval) (document : string) : gmap string pyval :=
  let title := dict_get metadata "metadata_title" (dict_get metadata "title" (PStr "N/A")) in
  let company := dict_get metadata "metadata_company" (dict_get metadata "company" (PStr "N/A")) in
  let date := dict_get metadata "metadata_date" (dict_get metadata "date" (PStr "N/A")) in
  let original_id :=
    dict_get metadata "metadata_original_id" (dict_get metadata "original_id" (PStr "N/A")) in
  list_to_map [
    ("rank", PInt (Z.of_nat i + 1));
    ("ticket_id", PStr ticket_id);
    ("similarity_score", PFloat (similarity_score distance));
    ("title", title);
    ("company", company);
    ("date", date);
    ("original_id", original_id);
    ("content_preview", PStr (document_preview document));
    ("metadata", PDict metadata)
  ].

(** [for i, (...) in enumerate(zip(ids, distances, metadatas, documents))] *)
Fixpoint formatted_results (i : nat) (ids : list string) (distances : list Q)
    (metadatas : list (gmap string pyval)) (documents : list string)
    : list (gmap string pyval) :=
  match ids, distances, metadatas, documents with
  | ticket_id :: ids, distance :: distances, metadata :: metadatas, document :: documents =>
      formatted_result i ticket_id distance metadata document
        :: formatted_results (S i) ids distances metadatas documents
  | _, _, _, _ => []
  end.

Definition no_results (query_text : string) : gmap string pyval :=
  list_to_map [
    ("status", PStr "success");
    ("query", PStr query_text);
    ("results_count", PInt 0);
    ("results", PList []);
    ("message", PStr "Nessun ticket trovato per la query specificata")
  ].

Definition success_response (query_text : string) (results : list (gmap string pyval))
    : gmap string pyval :=
  list_to_map [
    ("status", PStr "success");
    ("query", PStr query_text);
    ("results_count", PInt (Z.of_nat (length results)));
    ("results", PList (PDict <$> results))
  ].

Definition error_response (query_text : string) (e : exn) : gmap string pyval :=
  list_to_map [
    ("status", PStr "error");
    ("query", PStr query_text);
    ("error", PStr (exn_msg e));
    ("error_type", PStr (exn_type e))
  ].

(** What follows [collection.query] in the [try] block. *)
Definition format_response (query_text : string) (results : query_result)
    : result json_text :=
  match ids results with
  | [] | [] :: _ => json_dumps (PDict (no_results query_text))
  | ids0 :: _ =>
      distances0 ← first (distances results);
      metadatas0 ← first (metadatas results);
      documents0 ← first (documents results);
      json_dumps (PDict (success_response query_text
        (formatted_results 0 ids0 distances0 metadatas0 documents0)))
  end.

(** The [try] block, with the store accesses it makes. *)
Definition search_body (store : vector_store) (query_text : string) (n_results : Z)
    : result json_text * list store_call :=
  if negb (str_truthy query_text) || negb (str_truthy (strip query_text))
  then (Raise empty_query, [])
  else if (n_results <? 1)%Z || (20 <? n_results)%Z
  then (Raise bad_n_results, [])
  else
    match get_collection store with
    | Raise e => (Raise e, [GetCollection])
    | Ok _ =>
        let query_texts := [strip query_text] in
        (results ← collection_query store query_texts n_results;
         format_response query_text results,
         [GetCollection; Query query_texts n_results])
    end.

Definition search_similar_tickets (store : vector_store) (query_text : string)
    (n_results : Z) : result json_text * list store_call :=
  let '(outcome, calls) := search_body store query_text n_results in
  (try_except outcome (λ e, json_dumps (PDict (error_response query_text e))), calls).

End Search.

(** ** tools/get_ticket.py : direct lookup *)
Module GetTicket.
Import Py TicketId TicketCleaner.

(** The relational store is an external collaborator.  [fetch_rows number
    start_date end_date] stands for opening the cursor, [execute] with the
    three parameters, [fetchall] and closing the cursor. *)
Record postgres := Postgres {
  get_postgres_connection : result unit;
  fetch_rows : string → string → string → result (list (gmap string pyval));
  conn_close : result unit
}.

Fixpoint convert_decimals (obj : pyval) : pyval :=
  match obj with
  | PDecimal q => PFloat q
  | PDict d => PDict (convert_decimals <$> d)
  | PList l => PList (convert_decimals <$> l)
  | _ => obj
  end.

Definition empty_ticket_id : exn :=
  ValueError ("L'ID del ticket non pu" +:+ o_grave +:+ " essere vuoto").

(** [if entry.get('dt__data'): entry['dt__data'] = entry['dt__data'].isoformat()] *)
Definition with_iso_date (entry : gmap string pyval) : result (gmap string pyval) :=
  if truthy (dict_get entry "dt__data" PNone) then
    match dict_get entry "dt__data" PNone with
    | PDateTime iso => Ok (<["dt__data" := PStr iso]> entry)
    | _ => Raise (AttributeError "object has no attribute 'isoformat'")
    end
  else Ok entry.

(** The [for row in rows] loop; [format_ticket_data] is called at every
    turn, on the entries gathered so far. *)
Fixpoint collect_entries (html_parser : Bs4.parser) (rows : list (gmap string pyval))
    (ticket_entries : list loc) (h : heap) : result (list loc) * heap :=
  match rows with
  | [] => (Ok ticket_entries, h)
  | row :: rows =>
      match with_iso_date row with
      | Raise e => (Raise e, h)
      | Ok entry =>
          let '(entry, h) := alloc (convert_decimals <$> entry) h in
          match format_ticket_data html_parser (ticket_entries ++ [entry]) h with
          | (Ok ticket_entries, h) => collect_entries html_parser rows ticket_entries h
          | (Raise e, h) => (Raise e, h)
          end
      end
  end.

(** The value of the list [ticket_entries]: the dicts it refers to. *)
Definition entries_value (h : heap) (ticket_entries : list loc) : list pyval :=
  (λ l, PDict (default ∅ (h !! l))) <$> ticket_entries.

Definition not_found (ticket_id ticket_number : string) (year : Z) : gmap string pyval :=
  list_to_map [
    ("status", PStr "error");
    ("ticket_id", PStr ticket_id);
    ("parsed_number", PStr ticket_number);
    ("parsed_year", PInt year);
    ("error", PStr ("Ticket " +:+ ticket_number +:+ " non trovato per l'anno " +:+ str_int year));
    ("error_code", PStr "TICKET_NOT_FOUND")
  ].

Definition success_response (ticket_id ticket_number : string) (year : Z)
    (entries : list pyval) : gmap string pyval :=
  list_to_map [
    ("status", PStr "success");
    ("ticket_id", PStr ticket_id);
    ("parsed_number", PStr ticket_number);
    ("parsed_year", PInt year);
    ("entries_count", PInt (Z.of_nat (length entries)));
    ("ticket_data", PList entries)
  ].

Definition error_response (ticket_id : string) (e : exn) : gmap string pyval :=
  list_to_map [
    ("status", PStr "error");
    ("ticket_id", PStr ticket_id);
    ("error", PStr (exn_msg e));
    ("error_type", PStr (exn_type e))
  ].

(** The inner [try] block, entered once the connection is open. *)
Definition lookup (html_parser : Bs4.parser) (db : postgres)
    (ticket_id ticket_number : string) (year : Z) : result json_text :=
  let start_date := str_int year +:+ "-01-01" in
  let end_date := str_int (year + 1) +:+ "-01-01" in
  rows ← fetch_rows db ticket_number start_date end_date;
  if bool_decide (rows = []) then
    json_dumps (PDict (not_found ticket_id ticket_number year))
  else
    match collect_entries html_parser rows [] ∅ with
    | (Ok ticket_entries, h) =>
        json_dumps (convert_decimals (PDict
          (success_response ticket_id ticket_number year (entries_value h ticket_entries))))
    | (Raise e, _) => Raise e
    end.

(** The outer [try] block. *)
Definition get_ticket_body (now_year : Z) (html_parser : Bs4.parser) (db : postgres)
    (ticket_id : string) : result json_text :=
  if negb (str_truthy ticket_id) || negb (str_truthy (strip ticket_id))
  then Raise empty_ticket_id
  else
    '(ticket_number, year) ← parse_ticket_id now_year (strip ticket_id);
    _ ← get_postgres_connection db;
    try_finally (lookup html_parser db ticket_id ticket_number year) (conn_close db).

Definition get_ticket_by_id (now_year : Z) (html_parser : Bs4.parser) (db : postgres)
    (ticket_id : string) : result json_text :=
  try_except
    (get_ticket_body now_year html_parser db ticket_id)
    (λ e, json_dumps (PDict (error_response ticket_id e))).

End GetTicket.

(** ** PY_Scripts/ticket_loader.py : loading the documents into the store *)
Module TicketLoader.
Import Py.

(** What [json.load] returns.  An object is a [dict], which keeps the order
    of the keys of the file: it is given as the list of its items, in that
    order, with distinct keys. *)
#[warnings="-register-all"]
Inductive json :=
| JNull
| JBool (b : bool)
| JInt (z : Z)
| JFloat (q : Q)
| JStr (s : string)
| JList (l : list json)
| JObject (items : list (string * json)).

(** [key in d] and [d[key]] for a [dict] given by its items. *)
Fixpoint item (key : string) (items : list (string * json)) : option json :=
  match items with
  | [] => None
  | (k, v) :: rest => if bool_decide (k = key) then Some v else item key rest
  end.

(** [range(0, stop, step)], for a positive step. *)
Fixpoint range_from (fuel i stop step : nat) : list nat :=
  match fuel with
  | O => []
  | S fuel => if (i <? stop)%nat then i :: range_from fuel (i + step) stop step else []
  end.

Definition range (stop step : nat) : list nat := range_from stop 0 stop step.

(** [l[i:j]] *)
Definition slice {A} (i j : nat) (l : list A) : list A := take (j - i) (drop i l).

(** The characters of a text, as iterating over it gives them. *)
Fixpoint chars (s : string) : list json :=
  match s with
  | "" => []
  | String c s' => JStr (String c "") :: chars s'
  end.

Definition is_text (v : json) : bool :=
  match v with
  | JStr s => bool_decide (s = "text")
  | _ => false
  end.

Definition batch_size : nat := 500.

(** One call of [collection.add]. *)
Record add_call := AddCall {
  batch_docs : list json;
  batch_metas : list (gmap string pyval);
  batch_ids : list string
}.

(** The three lists built by the loop over the tickets. *)
Record prepared := Prepared {
  documents : list json;
  metadatas : list (gmap string pyval);
  ids : list string
}.

Definition unrecognised_format : exn := ValueError "Formato JSON non riconosciuto".

Section loader.
(** [str(v)] for a value that is not a text is taken from the run time, and
    so is the collection: [collection_add] maps the state of the collection
    and a call to the outcome of the call and the state after it. *)
Context (repr : json → string).
Context {collection : Type}.
Context (collection_add : collection → add_call → result unit * collection).

Definition str (v : json) : string :=
  match v with
  | JStr s => s
  | _ => repr v
  end.

(** [str(v) if v is not None else None] *)
Definition str_or_none (v : json) : pyval :=
  match v with
  | JNull => PNone
  | _ => PStr (str v)
  end.

(** One turn of the loop [for k, v in ticket.items()]. *)
Definition flatten_item (metadata : gmap string pyval) (kv : string * json)
    : gmap string pyval :=
  let '(k, v) := kv in
  if bool_decide (k = "text") then metadata
  else
    match v with
    | JObject sub_items =>
        foldl (λ metadata '(sub_k, sub_v), <[sub_k := str_or_none sub_v]> metadata)
          metadata sub_items
    | _ => <[k := str_or_none v]> metadata
    end.

Definition flatten (items : list (string * json)) : gmap string pyval :=
  foldl flatten_item ∅ items.

(** One turn of the loop [for ticket in tickets].  A ticket that is not an
    object makes the membership test, the subscript or the call of [get]
    raise. *)
Definition add_ticket (acc : prepared) (ticket : json) : result prepared :=
  match ticket with
  | JObject items =>
      match item "text" items with
      | None => Ok acc
      | Some text =>
          let ticket_id :=
            default (JStr ("ticket_" +:+ str_int (Z.of_nat (length (ids acc)))))
                    (item "id" items) in
          Ok (Prepared (documents acc ++ [text])
                       (metadatas acc ++ [flatten items])
                       (ids acc ++ [str ticket_id]))
      end
  | JStr s =>
      if str_contains "text" s
      then Raise (TypeError "string indices must be integers")
      else Raise (AttributeError "'str' object has no attribute 'get'")
  | JList l =>
      if existsb is_text l
      then Raise (TypeError "list indices must be integers or slices, not str")
      else Raise (AttributeError "'list' object has no attribute 'get'")
  | _ => Raise (TypeError "argument is not iterable")
  end.

Fixpoint add_tickets (acc : prepared) (tickets : list json) : result prepared :=
  match tickets with
  | [] => Ok acc
  | ticket :: rest => acc ← add_ticket acc ticket; add_tickets acc rest
  end.

(** [len(tickets)] and [for ticket in tickets], whatever [tickets] is. *)
Definition iterate (tickets : json) : result (list json) :=
  match tickets with
  | JList l => Ok l
  | JStr s => Ok (chars s)
  | JObject items => Ok ((λ kv, JStr kv.1) <$> items)
  | _ => Raise (TypeError "object has no len()")
  end.

Definition tickets_of (data : json) : result (list json) :=
  match data with
  | JObject items =>
      match item "documents" items with
      | Some tickets => iterate tickets
      | None => Raise unrecognised_format
      end
  | JList l => Ok l
  | _ => Raise unrecognised_format
  end.

(** The loop over the batches, with the calls it makes; it ends at the
    first call that raises. *)
Fixpoint add_batches (starts : list nat) (p : prepared) (c : collection)
    : result unit * collection * list add_call :=
  match starts with
  | [] => (Ok (), c, [])
  | i :: starts =>
      let end_idx := (i + batch_size) `min` length (documents p) in
      let call := AddCall (slice i end_idx (documents p))
                          (slice i end_idx (metadatas p))
                          (slice i end_idx (ids p)) in
      match collection_add c call with
      | (Ok _, c) =>
          let '(outcome, c, calls) := add_batches starts p c in
          (outcome, c, call :: calls)
      | (Raise e, c) => (Raise e, c, [call])
      end
  end.

(** [load_tickets_from_json], from the loaded file on.  The exception that
    the function catches at its end and prints is given as the outcome;
    the function itself returns nothing. *)
Definition load_tickets_from_json (data : json) (c : collection)
    : result unit * collection * list add_call :=
  match tickets ← tickets_of data; add_tickets (Prepared [] [] []) tickets with
  | Ok p => add_batches (range (length (documents p)) batch_size) p c
  | Raise e => (Raise e, c, [])
  end.

End loader.

End TicketLoader.

(** ** server.py : the dispatch of the tool calls *)
Module Server.
Import Py.

(** [TextContent(type=..., text=...)] *)
Record text_content := TextContent { type : string; text : json_text }.

(** [str(KeyError(key))] shows the key between quotes. *)
Definition KeyError (key : string) : exn := Exn "KeyError" ("'" +:+ key +:+ "'").

(** [arguments[key]] *)
Definition subscript (arguments : gmap string pyval) (key : string) : result pyval :=
  match arguments !! key with
  | Some v => Ok v
  | None => Raise (KeyError key)
  end.

Definition unknown_tool (name : string) : exn := ValueError ("Tool sconosciuto: " +:+ name).

Definition error_response (name : string) (arguments : gmap string pyval) (e : exn)
    : gmap string pyval :=
  list_to_map [
    ("error", PStr (exn_msg e));
    ("tool", PStr name);
    ("arguments", PDict arguments)
  ].

Section server.
(** The clock, the parser and the two stores are those of the tools.  The
    tools are modelled on a text and an integer; what they do with
    arguments of other types is taken from the run time. *)
Context (now_year : Z) (html_parser : Bs4.parser).
Context (db : GetTicket.postgres) (store : Search.vector_store).
Context (search_untyped : pyval → pyval → result json_text).
Context (get_ticket_untyped : pyval → result json_text).

(** The two entries of [tool_handlers]. *)
Definition search_handler (arguments : gmap string pyval) : result json_text :=
  query_text ← subscript arguments "query_text";
  let n_results := dict_get arguments "n_results" (PInt 5) in
  match query_text, n_results with
  | PStr query_text, PInt n_results =>
      (Search.search_similar_tickets store query_text n_results).1
  | _, _ => search_untyped query_text n_results
  end.

Definition get_ticket_handler (arguments : gmap string pyval) : result json_text :=
  ticket_id ← subscript arguments "ticket_id";
  match ticket_id with
  | PStr ticket_id => GetTicket.get_ticket_by_id now_year html_parser db ticket_id
  | _ => get_ticket_untyped ticket_id
  end.

Definition handle_call_tool (name : string) (arguments : gmap string pyval)
    : result (list text_content) :=
  try_except
    (result ←
       (if bool_decide (name = "search_similar_tickets") then search_handler arguments
        else if bool_decide (name = "get_ticket_by_id") then get_ticket_handler arguments
        else Raise (unknown_tool name));
     mret [TextContent "text" result])
    (λ e,
       error_response ← json_dumps (PDict (error_response name arguments e));
       mret [TextContent "text" error_response]).

End server.

End Server.

(** ** Reference definitions, written from the specification *)
Module Reference.
Import Py.

(** The longest prefix made of characters of a class, and what follows. *)
Fixpoint span (p : ascii → bool) (s : string) : string * string :=
  match s with
  | "" => ("", "")
  | String c s' =>
      if p c then let '(a, b) := span p s' in (String c a, b) else ("", s)
  end.

(** A four-digit year. *)
Definition is_year (y : string) : bool :=
  bool_decide (String.length y = 4%nat) && all_chars isdigit y.

(** The first run of digits anywhere in the text. *)
Fixpoint first_digits (s : string) : option string :=
  match s with
  | "" => None
  | String c s' => if isdigit c then Some (fst (span isdigit s)) else first_digits s'
  end.

(** Rule 5 of the identifier parser. *)
Definition parse_fallback (now_year : Z) (s : string) : result (string * Z) :=
  match first_digits s with
  | Some number => Ok (number, now_year)
  | None => Raise (TicketId.unrecognised s)
  end.

(** The identifier parser as the specification words it: the four anchored
    shapes in priority order, then the fallback.  The second shape,
    digits-slash-year, is the first one with no letters and no dash. *)
Definition parse_identifier (now_year : Z) (s : string) : result (string * Z) :=
  let '(number, rest) := span isdigit s in
  if bool_decide (number = "") then parse_fallback now_year s
  else
    match rest with
    | "" => Ok (number, now_year)
    | String sep rest =>
        if is_char "/" sep then
          let '(_, rest) := span isletter rest in
          let year := match rest with
                      | String dash year => if is_char "-" dash then year else rest
                      | "" => rest
                      end in
          if is_year year then Ok (number, int_digits 0 year)
          else parse_fallback now_year s
        else if is_char "-" sep then
          if is_year rest then Ok (number, int_digits 0 rest)
          else parse_fallback now_year s
        else parse_fallback now_year s
    end.

(** The words of a text: its maximal runs of characters that are not white
    space, as [s.split()] lists them. *)
Definition starts_word (s : string) : bool :=
  match s with
  | "" => false
  | String c _ => negb (isspace c)
  end.

Fixpoint words (s : string) : list string :=
  match s with
  | "" => []
  | String c s' =>
      if isspace c then words s'
      else if starts_word s' then
        match words s' with
        | w :: ws => String c w :: ws
        | [] => [String c ""]
        end
      else String c "" :: words s'
  end.

(** White space normalization: every run of white space becomes one blank,
    and none is left at either end. *)
Definition normalize_whitespace (s : string) : string := String.concat " " (words s).

(** A document without markup: its text is all there is. *)
Definition plain_document (soup : Bs4.node) (text : string) : Prop :=
  ∃ name pieces,
    soup = Bs4.Tag name None (Bs4.NavigableString <$> pieces)
    ∧ String.concat "" pieces = text.

(** A parser that rejects its input. *)
Definition rejected : exn := Exn "ParserRejectedMarkup" "malformed markup".
Definition rejecting_parser : Bs4.parser := λ _, Raise rejected.

(** A row of the relational store: the column [dt_testo], when the row has
    it, holds a text or NULL. *)
Definition text_column (row : gmap string pyval) : Prop :=
  match row !! "dt_testo" with
  | Some (PStr _) | Some PNone | None => True
  | Some _ => False
  end.

(** The formatted copy of a row: the same keys, and the same value under
    every key but [dt_testo]. *)
Definition formatted_copy (row copy : gmap string pyval) : Prop :=
  dom copy = dom row ∧ ∀ key, key ≠ "dt_testo" → copy !! key = row !! key.

(** A table given by the texts of its cells, row by row. *)
Definition cell_of (text : string) : Bs4.node :=
  Bs4.Tag "td" None [Bs4.NavigableString text].
Definition row_of (cells : list string) : Bs4.node :=
  Bs4.Tag "tr" None (cell_of <$> cells).
Definition table_of (rows : list (list string)) : Bs4.node :=
  Bs4.Tag "table" None (row_of <$> rows).

(** The non-empty cell texts of a row. *)
Definition cell_texts (cells : list string) : list string :=
  filter (λ s, s ≠ "") (strip <$> cells).

(** The rows of a table that the lenient normalizer turns into text: two
    cells or more, one of them at least with a text. *)
Definition contributes (cells : list string) : bool :=
  bool_decide (2 ≤ length cells)%nat && CleanHtml.nonempty (cell_texts cells).

(** Table normalization as the specification words it: the rows with at
    least two non-empty cells, each joined with [": "], the rows joined
    with [". "] and closed by a period. *)
Definition table_sentence_spec (rows : list (list string)) : string :=
  String.concat ". "
    (String.concat ": " <$>
       filter (λ texts, 2 ≤ length texts)%nat (cell_texts <$> rows))
  +:+ ".".

End Reference.

(** ** Auxiliary notions for reasoning about the matcher *)
Module MatchAux.
Import Py Re.

(** The position reached after reading [pre]. *)
Fixpoint prev_after (prev : option ascii) (pre : string) : option ascii :=
  match pre with
  | "" => prev
  | String c pre' => prev_after (Some c) pre'
  end.

(** Exactly [n] characters of a class, and what follows them. *)
Fixpoint take_exact (cls : ascii → bool) (n : nat) (s : string) : option (string * string) :=
  match n, s with
  | O, _ => Some ("", s)
  | S n, String c s' =>
      if cls c then (λ '(a, b), (String c a, b)) <$> take_exact cls n s' else None
  | S _, "" => None
  end.

(** The end of the three patterns with a year: four digits as group 2, then
    the end of the subject. *)
Definition year_tail (g : groups) (r : string) : option match_obj :=
  match take_exact isdigit 4 r with
  | Some (y, r2) => if at_eol false r2 then Some (Match r2 (<[2%nat := y]> g)) else None
  | None => None
  end.

(** What [re.sub(r'\s+', ' ', s)] computes, in one pass: a blank for the
    first character of a run of white space, nothing for the others;
    [in_run] tells that the character before was white space. *)
Fixpoint collapse (in_run : bool) (s : string) : string :=
  match s with
  | "" => ""
  | String c s' =>
      if isspace c then
        if in_run then collapse true s' else String " " (collapse true s')
      else String c (collapse false s')
  end.

(** A subject that does not end with a newline. *)
Definition no_final_nl (s : string) : Prop := ∀ t, s ≠ t +:+ nl.

End MatchAux.

(** ** Further notions used to state properties *)
Module Notions.
Import Py.

(** The last character of a text. *)
Fixpoint last_char (s : string) : option ascii :=
  match s with
  | "" => None
  | String c s' =>
      match last_char s' with
      | Some d => Some d
      | None => Some c
      end
  end.

(** The decimal text of a year is four digits that read back as the year. *)
Definition year_text_ok (year : Z) : bool :=
  Reference.is_year (str_int year) && (int_digits 0 (str_int year) =? year)%Z.

(** A word: a non-empty text without white space. *)
Definition word (w : string) : Prop := w ≠ "" ∧ any_char isspace w = false.

(** Every character of the class [cls] is in the class [p]. *)
Definition cls_within (cls p : ascii → bool) : bool :=
  forallb (λ n, implb (cls (ascii_of_nat n)) (p (ascii_of_nat n))) (seq 0 256).

(** A pattern that cannot match without consuming a character of the
    class [p]. *)
Fixpoint requires (p : ascii → bool) (r : Re.regex) : bool :=
  match r with
  | Re.Rep cls (S _) _ => cls_within cls p
  | Re.Seq r1 r2 => requires p r1 || requires p r2
  | Re.Alt r1 r2 => requires p r1 && requires p r2
  | Re.Grp _ r => requires p r
  | _ => false
  end.

(** The characters that the patterns of [preprocess_text] need: a colon
    for a URL, an at sign for an address, a digit for a phone number or a
    date. *)
Definition marks (c : ascii) : bool := is_char ":" c || is_char "@" c || isdigit c.

(** A list given by the texts of its items. *)
Definition item_of (text : string) : Bs4.node :=
  Bs4.Tag "li" None [Bs4.NavigableString text].
Definition list_of (items : list string) : Bs4.node :=
  Bs4.Tag "ul" None (item_of <$> items).

(** The number of lists and dicts nested in a value. *)
Fixpoint size (v : pyval) : nat :=
  match v with
  | PList l => S (sum_list (size <$> l))
  | PDict d => S (map_fold (λ _ v n, size v + n)%nat 0%nat d)
  | _ => 0%nat
  end.

(** A value that is, or holds at any depth, a value of a given kind. *)
Fixpoint contains (p : pyval → bool) (v : pyval) : bool :=
  p v ||
  match v with
  | PList l => existsb (contains p) l
  | PDict d => map_fold (λ _ v found, contains p v || found) false d
  | _ => false
  end.

Definition is_decimal (v : pyval) : bool :=
  match v with PDecimal _ => true | _ => false end.
Definition is_datetime (v : pyval) : bool :=
  match v with PDateTime _ => true | _ => false end.

(** The non-empty stripped texts of the items of a list. *)
Definition item_texts (items : list string) : list string :=
  filter (λ s, s ≠ "") (strip <$> items).

(** The line a row of cells gives in the display normalizer: the first
    non-empty text as a label, the others after it; nothing for a row with
    fewer than two non-empty texts. *)
Definition display_row (cells : list string) : option string :=
  match Reference.cell_texts cells with
  | label :: value :: values =>
      Some (label +:+ ": " +:+ String.concat " | " (value :: values))
  | _ => None
  end.

(** Letters and digits. *)
Definition plain (c : ascii) : bool := isletter c || isdigit c.

Definition starts_plain (s : string) : bool :=
  match s with
  | String c _ => plain c
  | "" => false
  end.

(** What follows the character [after] in a sentence: letters and digits,
    with single blanks between them and none at the end. *)
Fixpoint spaced (after : ascii) (s : string) : bool :=
  match s with
  | "" => plain after
  | String c s' =>
      (plain c || is_char " " c && plain after && starts_plain s') && spaced c s'
  end.

(** A sentence: words of letters and digits separated by single blanks. *)
Definition sentence (s : string) : bool :=
  match s with
  | String c s' => plain c && spaced c s'
  | "" => false
  end.

(** What follows the character [after] in the text of a document made of
    paragraphs of sentences, each followed by two newlines. *)
Fixpoint ready (after : ascii) (s : string) : bool :=
  match s with
  | "" => is_char "010" after
  | String c s' =>
      (plain c
       || is_char " " c && plain after && starts_plain s'
       || is_char "010" c
          && (if plain after
              then match s' with String d _ => is_char "010" d | "" => false end
              else is_char "010" after
                   && match s' with String d _ => plain d | "" => true end))
      && ready c s'
  end.

Fixpoint without_newlines (s : string) : string :=
  match s with
  | "" => ""
  | String c s' =>
      if is_char "010" c then without_newlines s' else String c (without_newlines s')
  end.

(** A paragraph given by its text, and the text of a run of paragraphs as
    the display normalizer extracts it. *)
Definition paragraph_of (text : string) : Bs4.node :=
  Bs4.Tag "p" None [Bs4.NavigableString text].

Fixpoint paragraphs_text (paragraphs : list string) : string :=
  match paragraphs with
  | [] => ""
  | a :: l => a +:+ String "010" (String "010" (paragraphs_text l))
  end.

(** The characters that the entity and office patterns of the display
    normalizer need. *)
Definition entity_marks (c : ascii) : bool :=
  is_char "&" c || is_char "<" c || is_char "-" c.

(** The call of [collection.add] for the batch that starts at [i]. *)
Definition call_at (p : TicketLoader.prepared) (i : nat) : TicketLoader.add_call :=
  let end_idx := (i + TicketLoader.batch_size) `min` length (TicketLoader.documents p) in
  TicketLoader.AddCall
    (TicketLoader.slice i end_idx (TicketLoader.documents p))
    (TicketLoader.slice i end_idx (TicketLoader.metadatas p))
    (TicketLoader.slice i end_idx (TicketLoader.ids p)).

(** The id given to the [k]-th loaded ticket. *)
Definition loaded_id (repr : TicketLoader.json → string) (k : nat)
    (items : list (string * TicketLoader.json)) : string :=
  TicketLoader.str repr
    (default (TicketLoader.JStr ("ticket_" +:+ str_int (Z.of_nat k)))
             (TicketLoader.item "id" items)).

(** A document as [process_tickets] writes it to the file. *)
Definition document_items (id text : string) (title company date : TicketLoader.json)
    (year : string) (original_id : TicketLoader.json)
    : list (string * TicketLoader.json) :=
  [("id", TicketLoader.JStr id); ("text", TicketLoader.JStr text);
   ("metadata", TicketLoader.JObject
      [("title", title); ("company", company); ("date", date);
       ("year", TicketLoader.JStr year); ("original_id", original_id)])].

(** A row as the cursor delivers it to [get_ticket_by_id]: the column
    [dt_testo] holds a text or NULL, the column [dt__data] a [datetime] or
    NULL, and no other column holds a [datetime]. *)
Definition date_column (row : gmap string pyval) : Prop :=
  match row !! "dt__data" with
  | Some (PDateTime _) | Some PNone | None => True
  | Some _ => False
  end.

Definition delivered_row (row : gmap string pyval) : Prop :=
  Reference.text_column row ∧ date_column row
  ∧ ∀ key v, key ≠ "dt__data" → row !! key = Some v → contains is_datetime v = false.

(** The value a column has in the answer: the date in ISO form, a
    [Decimal] as a float. *)
Definition delivered_value (v : pyval) : pyval :=
  match v with
  | PDateTime iso => PStr iso
  | _ => GetTicket.convert_decimals v
  end.

(** A row of the answer of [get_ticket_by_id], against the row of the
    cursor: the same columns, a text or NULL under [dt_testo], and under
    every other column the delivered value. *)
Definition answered_row (row entry : gmap string pyval) : Prop :=
  dom entry = dom row
  ∧ Reference.text_column entry
  ∧ ∀ key, key ≠ "dt_testo" → entry !! key = delivered_value <$> row !! key.

(** Every object of the store has a text or NULL under [dt_testo]. *)
Definition text_store (h : heap) : Prop :=
  map_Forall (λ _ d, Reference.text_column d) h.

End Notions.

(** * Part II: properties *)

Module ReFacts.
Import Py Re Reference MatchAux.

Lemma append_cons c a b : String c a +:+ b = String c (a +:+ b).
Proof. reflexivity. Qed.

Lemma append_nil b : "" +:+ b = b.
Proof. reflexivity. Qed.

Lemma length_append a b : String.length (a +:+ b) = (String.length a + String.length b)%nat.
Proof. induction a as [|c a IH]; [done|]. rewrite append_cons. simpl. by rewrite IH. Qed.

Lemma span_app p s : (span p s).1 +:+ (span p s).2 = s.
Proof.
  induction s as [|c s IH]; simpl; [done|].
  destruct (p c); [|done]. destruct (span p s) as [a b]. simpl in *. by rewrite <- IH.
Qed.

Lemma span_all p s : all_chars p (span p s).1 = true.
Proof.
  induction s as [|c s IH]; simpl; [done|].
  destruct (p c) eqn:E; [|done]. destruct (span p s) as [a b]. simpl in *. by rewrite E.
Qed.

Lemma consumed_app a b : consumed (a +:+ b) b = a.
Proof.
  unfold consumed.
  replace (String.length (a +:+ b) - String.length b)%nat with (String.length a)
    by (rewrite length_append; lia).
  induction a as [|c a IH].
  - by destruct b.
  - rewrite append_cons. simpl. by rewrite IH.
Qed.

Section rep.
Context {R : Type}.
Implicit Types (k : option ascii → string → option R).

(** A bounded repetition [cls{n}] reads exactly [n] characters. *)
Lemma rep_exact cls n prev s k :
  rep cls n (Some n) prev s k =
    match take_exact cls n s with
    | Some (a, b) => k (prev_after prev a) b
    | None => None
    end.
Proof.
  revert n prev. induction s as [|c s IH]; intros [|n] prev; simpl; try done.
  destruct (cls c); [|done].
  rewrite IH. destruct (take_exact cls n s) as [[a b]|]; simpl; [|done].
  by destruct (k _ _).
Qed.

(** An open repetition whose continuation refuses to start on a character
    of the class reads the whole run. *)
Lemma rep_greedy cls lo prev s k :
  (∀ p c t, cls c = true → k p (String c t) = None) →
  rep cls lo None prev s k =
    if (lo <=? String.length (span cls s).1)%nat
    then k (prev_after prev (span cls s).1) (span cls s).2
    else None.
Proof.
  intros Hk. revert lo prev. induction s as [|c s IH]; intros lo prev; simpl.
  - destruct lo; by simpl.
  - destruct (cls c) eqn:E.
    + rewrite IH. destruct (span cls s) as [a b]. simpl.
      destruct lo as [|lo]; simpl.
      * rewrite Hk by done. by destruct (k _ _).
      * destruct (lo <=? String.length a)%nat; [|done]. by destruct (k _ b).
    + simpl. by destruct lo.
Qed.

(** An open repetition whose continuation always accepts reads the whole
    run as well. *)
Lemma rep_longest cls lo prev s k :
  (∀ p t, k p t ≠ None) →
  rep cls lo None prev s k =
    if (lo <=? String.length (span cls s).1)%nat
    then k (prev_after prev (span cls s).1) (span cls s).2
    else None.
Proof.
  intros Hk. revert lo prev. induction s as [|c s IH]; intros lo prev; simpl.
  - destruct lo; by simpl.
  - destruct (cls c) eqn:E.
    + rewrite IH. destruct (span cls s) as [a b]. simpl.
      destruct lo as [|lo]; simpl.
      * specialize (Hk (prev_after (Some c) a) b). by destruct (k _ b).
      * destruct (lo <=? String.length a)%nat; [|done]. by destruct (k _ b).
    + simpl. by destruct lo.
Qed.

Lemma rep_chr cls prev s k :
  rep cls 1 (Some 1%nat) prev s k =
    match s with
    | String c s' => if cls c then k (Some c) s' else None
    | "" => None
    end.
Proof. destruct s as [|c [|d s]]; simpl; [done| |]; destruct (cls c); simpl; try done; by destruct (k _ _). Qed.

Lemma rep_opt cls prev s k :
  rep cls 0 (Some 1%nat) prev s k =
    match s with
    | String c s' =>
        if cls c then match k (Some c) s' with Some x => Some x | None => k prev s end
        else k prev s
    | "" => k prev s
    end.
Proof. destruct s as [|c [|d s]]; simpl; [done| |]; destruct (cls c); simpl; done. Qed.
End rep.

Import TicketId.

Lemma take_exact_app cls n s a b : take_exact cls n s = Some (a, b) → s = a +:+ b.
Proof.
  revert s a b. induction n as [|n IH]; intros s a b; simpl.
  - by intros [= <- <-].
  - destruct s as [|c s]; [done|]. destruct (cls c); [|done].
    destruct (take_exact cls n s) as [[x y]|] eqn:E; simpl; [|done].
    intros [= <- <-]. rewrite append_cons. f_equal. by apply IH.
Qed.

Lemma digit_not_eol c t : isdigit c = true → at_eol false (String c t) = false.
Proof.
  intros Hc. unfold at_eol. destruct t; simpl; [|done].
  unfold is_char. apply bool_decide_eq_false. intros <-. done.
Qed.

Lemma match_number s :
  re_match pat_number s =
    let '(n, r) := span isdigit s in
    if str_truthy n && at_eol false r
    then Some (Match r (<[1%nat := n]> ∅)) else None.
Proof.
  unfold re_match, match_here. cbn.
  rewrite rep_greedy.
  - pose proof (span_app isdigit s) as Happ.
    destruct (span isdigit s) as [n r]. simpl in *.
    rewrite <- Happ at 1. rewrite consumed_app.
    by destruct n.
  - intros p c t Hc. by rewrite digit_not_eol.
Qed.

Lemma digit_not_char a c : isdigit a = false → isdigit c = true → is_char a c = false.
Proof. intros Ha Hc. apply bool_decide_eq_false. intros <-. congruence. Qed.

Lemma match_dash s :
  re_match pat_dash s =
    let '(n, r) := span isdigit s in
    if str_truthy n then
      match r with
      | String c r1 => if is_char "-" c then year_tail (<[1%nat := n]> ∅) r1 else None
      | "" => None
      end
    else None.
Proof.
  unfold re_match, match_here. cbn.
  rewrite rep_greedy.
  - pose proof (span_app isdigit s) as Happ.
    destruct (span isdigit s) as [n r]. simpl in *.
    destruct n as [|d n]; [done|]. simpl.
    rewrite rep_chr. destruct r as [|c r1]; [done|].
    destruct (is_char "-" c); [|done].
    rewrite rep_exact. unfold year_tail.
    destruct (take_exact isdigit 4 r1) as [[y r2]|] eqn:E; [|done].
    apply take_exact_app in E. subst r1.
    rewrite consumed_app. rewrite <- Happ.
    change (String d n +:+ String c (y +:+ r2)) with ((String d n) +:+ (String c (y +:+ r2))).
    rewrite consumed_app. done.
  - intros p c t Hc. rewrite rep_chr. by rewrite digit_not_char.
Qed.

Lemma match_slash s :
  re_match pat_slash s =
    let '(n, r) := span isdigit s in
    if str_truthy n then
      match r with
      | String c r1 => if is_char "/" c then year_tail (<[1%nat := n]> ∅) r1 else None
      | "" => None
      end
    else None.
Proof.
  unfold re_match, match_here. cbn.
  rewrite rep_greedy.
  - pose proof (span_app isdigit s) as Happ.
    destruct (span isdigit s) as [n r]. simpl in *.
    destruct n as [|d n]; [done|]. simpl.
    rewrite rep_chr. destruct r as [|c r1]; [done|].
    destruct (is_char "/" c); [|done].
    rewrite rep_exact. unfold year_tail.
    destruct (take_exact isdigit 4 r1) as [[y r2]|] eqn:E; [|done].
    apply take_exact_app in E. subst r1.
    rewrite consumed_app. rewrite <- Happ.
    change (String d n +:+ String c (y +:+ r2)) with ((String d n) +:+ (String c (y +:+ r2))).
    rewrite consumed_app. done.
  - intros p c t Hc. rewrite rep_chr. by rewrite digit_not_char.
Qed.

Lemma year_rep g prev r :
  rep isdigit 4 (Some 4%nat) prev r
    (λ _ s', if at_eol false s'
             then Some (Match s' (<[2%nat := consumed r s']> g)) else None)
  = year_tail g r.
Proof.
  rewrite rep_exact. unfold year_tail.
  destruct (take_exact isdigit 4 r) as [[y r2]|] eqn:E; [|done].
  apply take_exact_app in E. subst r. by rewrite consumed_app.
Qed.

Lemma letter_not_digit c : isletter c = true → isdigit c = false.
Proof.
  unfold isletter, isdigit, in_range. intros H.
  apply orb_true_iff in H. rewrite !andb_true_iff, !N.leb_le in H.
  apply andb_false_iff. rewrite !N.leb_gt. lia.
Qed.

Lemma year_tail_stop g c t : isdigit c = false → year_tail g (String c t) = None.
Proof. intros H. unfold year_tail. simpl. by rewrite H. Qed.

Lemma match_prefixed s :
  re_match pat_prefixed s =
    let '(n, r) := span isdigit s in
    if str_truthy n then
      match r with
      | String c r1 =>
          if is_char "/" c then
            let r2 := (span isletter r1).2 in
            match r2 with
            | String d r3 =>
                if is_char "-" d then year_tail (<[1%nat := n]> ∅) r3
                else year_tail (<[1%nat := n]> ∅) r2
            | "" => None
            end
          else None
      | "" => None
      end
    else None.
Proof.
  unfold re_match, match_here. cbn.
  rewrite rep_greedy.
  - pose proof (span_app isdigit s) as Happ.
    destruct (span isdigit s) as [n r]. simpl in *.
    destruct n as [|d0 n]; [done|]. simpl.
    rewrite rep_chr. destruct r as [|c r1]; [done|].
    destruct (is_char "/" c); [|done].
    rewrite <- Happ.
    change (String d0 n +:+ String c r1) with ((String d0 n) +:+ (String c r1)).
    rewrite consumed_app.
    rewrite rep_greedy.
    + simpl. rewrite rep_opt. rewrite !year_rep.
      destruct (span isletter r1).2 as [|d r3]; [done|].
      destruct (is_char "-" d) eqn:Ed; [|done].
      rewrite (year_tail_stop _ d r3).
      * rewrite year_rep. by destruct (year_tail _ r3).
      * apply bool_decide_eq_true in Ed. by subst d.
    + intros p a t Ha. rewrite rep_opt, !year_rep.
      rewrite (year_tail_stop _ a t) by by apply letter_not_digit.
      destruct (is_char "-" a) eqn:Ed; [|done].
      apply bool_decide_eq_true in Ed. by subst a.
  - intros p c t Hc. rewrite rep_chr. by rewrite digit_not_char.
Qed.

Lemma append_assoc a b c : (a +:+ b) +:+ c = a +:+ (b +:+ c).
Proof. induction a as [|x a IH]; [done|]. rewrite !append_cons. by rewrite IH. Qed.

Lemma no_final_nl_suffix a r : no_final_nl (a +:+ r) → no_final_nl r.
Proof. intros H t ->. apply (H (a +:+ t)). by rewrite append_assoc. Qed.

Lemma at_eol_spec s : no_final_nl s → at_eol false s = bool_decide (s = "").
Proof.
  intros H. destruct s as [|c [|d s]]; simpl; try done.
  apply bool_decide_eq_false. intros <-. by apply (H "").
Qed.

Lemma year_tail_spec g r :
  no_final_nl r →
  year_tail g r = if is_year r then Some (Match "" (<[2%nat := r]> g)) else None.
Proof.
  intros H. unfold year_tail, is_year.
  destruct r as [|a [|b [|c [|d r]]]]; simpl; try done;
    try (by repeat (case_match; simpl; try done)).
  destruct (isdigit a), (isdigit b), (isdigit c), (isdigit d); simpl; try done;
    try (by destruct r).
  rewrite at_eol_spec.
  - by destruct r.
  - apply (no_final_nl_suffix (String a (String b (String c (String d ""))))). done.
Qed.

Lemma is_year_int y : is_year y = true → int y = Ok (int_digits 0 y).
Proof.
  unfold is_year, int. intros [Hl Hd]%andb_true_iff. rewrite Hd.
  destruct y; [|done]. by apply bool_decide_eq_true in Hl.
Qed.

Lemma search_number prev s :
  (λ r, group_text r.2 1) <$> search_from false pat_any_number prev s = first_digits s.
Proof.
  revert prev. induction s as [|c s IH]; intros prev; [done|].
  cbn [search_from first_digits].
  unfold match_here. cbn [rmatch pat_any_number Plus andb].
  rewrite rep_longest by done.
  pose proof (span_app isdigit (String c s)) as Happ.
  simpl in *. destruct (isdigit c).
  - destruct (span isdigit s) as [a b]. simpl in *.
    rewrite <- Happ at 1.
    change (String c (a +:+ b)) with (String c a +:+ b). rewrite consumed_app.
    simpl. unfold group_text, group. simpl. by rewrite lookup_insert_eq.
  - simpl. apply IH.
Qed.

Lemma re_search_number s :
  re_search pat_any_number s =
    (λ r, r.2) <$> search_from false pat_any_number None s.
Proof. done. Qed.

Lemma rstrip_last s t c : rstrip s = t +:+ String c "" → isspace c = false.
Proof.
  revert t. induction s as [|a s IH]; intros t; simpl.
  - by destruct t.
  - destruct (rstrip s) as [|b r] eqn:E.
    + destruct (isspace a) eqn:Ea.
      * by destruct t.
      * destruct t as [|x [|y t]]; [|done..]. by intros [= <-].
    + destruct t as [|x t]; [done|]. rewrite append_cons. intros [= <- H]. by apply (IH t).
Qed.

Lemma lstrip_suffix x : ∃ a, x = a +:+ lstrip x.
Proof.
  induction x as [|c x [a IH]]; simpl.
  - by exists "".
  - destruct (isspace c).
    + exists (String c a). rewrite append_cons. by f_equal.
    + by exists "".
Qed.

Lemma strip_no_final_nl s : no_final_nl (strip s).
Proof.
  intros t H. unfold strip in H.
  destruct (lstrip_suffix (rstrip s)) as [a Ha]. rewrite H in Ha.
  rewrite <- append_assoc in Ha. by apply rstrip_last in Ha.
Qed.

Lemma first_digits_any s : first_digits s = None ↔ any_char isdigit s = false.
Proof.
  induction s as [|c s IH]; simpl; [done|].
  destruct (isdigit c); simpl; [|done]. split; done.
Qed.

Lemma first_digits_prefix s c n r :
  span isdigit s = (String c n, r) → first_digits s = Some (String c n).
Proof.
  destruct s as [|a s]; simpl; [done|].
  destruct (isdigit a); [|done]. destruct (span isdigit s). by intros [= -> -> ->].
Qed.

Lemma digit_not_letter c : isdigit c = true → isletter c = false.
Proof.
  intros H. destruct (isletter c) eqn:E; [|done].
  apply letter_not_digit in E. congruence.
Qed.

Lemma is_year_span_letters r : is_year r = true → span isletter r = ("", r).
Proof.
  unfold is_year. intros [Hl Hd]%andb_true_iff.
  destruct r as [|a r]; [done|]. simpl in *.
  apply andb_true_iff in Hd as [Ha _]. by rewrite digit_not_letter.
Qed.

Lemma is_year_not_dash d r : is_char "-" d = true → is_year (String d r) = false.
Proof.
  intros <-%bool_decide_eq_true. unfold is_year. simpl. by rewrite andb_false_r.
Qed.

(** What a two-group pattern returns once the year part has matched. *)
Lemma year_outcome n r (rest : option (result (string * Z))) :
  no_final_nl r →
  match year_tail (<[1%nat := n]> ∅) r with
  | Some m => Some (int (group_text m 2) ≫= λ year : Z, mret (group_text m 1, year))
  | None => rest
  end = if is_year r then Some (Ok (n, int_digits 0 r)) else rest.
Proof.
  intros H. rewrite year_tail_spec by done.
  destruct (is_year r) eqn:E; [|done].
  unfold group_text, group. simpl.
  rewrite lookup_insert_eq, lookup_insert_ne, lookup_insert_eq by done. simpl.
  by rewrite is_year_int.
Qed.

Lemma ngroups_prefixed : ngroups pat_prefixed = 2%nat. Proof. done. Qed.
Lemma ngroups_slash : ngroups pat_slash = 2%nat. Proof. done. Qed.
Lemma ngroups_dash : ngroups pat_dash = 2%nat. Proof. done. Qed.
Lemma ngroups_number : ngroups pat_number = 1%nat. Proof. done. Qed.

Lemma parse_ticket_id_reference now s :
  strip s = s → parse_ticket_id now s = Reference.parse_identifier now s.
Proof.
  intros Hs. pose proof (strip_no_final_nl s) as Hnl. rewrite Hs in Hnl.
  unfold parse_ticket_id, parse_identifier, patterns, try_patterns. rewrite Hs.
  rewrite match_prefixed, match_slash, match_dash, match_number.
  rewrite re_search_number.
  pose proof (search_number None s) as Hsearch.
  pose proof (span_app isdigit s) as Happ.
  pose proof (first_digits_prefix s) as Hpre.
  destruct (span isdigit s) as [n r]. simpl in Happ.
  assert (Hr : no_final_nl r) by (apply (no_final_nl_suffix n); by rewrite Happ).
  destruct n as [|d n].
  { simpl. unfold parse_fallback. rewrite <- Hsearch.
    by destruct (search_from false pat_any_number None s) as [[? ?]|]. }
  assert (Hfb : parse_fallback now s = Ok (String d n, now)).
  { unfold parse_fallback. by rewrite (Hpre d n r). }
  assert (Hsf : match (λ r, r.2) <$> search_from false pat_any_number None s with
                | Some number_match => Ok (group_text number_match 1, now)
                | None => Raise (unrecognised s)
                end = Ok (String d n, now)).
  { rewrite <- Hfb. unfold parse_fallback. rewrite <- Hsearch.
    by destruct (search_from false pat_any_number None s) as [[? ?]|]. }
  rewrite ngroups_prefixed, ngroups_slash, ngroups_dash, ngroups_number.
  rewrite !(bool_decide_true (2 = 2)%nat), (bool_decide_false (1 = 2)%nat),
    (bool_decide_true (1 = 1)%nat) by done.
  replace (str_truthy (String d n)) with true by done.
  replace (bool_decide (String d n = "")) with false by done.
  cbn [andb].
  destruct r as [|c r1].
  { done. }
  rewrite (at_eol_spec (String c r1)) by done.
  replace (bool_decide (String c r1 = "")) with false by done.
  assert (Hr1 : no_final_nl r1) by (by apply (no_final_nl_suffix (String c ""))).
  destruct (is_char "/" c) eqn:Eslash.
  - assert (Edash : is_char "-" c = false).
    { apply bool_decide_eq_true in Eslash. by subst c. }
    rewrite Edash.
    pose proof (span_app isletter r1) as Hl.
    pose proof (is_year_span_letters r1) as Hy1.
    destruct (span isletter r1) as [l r2]. simpl in Hl |- *.
    assert (Hr2 : no_final_nl r2) by (apply (no_final_nl_suffix l); by rewrite Hl).
    rewrite (year_outcome _ r1) by done.
    destruct r2 as [|d0 r3].
    + destruct (is_year r1) eqn:Ey1.
      * specialize (Hy1 eq_refl). injection Hy1 as -> <-. done.
      * by rewrite Hsf, Hfb.
    + assert (Hr3 : no_final_nl r3) by (by apply (no_final_nl_suffix (String d0 ""))).
      destruct (is_char "-" d0) eqn:Ed0.
      * rewrite (year_outcome _ r3) by done.
        destruct (is_year r3); [done|].
        destruct (is_year r1) eqn:Ey1.
        -- specialize (Hy1 eq_refl). injection Hy1 as -> <-.
           by rewrite is_year_not_dash in Ey1.
        -- by rewrite Hsf, Hfb.
      * rewrite (year_outcome _ (String d0 r3)) by done.
        destruct (is_year (String d0 r3)) eqn:Ey2; [done|].
        destruct (is_year r1) eqn:Ey1.
        -- specialize (Hy1 eq_refl). injection Hy1 as -> <-. congruence.
        -- by rewrite Hsf, Hfb.
  - destruct (is_char "-" c) eqn:Edash.
    + rewrite (year_outcome _ r1) by done.
      destruct (is_year r1); [done|]. by rewrite Hsf, Hfb.
    + by rewrite Hsf, Hfb.
Qed.

Lemma span_nonempty_digits s c n r :
  span isdigit s = (String c n, r) → all_chars isdigit (String c n) = true.
Proof. intros H. pose proof (span_all isdigit s) as Ha. by rewrite H in Ha. Qed.

Lemma first_digits_digits s n :
  first_digits s = Some n → all_chars isdigit n = true ∧ n ≠ "".
Proof.
  revert n. induction s as [|c s IH]; intros n; [done|]. cbn [first_digits].
  destruct (isdigit c) eqn:E; [|by apply IH].
  intros [= <-]. split; [apply (span_all isdigit (String c s))|].
  simpl. rewrite E. by destruct (span isdigit s).
Qed.

(** The reference parser returns a run of digits exactly when the text
    holds a digit, and otherwise reports the text as unrecognised. *)
Lemma parse_identifier_outcome now s :
  (any_char isdigit s = false ∧ parse_identifier now s = Raise (unrecognised s))
  ∨ (any_char isdigit s = true ∧
     ∃ number year, parse_identifier now s = Ok (number, year)
                    ∧ all_chars isdigit number = true ∧ number ≠ "").
Proof.
  assert (Hfb : (any_char isdigit s = false ∧ parse_fallback now s = Raise (unrecognised s))
    ∨ (any_char isdigit s = true ∧
       ∃ number year, parse_fallback now s = Ok (number, year)
                      ∧ all_chars isdigit number = true ∧ number ≠ "")).
  { unfold parse_fallback. destruct (first_digits s) as [n|] eqn:E.
    - right. split.
      + destruct (any_char isdigit s) eqn:Ea; [done|].
        apply first_digits_any in Ea. congruence.
      + exists n, now. split; [done|]. by apply first_digits_digits in E.
    - left. split; [by apply first_digits_any|done]. }
  unfold parse_identifier.
  pose proof (span_nonempty_digits s) as Hn.
  pose proof (first_digits_prefix s) as Hp.
  destruct (span isdigit s) as [n r].
  destruct n as [|d n]; [done|].
  assert (Hany : any_char isdigit s = true).
  { destruct (any_char isdigit s) eqn:Ea; [done|].
    apply first_digits_any in Ea. by rewrite (Hp d n r) in Ea. }
  assert (Hok : ∀ y, any_char isdigit s = true ∧
     ∃ number year, Ok (String d n, y) = Ok (number, year) :> result (string * Z)
                    ∧ all_chars isdigit number = true ∧ number ≠ "").
  { intros y. split; [done|]. exists (String d n), y. split; [done|].
    split; [by apply (Hn d n r)|done]. }
  replace (bool_decide (String d n = "")) with false by done.
  destruct r as [|sep r]; [right; apply Hok|].
  destruct (is_char "/" sep).
  - destruct (span isletter r) as [l r2].
    destruct (is_year _); [right; apply Hok|done].
  - destruct (is_char "-" sep); [|done].
    destruct (is_year _); [right; apply Hok|done].
Qed.

End ReFacts.

Import Py Re TicketId Reference.

(** C1. On a trimmed identifier [parse_ticket_id] is the parser of the
    specification: the four anchored shapes in priority order, then the
    first run of digits with the current year.  It raises exactly when the
    identifier holds no digit, the error being the unrecognised-format one,
    and otherwise returns a non-empty run of digits with a year.  The four
    documented shapes and the text without digits give the documented
    results. *)
Theorem parse_ticket_id_spec (now_year : Z) (ticket_id : string) :
  strip ticket_id = ticket_id →
  parse_ticket_id now_year ticket_id = parse_identifier now_year ticket_id
  ∧ (any_char isdigit ticket_id = false ↔
       parse_ticket_id now_year ticket_id = Raise (unrecognised ticket_id))
  ∧ (any_char isdigit ticket_id = false ↔
       ∃ e, parse_ticket_id now_year ticket_id = Raise e)
  ∧ (any_char isdigit ticket_id = true ↔
       ∃ number year, parse_ticket_id now_year ticket_id = Ok (number, year)
                      ∧ all_chars isdigit number = true ∧ number ≠ "")
  ∧ parse_ticket_id now_year "3906" = Ok ("3906", now_year)
  ∧ parse_ticket_id now_year "3906/SPC-2024" = Ok ("3906", 2024%Z)
  ∧ parse_ticket_id now_year "3906/2024" = Ok ("3906", 2024%Z)
  ∧ parse_ticket_id now_year "3906-2024" = Ok ("3906", 2024%Z)
  ∧ parse_ticket_id now_year "abc" = Raise (unrecognised "abc").
Proof.
  intros Htrim.
  rewrite (ReFacts.parse_ticket_id_reference now_year ticket_id Htrim).
  split; [done|].
  destruct (ReFacts.parse_identifier_outcome now_year ticket_id)
    as [[Hno Hraise]|[Hany (number & year & Hok & Hdigits & Hne)]].
  - rewrite Hno, Hraise. repeat split; try done; eauto.
    intros (? & ? & ? & _). done.
  - rewrite Hany, Hok. repeat split; try done; eauto.
    intros [e He]. done.
Qed.

Lemma parse_ticket_id_spec_witness :
  parse_ticket_id 2026 "3906/SPC2024" = parse_identifier 2026 "3906/SPC2024"
  ∧ parse_ticket_id 2026 "3906/SPC2024" = Ok ("3906", 2024%Z).
Proof.
  split.
  - apply (parse_ticket_id_spec 2026 "3906/SPC2024"). reflexivity.
  - reflexivity.
Defined.

(** ** The lenient normalizer on text without markup *)
Module LenientFacts.
Import Py Re Bs4 CleanHtml Reference MatchAux ReFacts.

Lemma sub_go_0 ml r t prev s :
  sub_go ml r t prev s 0 =
    let step (hit : option match_obj) : string :=
      match hit, s with
      | Some m, "" => expand t (m_groups m)
      | Some m, String c s' =>
          expand t (m_groups m) +:+ sub_go ml r t (Some c) s' (Nat.pred (match_len s m))
      | None, "" => ""
      | None, String c s' => String c (sub_go ml r t (Some c) s' 0)
      end in
    match match_here ml false r prev s with
    | Some m =>
        if bool_decide (match_len s m = 0%nat)
        then expand t (m_groups m) +:+ step (match_here ml true r prev s)
        else step (Some m)
    | None => step None
    end.
Proof. by destruct s. Qed.

Lemma sub_go_S ml r t prev c s n :
  sub_go ml r t prev (String c s) (S n) = sub_go ml r t (Some c) s n.
Proof. done. Qed.

Lemma match_spaces prev s :
  match_here false false re_spaces prev s =
    if str_truthy (span isspace s).1 then Some (Match (span isspace s).2 ∅) else None.
Proof.
  unfold match_here, re_spaces, Plus. cbn [rmatch andb].
  rewrite rep_longest by done.
  by destruct (span isspace s).1.
Qed.

Lemma collapse_start s : starts_word s = true ∨ s = "" → collapse true s = collapse false s.
Proof.
  destruct s as [|c s]; [done|]. simpl. intros [H|H]; [|done].
  by destruct (isspace c).
Qed.


Lemma span_spaces_nil s b : span isspace s = ("", b) → starts_word s = true ∨ s = "".
Proof.
  destruct s as [|x s]; [by right|]. simpl.
  destruct (isspace x); [|by left]. by destruct (span isspace s).
Qed.

(** [re.sub(r'\s+', ' ', s)], position by position. *)
Lemma sub_spaces s : ∀ prev skip,
  (skip = 0 ∨ String.length (span isspace s).1 = skip)%nat →
  sub_go false re_spaces [PLit " "] prev s skip = collapse (negb (skip =? 0)%nat) s.
Proof.
  induction s as [|c s IH]; intros prev skip Hskip.
  - destruct skip; [|done]. by rewrite sub_go_0, match_spaces.
  - destruct skip as [|n].
    + rewrite sub_go_0, match_spaces. cbn [span Nat.eqb negb collapse].
      destruct (isspace c) eqn:Ec.
      * destruct (span isspace s) as [a b] eqn:Es. cbn [fst snd].
        replace (str_truthy (String c a)) with true by done.
        unfold match_len. cbn [m_rest].
        assert (Hlen : (String.length (String c s) - String.length b = S (String.length a))%nat).
        { pose proof (span_app isspace s) as Happ. rewrite Es in Happ. simpl in Happ.
          rewrite <- Happ. simpl. rewrite length_append. lia. }
        rewrite Hlen. rewrite bool_decide_false by done.
        cbn [expand m_groups Nat.pred].
        change (" " +:+ "") with " ". rewrite append_cons, append_nil.
        f_equal. rewrite IH by (by right).
        destruct a as [|x a]; [|done]. simpl.
        symmetry. apply collapse_start. by apply (span_spaces_nil s b).
      * cbn [fst snd str_truthy]. simpl. f_equal. by apply IH; left.
    + destruct Hskip as [|Hskip]; [done|].
      rewrite sub_go_S. cbn [Nat.eqb negb collapse].
      simpl in Hskip. destruct (isspace c) eqn:Ec; [|done].
      destruct (span isspace s) as [a b] eqn:Es. simpl in Hskip.
      rewrite IH by (right; simpl; lia).
      destruct n as [|n]; [|done]. simpl.
      destruct a; [|done].
      symmetry. apply collapse_start. by apply (span_spaces_nil s b).
Qed.

Lemma re_sub_spaces s : re_sub false re_spaces [PLit " "] s = collapse false s.
Proof. unfold re_sub. by rewrite sub_spaces by (by left). Qed.


Lemma match_blank_lines prev s :
  match s with String c _ => is_char "010" c = false | "" => True end →
  match_here false false re_blank_lines prev s = None.
Proof.
  intros H. unfold match_here, re_blank_lines, Chr. cbn [cat foldr rmatch].
  rewrite rep_chr. destruct s as [|c s]; [done|]. by rewrite H.
Qed.

(** [re.sub(r'\n\s*\n', ...)] leaves a text without newline alone. *)
Lemma sub_blank_lines t s : any_char (is_char "010") s = false →
  ∀ prev, sub_go false re_blank_lines t prev s 0 = s.
Proof.
  induction s as [|c s IH]; intros H prev; rewrite sub_go_0.
  - by rewrite match_blank_lines.
  - simpl in H. apply orb_false_iff in H as [Hc Hs].
    rewrite match_blank_lines by done. cbv beta zeta iota. f_equal. by apply IH.
Qed.

Lemma nl_is_space c : is_char "010" c = true → isspace c = true.
Proof. by intros <-%bool_decide_eq_true. Qed.

Lemma collapse_no_nl b s : any_char (is_char "010") (collapse b s) = false.
Proof.
  revert b. induction s as [|c s IH]; intros b; [done|]. simpl.
  destruct (isspace c) eqn:Ec.
  - destruct b; [done|]. simpl. by rewrite IH.
  - simpl. rewrite IH, orb_false_r.
    destruct (is_char "010" c) eqn:E; [|done].
    apply nl_is_space in E. congruence.
Qed.

Lemma words_head s w ws : words s = w :: ws → starts_word w = true.
Proof.
  revert w ws. induction s as [|c s IH]; intros w ws; [done|]. simpl.
  destruct (isspace c) eqn:Ec; [apply IH|].
  destruct (starts_word s).
  - destruct (words s); intros [= <- <-]; simpl; by rewrite Ec.
  - intros [= <- <-]. simpl. by rewrite Ec.
Qed.

Lemma words_start s : starts_word s = true → words s ≠ [].
Proof.
  destruct s as [|c s]; [done|]. simpl. intros Hc.
  destruct (isspace c); [done|].
  destruct (starts_word s); [by destruct (words s)|done].
Qed.

Lemma concat_cons sep w ws :
  String.concat sep (w :: ws) =
    match ws with [] => w | _ => w +:+ sep +:+ String.concat sep ws end.
Proof. done. Qed.

Lemma concat_cons_head sep c w ws :
  String.concat sep (String c w :: ws) = String c (String.concat sep (w :: ws)).
Proof. rewrite !concat_cons. by destruct ws. Qed.

Lemma normalize_start s :
  normalize_whitespace s = "" ∧ words s = []
  ∨ starts_word (normalize_whitespace s) = true ∧ words s ≠ [].
Proof.
  unfold normalize_whitespace.
  destruct (words s) as [|w ws] eqn:E; [by left|right].
  apply words_head in E. split; [|done].
  destruct w as [|c w]; [done|]. by rewrite concat_cons_head.
Qed.

Lemma rstrip_cons c s :
  rstrip (String c s) =
    match rstrip s with
    | "" => if isspace c then "" else String c ""
    | r => String c r
    end.
Proof. done. Qed.

Lemma rstrip_collapse s :
  rstrip (collapse true s) =
    (if starts_word s then rstrip (collapse false s) else normalize_whitespace s)
  ∧ rstrip (collapse false s) =
    (if starts_word s then normalize_whitespace s
     else match normalize_whitespace s with "" => "" | r => String " " r end).
Proof.
  induction s as [|c s [IH1 IH2]]; [done|].
  cbn [collapse starts_word]. destruct (isspace c) eqn:Ec; cbn [negb].
  - assert (Hn : normalize_whitespace (String c s) = normalize_whitespace s).
    { unfold normalize_whitespace. simpl. by rewrite Ec. }
    rewrite Hn.
    assert (H1 : rstrip (collapse true s) = normalize_whitespace s).
    { rewrite IH1. destruct (starts_word s); [by rewrite IH2|done]. }
    split; [done|]. rewrite rstrip_cons, H1.
    by destruct (normalize_whitespace s).
  - assert (Hgoal : rstrip (String c (collapse false s)) = normalize_whitespace (String c s)).
    { rewrite rstrip_cons, Ec, IH2.
      unfold normalize_whitespace. cbn [words]. rewrite Ec.
      destruct (starts_word s) eqn:Es.
      - pose proof (words_start s Es) as Hw.
        destruct (words s) as [|w ws]; [done|]. rewrite concat_cons_head.
        by destruct (String.concat " " (w :: ws)).
      - destruct (normalize_start s) as [[Hn Hw]|[Hn Hw]].
        + unfold normalize_whitespace in Hn. by rewrite Hn, Hw.
        + unfold normalize_whitespace in Hn. rewrite concat_cons.
          destruct (words s) as [|w ws]; [done|].
          by destruct (String.concat " " (w :: ws)). }
    by rewrite Hgoal.
Qed.

Lemma lstrip_start s : s = "" ∨ starts_word s = true → lstrip s = s.
Proof.
  destruct s as [|c s]; [done|]. simpl. intros [H|H]; [done|].
  by destruct (isspace c).
Qed.

(** Collapsing the white space and stripping the ends is white space
    normalization. *)
Lemma strip_collapse s : strip (collapse false s) = normalize_whitespace s.
Proof.
  unfold strip. rewrite (proj2 (rstrip_collapse s)).
  assert (Hl : lstrip (normalize_whitespace s) = normalize_whitespace s).
  { apply lstrip_start. destruct (normalize_start s) as [[? _]|[? _]]; auto. }
  destruct (starts_word s); [done|].
  destruct (normalize_whitespace s) as [|x r] eqn:E; [done|].
  by change (lstrip (String " " (String x r))) with (lstrip (String x r)).
Qed.


Lemma strings_plain (pieces : list string) : flat_map strings (NavigableString <$> pieces) = pieces.
Proof. induction pieces as [|x l IH]; [done|]. simpl. f_equal. apply IH. Qed.

Lemma replace_plain f (pieces : list string) :
  replace_tags f <$> (NavigableString <$> pieces) = NavigableString <$> pieces.
Proof. induction pieces as [|x l IH]; [done|]. simpl. f_equal. apply IH. Qed.

Lemma tags_named_cell names text :
  tags_named names (cell_of text) =
    if bool_decide ("td" ∈ names) then [cell_of text] else [].
Proof. unfold cell_of. simpl. by rewrite app_nil_r. Qed.

Lemma find_all_cells (cells : list string) : find_all ["td"; "th"] (row_of cells) = cell_of <$> cells.
Proof.
  unfold find_all, row_of. cbn [children].
  induction cells as [|c l IH]; [done|]. cbn [fmap list_fmap flat_map].
  rewrite tags_named_cell. rewrite bool_decide_true by set_solver. simpl. f_equal. apply IH.
Qed.

Lemma find_all_rows (rows : list (list string)) : find_all ["tr"] (table_of rows) = row_of <$> rows.
Proof.
  unfold find_all, table_of. cbn [children].
  induction rows as [|r l IH]; [done|]. cbn [fmap list_fmap flat_map].
  rewrite IH. unfold row_of at 1. cbn [tags_named].
  rewrite bool_decide_true by set_solver.
  assert (H : flat_map (tags_named ["tr"]) (cell_of <$> r) = []).
  { clear. induction r as [|c r IH]; [done|]. cbn [fmap list_fmap flat_map].
    rewrite tags_named_cell.
    rewrite bool_decide_false by (intros H%list_elem_of_singleton; discriminate H).
    done. }
  fold (fmap (M:=list) cell_of r). rewrite H. done.
Qed.

Lemma get_text_strip_cell text : get_text_strip (cell_of text) = strip text.
Proof.
  unfold get_text_strip, cell_of. simpl.
  destruct (decide (strip text ≠ "")) as [H|H].
  - rewrite filter_cons_True by done. simpl. done.
  - rewrite filter_cons_False by done. simpl. by destruct (decide (strip text = "")).
Qed.

Lemma cell_texts_row (cells : list string) :
  filter (λ s, s ≠ "") (get_text_strip <$> (cell_of <$> cells)) = cell_texts cells.
Proof.
  unfold cell_texts. f_equal. rewrite <- list_fmap_compose.
  apply list_fmap_ext. intros _ x _. apply get_text_strip_cell.
Qed.

Lemma row_text_row cells :
  row_text (row_of cells) =
    if contributes cells then Some (String.concat ": " (cell_texts cells)) else None.
Proof.
  unfold row_text, contributes. rewrite find_all_cells, cell_texts_row, length_fmap.
  by destruct (bool_decide (2 ≤ length cells)%nat).
Qed.

Lemma table_rows_table rows :
  table_rows (table_of rows) =
    (λ cells, String.concat ": " (cell_texts cells)) <$> filter (λ cells, contributes cells) rows.
Proof.
  unfold table_rows. rewrite find_all_rows.
  induction rows as [|r l IH]; [done|]. cbn [fmap list_fmap omap list_omap].
  rewrite row_text_row. fold (fmap (M:=list) row_of l). fold (omap (M:=list) row_text (row_of <$> l)).
  destruct (contributes r) eqn:E.
  - rewrite filter_cons_True by (by apply Is_true_true). cbn [fmap list_fmap]. f_equal. apply IH.
  - rewrite filter_cons_False by (by apply Is_true_false). apply IH.
Qed.

End LenientFacts.

Import Py Re Bs4 CleanHtml Reference.

(** C9. On text without markup, which the parser hands back as it is, the
    lenient normalizer returns the text with its white space normalized:
    every run of white space collapsed to one blank, none at the ends. *)
Theorem clean_html_plain_text (html_parser : parser) (text : string) (soup : node) :
  html_parser text = Ok soup →
  plain_document soup text →
  CleanHtml.clean_html_content html_parser (PStr text) = Ok (normalize_whitespace text).
Proof.
  intros Hparse (name & pieces & -> & Htext).
  unfold CleanHtml.clean_html_content. cbn [truthy].
  destruct (str_truthy text) eqn:Et; cbn [negb].
  - cbn [BeautifulSoup]. rewrite Hparse. cbn [mbind result_bind Py.bind].
    unfold replace_each. rewrite !LenientFacts.replace_plain.
    unfold get_text. cbn [strings]. rewrite LenientFacts.strings_plain, Htext.
    rewrite LenientFacts.re_sub_spaces.
    unfold re_sub. rewrite LenientFacts.sub_blank_lines by apply LenientFacts.collapse_no_nl.
    by rewrite LenientFacts.strip_collapse.
  - destruct text; [done|]. done.
Qed.

Lemma clean_html_plain_text_witness :
  CleanHtml.clean_html_content (λ s, Ok (Tag "[document]" None [NavigableString s]))
    (PStr "  ciao   a tutti ") = Ok "ciao a tutti".
Proof.
  apply (clean_html_plain_text _ "  ciao   a tutti " (Tag "[document]" None [NavigableString "  ciao   a tutti "])).
  - reflexivity.
  - exists "[document]", ["  ciao   a tutti "]. split; reflexivity.
Defined.

(** C4, as the specification states it, fails: a row of two cells of which
    one only has a text is turned into text by the lenient normalizer. *)
Lemma lenient_table_one_text_row :
  CleanHtml.formatted_table (table_of [["A"; ""]; ["B"; "2"]]) = Some "A. B: 2."
  ∧ table_sentence_spec [["A"; ""]; ["B"; "2"]] = "B: 2."
  ∧ CleanHtml.formatted_table (table_of [["A"; ""]; ["B"; "2"]])
      ≠ Some (table_sentence_spec [["A"; ""]; ["B"; "2"]]).
Proof. split; [reflexivity|]. split; [reflexivity|]. intros [=]. Qed.

(** C4, amended. In lenient mode exactly the rows with at least two cells,
    one of them at least non-empty, contribute: the non-empty cell texts of
    such a row are joined with [": "], the rows with [". "], and a period
    closes the text; a table without such a row is left as it is.  The
    table [[A,1],[B,2]] is normalized to ["A: 1. B: 2."]. *)
Theorem lenient_table_text (rows : list (list string)) :
  CleanHtml.formatted_table (table_of rows) =
    (let sentences :=
       (λ cells, String.concat ": " (cell_texts cells))
         <$> filter (λ cells, contributes cells) rows in
     if nonempty sentences then Some (String.concat ". " sentences +:+ ".") else None)
  ∧ CleanHtml.clean_html_content
      (λ _, Ok (Tag "[document]" None [table_of [["A"; "1"]; ["B"; "2"]]]))
      (PStr "<table><tr><td>A</td><td>1</td></tr><tr><td>B</td><td>2</td></tr></table>")
    = Ok "A: 1. B: 2.".
Proof.
  split; [|reflexivity].
  unfold CleanHtml.formatted_table. cbn [has_name table_of].
  rewrite bool_decide_true by set_solver.
  fold (table_of rows). by rewrite LenientFacts.table_rows_table.
Qed.

(** C2, as the specification states it, fails for the lenient normalizer:
    it has no fallback, and a failure of the parser is raised to its
    caller. *)
Lemma lenient_normalizer_raises :
  CleanHtml.clean_html_content rejecting_parser (PStr "<![x[") = Raise rejected
  ∧ ¬ returns (CleanHtml.clean_html_content rejecting_parser (PStr "<![x[")).
Proof. split; [reflexivity|]. intros [t Ht]. discriminate Ht. Qed.

(** C2, amended. On a string or on null the display normalizer never
    raises: an empty, blank or null input gives the empty string, and when
    the parser fails the result is the input with its tags stripped by
    pattern and its white space collapsed.  The lenient normalizer gives the
    empty string on an empty or null input and returns whenever the parser
    does; a failure of the parser is raised to the caller. *)
Theorem normalizers_never_raise (html_parser : parser) (html_content : pyval) :
  (html_content = PNone ∨ ∃ s, html_content = PStr s) →
  returns (TicketCleaner.clean_html_content html_parser html_content)
  ∧ (truthy html_content = false →
       TicketCleaner.clean_html_content html_parser html_content = Ok ""
       ∧ CleanHtml.clean_html_content html_parser html_content = Ok "")
  ∧ (∀ s, html_content = PStr s → strip s = "" →
       TicketCleaner.clean_html_content html_parser html_content = Ok "")
  ∧ (∀ s e, html_content = PStr s → strip s ≠ "" → html_parser s = Raise e →
       TicketCleaner.clean_html_content html_parser html_content
         = Ok (strip (re_sub false (Plus isspace) [PLit " "]
                        (re_sub false TicketCleaner.re_tag [] s)))
       ∧ CleanHtml.clean_html_content html_parser html_content = Raise e)
  ∧ (∀ s soup, html_content = PStr s → html_parser s = Ok soup →
       returns (CleanHtml.clean_html_content html_parser html_content)).
Proof.
  intros Htext. repeat split.
  - destruct Htext as [->|[s ->]]; [by exists ""|].
    unfold TicketCleaner.clean_html_content.
    destruct (negb (str_truthy s) || bool_decide (strip s = "")); [by exists ""|].
    unfold TicketCleaner.structured. cbn [BeautifulSoup].
    destruct (html_parser s); [|by eexists]. by eexists.
  - destruct Htext as [->|[s ->]]; [done|]. simpl in H.
    unfold TicketCleaner.clean_html_content. by rewrite H.
  - destruct Htext as [->|[s ->]]; [done|]. simpl in H.
    unfold CleanHtml.clean_html_content. cbn [truthy]. by rewrite H.
  - intros s -> Hs. unfold TicketCleaner.clean_html_content.
    rewrite (bool_decide_true _ Hs). by rewrite orb_true_r.
  - subst. unfold TicketCleaner.clean_html_content.
    assert (Hs : str_truthy s = true) by (by destruct s).
    rewrite Hs, bool_decide_false by done. cbn [negb orb].
    unfold TicketCleaner.structured. cbn [BeautifulSoup]. by rewrite H1.
  - subst. unfold CleanHtml.clean_html_content. cbn [truthy].
    assert (Hs : str_truthy s = true) by (by destruct s).
    rewrite Hs. cbn [negb BeautifulSoup]. by rewrite H1.
  - intros s soup -> Hp. unfold CleanHtml.clean_html_content. cbn [truthy BeautifulSoup].
    destruct (negb (str_truthy s)); [by eexists|]. rewrite Hp. by eexists.
Qed.

Lemma normalizers_never_raise_witness :
  returns (TicketCleaner.clean_html_content rejecting_parser (PStr "<p>a  <b>b</b></p>"))
  ∧ TicketCleaner.clean_html_content rejecting_parser (PStr "<p>a  <b>b</b></p>") = Ok "a b".
Proof.
  split.
  - apply (normalizers_never_raise rejecting_parser (PStr "<p>a  <b>b</b></p>")).
    right. by exists "<p>a  <b>b</b></p>".
  - reflexivity.
Defined.

(** ** Rounding and the similarity score *)
Module RoundFacts.
Import Py.
Local Open Scope Q_scope.








End RoundFacts.

Import Py Search.




(** ** The tool boundary *)
Module ToolFacts.
Import Py.

Lemma serializable_dict (d : gmap string pyval) :
  map_Forall (λ _ v, serializable v = true) d → serializable (PDict d) = true.
Proof.
  cbn [serializable].
  apply (map_fold_weak_ind (λ r m, map_Forall (λ _ v, serializable v = true) m → r = true)).
  - done.
  - intros k v m r Hk IH Hall.
    apply map_Forall_insert in Hall as [Hv Hm]; [|done].
    rewrite Hv. by apply IH.
Qed.

Lemma serializable_fields (l : list (string * pyval)) :
  Forall (λ kv, serializable kv.2 = true) l → serializable (PDict (list_to_map l)) = true.
Proof.
  intros Hl. apply serializable_dict. intros k v Hkv.
  apply elem_of_list_to_map_2 in Hkv.
  rewrite Forall_forall in Hl. by apply (Hl (k, v)).
Qed.

Lemma serializable_list (l : list pyval) :
  Forall (λ v, serializable v = true) l → serializable (PList l) = true.
Proof.
  cbn [serializable]. induction 1 as [|v l Hv Hl IH]; [done|].
  simpl. by rewrite Hv.
Qed.

Lemma json_dumps_ok v : serializable v = true → json_dumps v = Ok (JsonText v).
Proof. intros H. unfold json_dumps. by rewrite H. Qed.

Lemma json_dumps_inv v j : json_dumps v = Ok j → j = JsonText v.
Proof. unfold json_dumps. destruct (serializable v); by intros [=]. Qed.

Lemma search_error_dumps q e :
  json_dumps (PDict (Search.error_response q e))
    = Ok (JsonText (PDict (Search.error_response q e))).
Proof. apply json_dumps_ok, serializable_fields. by repeat constructor. Qed.

Lemma ticket_error_dumps ticket_id e :
  json_dumps (PDict (GetTicket.error_response ticket_id e))
    = Ok (JsonText (PDict (GetTicket.error_response ticket_id e))).
Proof. apply json_dumps_ok, serializable_fields. by repeat constructor. Qed.

Lemma not_found_dumps ticket_id number year :
  json_dumps (PDict (GetTicket.not_found ticket_id number year))
    = Ok (JsonText (PDict (GetTicket.not_found ticket_id number year))).
Proof. apply json_dumps_ok, serializable_fields. by repeat constructor. Qed.

(** What the [try] block of the search returns is a success object. *)
Lemma search_body_shape store q n j :
  (Search.search_body store q n).1 = Ok j →
  ∃ payload, j = JsonText (PDict payload) ∧ payload !! "status" = Some (PStr "success").
Proof.
  unfold Search.search_body.
  destruct (negb (str_truthy q) || negb (str_truthy (strip q))); [done|].
  destruct ((n <? 1)%Z || (20 <? n)%Z); [done|].
  destruct (Search.get_collection store); [|done]. cbn [fst].
  destruct (Search.collection_query store [strip q] n) as [r|]; [|done].
  cbn [mbind result_bind Py.bind]. unfold Search.format_response.
  destruct (Search.ids r) as [|[|i0 ids0] ids].
  - intros ->%json_dumps_inv. by eexists.
  - intros ->%json_dumps_inv. by eexists.
  - destruct (first (Search.distances r)); [|done].
    destruct (first (Search.metadatas r)); [|done].
    destruct (first (Search.documents r)); [|done].
    cbn [mbind result_bind Py.bind].
    intros ->%json_dumps_inv. by eexists.
Qed.


Lemma ticket_body_shape now parser db ticket_id j :
  GetTicket.get_ticket_body now parser db ticket_id = Ok j →
  ∃ payload, j = JsonText (PDict payload)
    ∧ (payload !! "status" = Some (PStr "success")
       ∨ payload !! "status" = Some (PStr "error")
         ∧ payload !! "error_code" = Some (PStr "TICKET_NOT_FOUND")).
Proof.
  unfold GetTicket.get_ticket_body.
  destruct (negb (str_truthy ticket_id) || negb (str_truthy (strip ticket_id))); [done|].
  destruct (TicketId.parse_ticket_id now (strip ticket_id)) as [[number year]|]; [|done].
  cbn [mbind result_bind Py.bind].
  destruct (GetTicket.get_postgres_connection db); [|done].
  cbn [mbind result_bind Py.bind]. unfold try_finally.
  destruct (GetTicket.conn_close db); [|done].
  unfold GetTicket.lookup.
  destruct (GetTicket.fetch_rows db number _ _) as [rows|]; [|done].
  cbn [mbind result_bind Py.bind].
  destruct (bool_decide (rows = [])).
  - intros ->%json_dumps_inv. eexists. split; [done|]. by right.
  - destruct (GetTicket.collect_entries parser rows [] ∅) as [[entries|] h]; [|done].
    intros ->%json_dumps_inv. cbn [GetTicket.convert_decimals].
    eexists. split; [done|]. left. by rewrite lookup_fmap.
Qed.

Lemma dict_get_serializable (m : gmap string pyval) key dflt :
  map_Forall (λ _ v, serializable v = true) m → serializable dflt = true →
  serializable (dict_get m key dflt) = true.
Proof.
  intros Hm Hd. unfold dict_get. destruct (m !! key) as [v|] eqn:E; [|done].
  by apply (Hm key v).
Qed.

Lemma formatted_result_serializable i ticket_id distance metadata document :
  map_Forall (λ _ v, serializable v = true) metadata →
  serializable (PDict (Search.formatted_result i ticket_id distance metadata document)) = true.
Proof.
  intros Hm. apply serializable_fields.
  repeat constructor; simpl; try done;
    try (by repeat apply dict_get_serializable).
  by apply serializable_dict.
Qed.

Lemma formatted_results_serializable i ids ds ms docs :
  Forall (map_Forall (λ _ v, serializable v = true)) ms →
  Forall (λ v, serializable v = true) (PDict <$> Search.formatted_results i ids ds ms docs).
Proof.
  intros Hms. revert i ids ds docs.
  induction Hms as [|m ms Hm Hms IH]; intros i ids ds docs.
  - destruct ids, ds; simpl; constructor.
  - destruct ids as [|x ids], ds as [|d ds], docs as [|doc docs]; try constructor.
    + by apply formatted_result_serializable.
    + apply IH.
Qed.

Lemma formatted_results_length i ids ds ms docs :
  length ds = length ids → length ms = length ids → length docs = length ids →
  length (Search.formatted_results i ids ds ms docs) = length ids.
Proof.
  revert i ds ms docs. induction ids as [|x ids IH]; intros i ds ms docs H1 H2 H3.
  - done.
  - destruct ds as [|d ds], ms as [|m ms], docs as [|doc docs]; try done.
    simpl. f_equal. apply IH; simpl in *; lia.
Qed.

Lemma success_response_count q results :
  Search.success_response q results !! "results_count"
    = Some (PInt (Z.of_nat (length results))).
Proof. done. Qed.

Lemma blank_query q :
  negb (str_truthy q) || negb (str_truthy (strip q)) = true ↔ strip q = "".
Proof.
  unfold str_truthy. rewrite !negb_involutive. split.
  - intros [H|H]%orb_true_iff; apply bool_decide_eq_true in H; by subst.
  - intros H. rewrite (bool_decide_true _ H). apply orb_true_r.
Qed.

End ToolFacts.

Import Py Search GetTicket.

(** C8. In the formatting of a search result each of the four fields is
    read from the flattened key when the metadata has it, otherwise from
    the bare key, otherwise it is the text N/A: the flattened key takes
    precedence when both are there. *)
Theorem metadata_lookup_precedence (i : nat) (ticket_id : string) (distance : Q)
    (metadata : gmap string pyval) (document : string) :
  let result := formatted_result i ticket_id distance metadata document in
  let lookup (prefixed bare : string) : option pyval :=
    Some (match metadata !! prefixed with
          | Some v => v
          | None => match metadata !! bare with
                    | Some v => v
                    | None => PStr "N/A"
                    end
          end) in
  result !! "title" = lookup "metadata_title" "title"
  ∧ result !! "company" = lookup "metadata_company" "company"
  ∧ result !! "date" = lookup "metadata_date" "date"
  ∧ result !! "original_id" = lookup "metadata_original_id" "original_id"
  ∧ (∀ v w, metadata !! "metadata_title" = Some v → metadata !! "title" = Some w →
       result !! "title" = Some v).
Proof.
  cbv zeta. unfold formatted_result, dict_get.
  split_and!.
  - by destruct (metadata !! "metadata_title"), (metadata !! "title").
  - by destruct (metadata !! "metadata_company"), (metadata !! "company").
  - by destruct (metadata !! "metadata_date"), (metadata !! "date").
  - by destruct (metadata !! "metadata_original_id"), (metadata !! "original_id").
  - intros v w Hv Hw. by rewrite Hv.
Qed.

(** C6. A blank query text, or a result count outside 1..20, is refused
    with a [ValueError] before the store is touched (no call is made, and
    the tool returns the error object); a valid call whose store returns
    [k] aligned results answers with [results_count = k]. *)
Theorem search_validates_first (store : vector_store) (query_text : string) (n_results : Z) :
  (strip query_text = "" ∨ (n_results < 1)%Z ∨ (20 < n_results)%Z →
     ∃ e, search_body store query_text n_results = (Raise e, [])
          ∧ exn_type e = "ValueError"
          ∧ search_similar_tickets store query_text n_results
              = (Ok (JsonText (PDict (Search.error_response query_text e))), []))
  ∧ (∀ ids0 distances0 metadatas0 documents0,
       strip query_text ≠ "" → (1 ≤ n_results ≤ 20)%Z →
       get_collection store = Ok () →
       collection_query store [strip query_text] n_results
         = Ok (QueryResult [ids0] [distances0] [metadatas0] [documents0]) →
       length distances0 = length ids0 →
       length metadatas0 = length ids0 →
       length documents0 = length ids0 →
       Forall (map_Forall (λ _ v, serializable v = true)) metadatas0 →
       ∃ payload,
         search_similar_tickets store query_text n_results
           = (Ok (JsonText (PDict payload)),
              [GetCollection; Query [strip query_text] n_results])
         ∧ payload !! "status" = Some (PStr "success")
         ∧ payload !! "results_count" = Some (PInt (Z.of_nat (length ids0)))).
Proof.
  split.
  - intros Hbad. unfold search_similar_tickets, search_body.
    destruct (negb (str_truthy query_text) || negb (str_truthy (strip query_text))) eqn:Eq.
    + exists empty_query. split; [done|]. split; [done|].
      cbn [try_except]. by rewrite ToolFacts.search_error_dumps.
    + assert (Hn : (n_results <? 1)%Z || (20 <? n_results)%Z = true).
      { destruct Hbad as [Hq|Hn].
        - apply ToolFacts.blank_query in Hq. congruence.
        - apply orb_true_iff. destruct Hn; [left|right]; by apply Z.ltb_lt. }
      rewrite Hn. exists bad_n_results. split; [done|]. split; [done|].
      cbn [try_except]. by rewrite ToolFacts.search_error_dumps.
  - intros ids0 ds ms docs Hq Hn Hcoll Hquery H1 H2 H3 Hser.
    unfold search_similar_tickets, search_body.
    destruct (negb (str_truthy query_text) || negb (str_truthy (strip query_text))) eqn:Eq.
    { by apply ToolFacts.blank_query in Eq. }
    assert (Hok : (n_results <? 1)%Z || (20 <? n_results)%Z = false).
    { apply orb_false_iff. split; apply Z.ltb_ge; lia. }
    rewrite Hok, Hcoll, Hquery. cbn [mbind result_bind Py.bind].
    unfold format_response. cbn [ids distances metadatas documents first].
    destruct ids0 as [|i0 ids0].
    + exists (no_results query_text). split; [|done].
      rewrite ToolFacts.json_dumps_ok; [done|].
      apply ToolFacts.serializable_fields. by repeat constructor.
    + cbn [mbind result_bind Py.bind].
      eexists. split.
      * rewrite ToolFacts.json_dumps_ok; [done|].
        apply ToolFacts.serializable_fields. repeat constructor; cbn [snd]; try done.
        apply ToolFacts.serializable_list.
        by apply ToolFacts.formatted_results_serializable.
      * split; [done|].
        rewrite ToolFacts.success_response_count.
        by rewrite ToolFacts.formatted_results_length.
Qed.

(** A store holding three documents. *)
Lemma search_validates_first_witness :
  let store := VectorStore (Ok ())
    (λ _ _, Ok (QueryResult [["1/SPC-2024"; "2/SPC-2024"; "3/SPC-2024"]]
                  [[0; 1 # 4; 1 # 2]%Q] [[∅; ∅; ∅]] [["a"; "b"; "c"]])) in
  (search_similar_tickets store "stampa" 0).2 = []
  ∧ (search_similar_tickets store "stampa" 21).2 = []
  ∧ ∃ payload,
      search_similar_tickets store "stampa" 5
        = (Ok (JsonText (PDict payload)), [GetCollection; Query ["stampa"] 5])
      ∧ payload !! "status" = Some (PStr "success")
      ∧ payload !! "results_count" = Some (PInt 3).
Proof.
  intros store. split_and!.
  - destruct (proj1 (search_validates_first store "stampa" 0)) as (e & _ & _ & ->);
      [right; left; lia|reflexivity].
  - destruct (proj1 (search_validates_first store "stampa" 21)) as (e & _ & _ & ->);
      [right; right; lia|reflexivity].
  - apply (proj2 (search_validates_first store "stampa" 5)
             ["1/SPC-2024"; "2/SPC-2024"; "3/SPC-2024"] [0; 1 # 4; 1 # 2]%Q
             [∅; ∅; ∅] ["a"; "b"; "c"]); try done.
    repeat constructor; apply map_Forall_empty.
Defined.

(** C3. Neither tool raises: each returns a JSON object, whatever the
    stores and the parser do.  What the [try] block raises is turned into
    the error object with the message and the type of the exception.  When
    the query of [get_ticket_by_id] matches no row, the answer is the
    not-found object, whose [error_code] is [TICKET_NOT_FOUND]. *)
Theorem tools_never_raise (now_year : Z) (html_parser : Bs4.parser) (db : postgres)
    (store : vector_store) (ticket_id query_text : string) (n_results : Z) :
  (∃ payload,
     get_ticket_by_id now_year html_parser db ticket_id = Ok (JsonText (PDict payload))
     ∧ (payload !! "status" = Some (PStr "success")
        ∨ payload !! "status" = Some (PStr "error")))
  ∧ (∀ e, get_ticket_body now_year html_parser db ticket_id = Raise e →
       get_ticket_by_id now_year html_parser db ticket_id
         = Ok (JsonText (PDict (GetTicket.error_response ticket_id e))))
  ∧ (∃ payload,
       (search_similar_tickets store query_text n_results).1 = Ok (JsonText (PDict payload))
       ∧ (payload !! "status" = Some (PStr "success")
          ∨ payload !! "status" = Some (PStr "error")))
  ∧ (∀ e, (search_body store query_text n_results).1 = Raise e →
       (search_similar_tickets store query_text n_results).1
         = Ok (JsonText (PDict (Search.error_response query_text e))))
  ∧ (∀ number year,
       strip ticket_id ≠ "" →
       TicketId.parse_ticket_id now_year (strip ticket_id) = Ok (number, year) →
       get_postgres_connection db = Ok () →
       fetch_rows db number (str_int year +:+ "-01-01") (str_int (year + 1) +:+ "-01-01")
         = Ok [] →
       conn_close db = Ok () →
       get_ticket_by_id now_year html_parser db ticket_id
         = Ok (JsonText (PDict (not_found ticket_id number year)))
       ∧ not_found ticket_id number year !! "error_code" = Some (PStr "TICKET_NOT_FOUND")).
Proof.
  split_and!.
  - unfold get_ticket_by_id.
    destruct (get_ticket_body now_year html_parser db ticket_id) as [j|e] eqn:E.
    + apply ToolFacts.ticket_body_shape in E as (payload & -> & [H|[H _]]);
        exists payload; auto.
    + cbn [try_except]. rewrite ToolFacts.ticket_error_dumps. eexists. split; [done|]. by right.
  - intros e He. unfold get_ticket_by_id. rewrite He. apply ToolFacts.ticket_error_dumps.
  - unfold search_similar_tickets.
    pose proof (ToolFacts.search_body_shape store query_text n_results) as Hshape.
    destruct (search_body store query_text n_results) as [[j|e] calls]; cbn [fst] in *.
    + destruct (Hshape j eq_refl) as (payload & -> & H). exists payload. auto.
    + cbn [try_except]. rewrite ToolFacts.search_error_dumps. eexists. split; [done|]. by right.
  - intros e He. unfold search_similar_tickets.
    destruct (search_body store query_text n_results) as [r calls]. cbn [fst] in *.
    subst r. apply ToolFacts.search_error_dumps.
  - intros number year Hid Hparse Hconn Hrows Hclose.
    split; [|done].
    unfold get_ticket_by_id, get_ticket_body.
    assert (Hq : negb (str_truthy ticket_id) || negb (str_truthy (strip ticket_id)) = false).
    { destruct (negb (str_truthy ticket_id) || negb (str_truthy (strip ticket_id))) eqn:E; [|done].
      by apply ToolFacts.blank_query in E. }
    rewrite Hq, Hparse. cbn [mbind result_bind Py.bind].
    rewrite Hconn. cbn [mbind result_bind Py.bind].
    rewrite Hclose. cbn [try_finally]. unfold lookup. rewrite Hrows.
    cbn [mbind result_bind Py.bind]. rewrite bool_decide_true by done.
    by rewrite ToolFacts.not_found_dumps.
Qed.

(** A store without rows for the ticket. *)
Lemma tools_never_raise_witness :
  let db := Postgres (Ok ()) (λ _ _ _, Ok []) (Ok ()) in
  get_ticket_by_id 2026 Reference.rejecting_parser db "3906/SPC-2024"
    = Ok (JsonText (PDict (not_found "3906/SPC-2024" "3906" 2024)))
  ∧ not_found "3906/SPC-2024" "3906" 2024 !! "error_code" = Some (PStr "TICKET_NOT_FOUND").
Proof.
  intros db.
  apply (tools_never_raise 2026 Reference.rejecting_parser db
           (VectorStore (Ok ()) (λ _ _, Raise Reference.rejected)) "3906/SPC-2024" "" 5);
    reflexivity || (intros H; discriminate H).
Defined.

(** ** Ingestion *)
Module IngestFacts.
Import Py Bs4 CleanHtml.

Section ingestion.
Context (html_parser : parser).
Context (fromisoformat_year : string → result Z).
Context (format_value : pyval → string).

Local Abbreviation process_ticket := (process_ticket html_parser fromisoformat_year format_value).
Local Abbreviation processed_documents :=
  (processed_documents html_parser fromisoformat_year format_value).

Lemma processed_documents_app (before after : list pyval) :
  processed_documents (before ++ after)%list
    = (processed_documents before ++ processed_documents after)%list.
Proof.
  induction before as [|t l IH]; [done|]. simpl.
  destruct (process_ticket t); [|done]. simpl. by rewrite IH.
Qed.

Lemma process_ticket_id ticket document :
  process_ticket ticket = Ok document →
  ∃ ttnumtic date_str,
    ticket_get ticket "ttnumtic" = Ok ttnumtic
    ∧ ticket_get ticket "dt__data" = Ok date_str
    ∧ doc_id document
        = format_value ttnumtic +:+ "/SPC-" +:+ ticket_year fromisoformat_year date_str
    ∧ meta_year document = ticket_year fromisoformat_year date_str.
Proof.
  unfold CleanHtml.process_ticket.
  destruct ticket as [| | | | | | | |d]; try done.
  cbn [ticket_get mbind result_bind Py.bind].
  destruct (clean_html_content html_parser _) as [clean_text|]; [|done].
  cbn [mbind result_bind Py.bind].
  destruct (date_only _) as [date|]; [|done].
  cbn [mbind result_bind Py.bind mret result_ret].
  intros [= <-]. by eexists _, _.
Qed.

End ingestion.
End IngestFacts.

Import Py Re Bs4 CleanHtml.

(** C7. Every document produced by the ingestion has the id
    [{ttnumtic}/SPC-{year}], where the year is the one parsed from the date
    of the record, [Z] standing for UTC, and ["2024"] when the date is
    missing, empty or does not parse (the failure is swallowed, and the
    record is still ingested).  A record whose processing raises is skipped,
    and the records before and after it are processed as without it. *)
Theorem process_tickets_ids (html_parser : parser)
    (fromisoformat_year : string → result Z) (format_value : pyval → string) :
  let process_ticket := process_ticket html_parser fromisoformat_year format_value in
  let processed_documents :=
    processed_documents html_parser fromisoformat_year format_value in
  let ticket_year := ticket_year fromisoformat_year in
  (∀ ticket document, process_ticket ticket = Ok document →
     ∃ ttnumtic date_str,
       ticket_get ticket "ttnumtic" = Ok ttnumtic
       ∧ ticket_get ticket "dt__data" = Ok date_str
       ∧ doc_id document = format_value ttnumtic +:+ "/SPC-" +:+ ticket_year date_str
       ∧ meta_year document = ticket_year date_str)
  ∧ (∀ fields, fields !! "dt__data" = None →
       ticket_get (PDict fields) "dt__data" = Ok (PStr ""))
  ∧ (∀ date_str, truthy date_str = false → ticket_year date_str = "2024")
  ∧ (∀ s year, s ≠ "" → fromisoformat_year (str_replace "Z" "+00:00" s) = Ok year →
       ticket_year (PStr s) = str_int year)
  ∧ (∀ s e, fromisoformat_year (str_replace "Z" "+00:00" s) = Raise e →
       ticket_year (PStr s) = "2024")
  ∧ str_replace "Z" "+00:00" "2024-05-01T10:00:00Z" = "2024-05-01T10:00:00+00:00"
  ∧ (∀ before ticket after e, process_ticket ticket = Raise e →
       processed_documents (before ++ ticket :: after)%list
         = (processed_documents before ++ processed_documents after)%list)
  ∧ (∀ before ticket after document, process_ticket ticket = Ok document →
       processed_documents (before ++ ticket :: after)%list
         = (processed_documents before ++ document :: processed_documents after)%list)
  ∧ (∀ fields s e text,
       fields !! "dt__data" = Some (PStr s) →
       fromisoformat_year (str_replace "Z" "+00:00" s) = Raise e →
       clean_html_content html_parser (dict_get fields "dt_testo" (PStr "")) = Ok text →
       ∃ document,
         process_ticket (PDict fields) = Ok document
         ∧ doc_id document
             = format_value (dict_get fields "ttnumtic" (PStr "")) +:+ "/SPC-2024").
Proof.
  cbv zeta. split_and!.
  - apply IngestFacts.process_ticket_id.
  - intros fields H. unfold ticket_get, dict_get. by rewrite H.
  - intros date_str H. unfold ticket_year. by rewrite H.
  - intros s year Hs Hy. unfold ticket_year. cbn [truthy].
    assert (Ht : str_truthy s = true) by (by destruct s).
    rewrite Ht, Hy. done.
  - intros s e He. unfold ticket_year. cbn [truthy].
    destruct (str_truthy s); [|done]. by rewrite He.
  - reflexivity.
  - intros before ticket after e He.
    rewrite IngestFacts.processed_documents_app. simpl. by rewrite He.
  - intros before ticket after document Hd.
    rewrite IngestFacts.processed_documents_app. simpl. by rewrite Hd.
  - intros fields s e text Hdate Hiso Hclean.
    assert (Hget : dict_get fields "dt__data" (PStr "") = PStr s).
    { unfold dict_get. by rewrite Hdate. }
    assert (Hyear : ticket_year fromisoformat_year (PStr s) = "2024").
    { unfold ticket_year. cbn [truthy]. destruct (str_truthy s); [|done]. by rewrite Hiso. }
    unfold process_ticket. cbn [ticket_get mbind result_bind Py.bind].
    rewrite Hclean, Hget, Hyear. cbn [mbind result_bind Py.bind date_only].
    eexists. split; reflexivity.
Qed.

(** A batch of three records: the second is not an object, the third has a
    date that does not parse. *)
Lemma process_tickets_ids_witness :
  let html_parser : parser := λ s, Ok (Tag "[document]" None [NavigableString s]) in
  let fromisoformat_year : string → result Z := λ s,
    if bool_decide (s = "2023-05-01T10:00:00+00:00") then Ok 2023%Z
    else Raise (ValueError "Invalid isoformat string") in
  let format_value : pyval → string := λ v,
    match v with PStr s => s | PInt n => str_int n | _ => "" end in
  let tickets := [
    PDict (list_to_map [("ttnumtic", PInt 3906); ("dt_testo", PStr "a  b");
                        ("dt__data", PStr "2023-05-01T10:00:00Z")]);
    PStr "not a record";
    PDict (list_to_map [("ttnumtic", PStr "17"); ("dt__data", PStr "ieri")])] in
  doc_id <$> processed_documents html_parser fromisoformat_year format_value tickets
    = ["3906/SPC-2023"; "17/SPC-2024"]
  ∧ ∃ document,
      process_ticket html_parser fromisoformat_year format_value
        (PDict (list_to_map [("ttnumtic", PStr "17"); ("dt__data", PStr "ieri")]))
        = Ok document
      ∧ doc_id document = "17/SPC-2024".
Proof.
  intros html_parser fromisoformat_year format_value tickets. split; [reflexivity|].
  pose proof (process_tickets_ids html_parser fromisoformat_year format_value) as H.
  cbv zeta in H. destruct H as (_ & _ & _ & _ & _ & _ & _ & _ & H).
  change "17/SPC-2024" with
    (format_value (dict_get (list_to_map [("ttnumtic", PStr "17"); ("dt__data", PStr "ieri")])
                     "ttnumtic" (PStr "")) +:+ "/SPC-2024").
  apply (H (list_to_map [("ttnumtic", PStr "17"); ("dt__data", PStr "ieri")])
           "ieri" (ValueError "Invalid isoformat string") "");
    reflexivity.
Defined.

(** ** Formatting the rows of a ticket *)
Module FormatFacts.
Import Py Bs4 TicketCleaner Reference.

Lemma clean_text_returns html_parser v :
  (v = PNone ∨ ∃ s, v = PStr s) →
  ∃ text, TicketCleaner.clean_html_content html_parser v = Ok text.
Proof.
  intros [->|[s ->]]; [by exists ""|].
  unfold TicketCleaner.clean_html_content.
  destruct (negb (str_truthy s) || bool_decide (strip s = "")); [by exists ""|].
  unfold structured. cbn [BeautifulSoup].
  destruct (html_parser s); by eexists.
Qed.

Lemma alloc_fresh (d : gmap string pyval) (h : heap) :
  (((alloc d h).1) ∉ dom h) ∧ (alloc d h).2 = <[((alloc d h).1) := d]> h.
Proof. unfold alloc. simpl. split; [apply is_fresh|done]. Qed.

(** One turn of the loop: a new object is added to the store, a formatted
    copy of the row; nothing else changes. *)
Lemma format_entry_spec html_parser entry (h : heap) row :
  h !! entry = Some row → text_column row →
  ∃ formatted copy,
    format_entry html_parser entry h = (Ok formatted, <[formatted := copy]> h)
    ∧ (formatted ∉ dom h)
    ∧ formatted_copy row copy.
Proof.
  intros Hentry Htext. unfold format_entry. rewrite Hentry.
  destruct (alloc_fresh row h) as [Hfresh Halloc].
  destruct (alloc row h) as [formatted h1]. simpl in Hfresh, Halloc. subst h1.
  unfold text_column in Htext.
  destruct (row !! "dt_testo") as [v|] eqn:Ev.
  - destruct (truthy v) eqn:Et.
    + destruct v as [| | | |s| | | |]; try done.
      destruct (clean_text_returns html_parser (PStr s)) as [text ->]; [by eauto|].
      exists formatted, (<["dt_testo" := PStr text]> row).
      rewrite insert_insert_eq. split; [done|]. split; [done|]. split.
      * rewrite dom_insert_L. apply elem_of_dom_2 in Ev.
        apply set_eq. intros key. rewrite elem_of_union, elem_of_singleton.
        split; [intros [->|?]; done|auto].
      * intros key Hkey. by rewrite lookup_insert_ne.
    + exists formatted, row. by repeat split.
  - exists formatted, row. by repeat split.
Qed.





Lemma Forall2_with_left {A B} (P : A → Prop) (R S : A → B → Prop) l k :
  Forall P l → Forall2 R l k → (∀ x y, P x → R x y → S x y) → Forall2 S l k.
Proof.
  intros HP HR HS. induction HR as [|x y l k Hxy Hlk IH]; [constructor|].
  apply Forall_cons in HP as [Hx Hl]. constructor; auto.
Qed.

Lemma Forall2_right {A B} (Q : B → Prop) (R : A → B → Prop) l k :
  Forall2 R l k → (∀ x y, R x y → Q y) → Forall Q k.
Proof. intros HR HQ. induction HR; constructor; eauto. Qed.

(** The loop: the store only grows, the objects it held are untouched, and
    the result lists, in order, new and distinct formatted copies. *)
Lemma format_ticket_data_spec html_parser ticket_data : ∀ h : heap,
  Forall (λ entry, ∃ row, h !! entry = Some row ∧ text_column row) ticket_data →
  ∃ formatted_data (h' : heap),
    format_ticket_data html_parser ticket_data h = (Ok formatted_data, h')
    ∧ (∀ l, l ∈ dom h → h' !! l = h !! l)
    ∧ Forall2 (λ entry formatted,
         (formatted ∉ dom h)
         ∧ ∃ row copy, h !! entry = Some row ∧ h' !! formatted = Some copy
                       ∧ formatted_copy row copy)
        ticket_data formatted_data
    ∧ NoDup formatted_data.
Proof.
  induction ticket_data as [|entry rest IH]; intros h Hrows.
  - exists [], h. split; [done|]. split; [done|]. split; constructor.
  - apply Forall_cons in Hrows as [(row & Hentry & Htext) Hrest].
    destruct (format_entry_spec html_parser entry h row Hentry Htext)
      as (formatted & copy & Hfmt & Hfresh & Hcopy).
    assert (Hframe1 : ∀ l, l ∈ dom h → (<[formatted := copy]> h) !! l = h !! l).
    { intros l Hl. apply lookup_insert_ne. intros ->. done. }
    destruct (IH (<[formatted := copy]> h)) as (formatted_rest & h' & Hrun & Hframe & Hall & Hnd).
    { eapply Forall_impl; [exact Hrest|]. intros e (r & He & Hr). exists r.
      split; [|done]. rewrite Hframe1; [done|]. by apply elem_of_dom_2 in He. }
    exists (formatted :: formatted_rest), h'.
    cbn [format_ticket_data]. rewrite Hfmt, Hrun.
    assert (Hdom : ∀ l, l ∈ dom h → l ∈ dom (<[formatted := copy]> h)).
    { intros l Hl. rewrite dom_insert_L. apply elem_of_union. by right. }
    assert (Hin : formatted ∈ dom (<[formatted := copy]> h)).
    { rewrite dom_insert_L. apply elem_of_union. left. by apply elem_of_singleton. }
    split; [done|]. split; [|split].
    + intros l Hl. rewrite Hframe by auto. by apply Hframe1.
    + constructor.
      * split; [done|]. exists row, copy. split; [done|]. split; [|done].
        rewrite Hframe by done. apply lookup_insert_eq.
      * eapply Forall2_with_left; [exact Hrest|exact Hall|].
        intros e f (r0 & He0 & _) (Hf & r & c & He & Hc & Hrc). split.
        -- intros Hbad. apply Hf. auto.
        -- exists r, c. split; [|done].
           rewrite <- He. symmetry. apply Hframe1. by apply elem_of_dom_2 in He0.
    + constructor; [|done]. intros Hmem.
      assert (Hnew : Forall (λ f, f ∉ dom (<[formatted := copy]> h)) formatted_rest).
      { eapply Forall2_right; [exact Hall|]. by intros e f [Hf _]. }
      rewrite Forall_forall in Hnew. by apply (Hnew formatted).
Qed.

End FormatFacts.

Import Py Bs4 TicketCleaner Reference.



(** * Part III: further properties of the sources *)

(** ** The identifier parser on any input *)
Module IdFacts.
Import Py Re TicketId Reference MatchAux Notions ReFacts LenientFacts.

Lemma lstrip_lstrip s : lstrip (lstrip s) = lstrip s.
Proof.
  induction s as [|c s IH]; [done|]. simpl.
  destruct (isspace c) eqn:E; [done|]. simpl. by rewrite E.
Qed.

Lemma rstrip_fixed t :
  (∀ a c, t = a +:+ String c "" → isspace c = false) → rstrip t = t.
Proof.
  induction t as [|x t IH]; intros H; [done|].
  rewrite rstrip_cons. destruct t as [|y t].
  - simpl. by rewrite (H "" x).
  - rewrite IH.
    + done.
    + intros a c Ha. apply (H (String x a) c). rewrite append_cons. by f_equal.
Qed.

Lemma strip_last s a c : strip s = a +:+ String c "" → isspace c = false.
Proof.
  intros H. unfold strip in H.
  destruct (lstrip_suffix (rstrip s)) as [b Hb]. rewrite H in Hb.
  rewrite <- append_assoc in Hb. by apply rstrip_last in Hb.
Qed.

Lemma strip_strip s : strip (strip s) = strip s.
Proof.
  unfold strip at 1. rewrite rstrip_fixed by apply strip_last.
  unfold strip. apply lstrip_lstrip.
Qed.

Lemma parse_any now s :
  parse_ticket_id now s = parse_identifier now (strip s).
Proof.
  rewrite <- (parse_ticket_id_reference now (strip s)) by apply strip_strip.
  unfold parse_ticket_id. by rewrite strip_strip.
Qed.

Lemma last_char_app a c : last_char (a +:+ String c "") = Some c.
Proof.
  induction a as [|x a IH]; [done|]. rewrite append_cons. simpl. by rewrite IH.
Qed.

Lemma last_char_app_r a b : b ≠ "" → last_char (a +:+ b) = last_char b.
Proof.
  intros Hb. induction a as [|x a IH]; [done|]. rewrite append_cons. simpl. rewrite IH.
  destruct b as [|y b]; [done|]. simpl. by destruct (last_char b).
Qed.

Lemma last_char_all p s c : all_chars p s = true → last_char s = Some c → p c = true.
Proof.
  induction s as [|x s IH]; [done|]. simpl. intros [Hx Hs]%andb_true_iff.
  destruct (last_char s) as [d|]; intros [= <-]; auto.
Qed.

(** A text that starts and ends with a character that is not white space
    is its own trimmed form. *)
Lemma strip_fixed s c :
  starts_word s = true → last_char s = Some c → isspace c = false → strip s = s.
Proof.
  intros Hstart Hlast Hc. unfold strip. rewrite rstrip_fixed.
  - apply lstrip_start. by right.
  - intros a d ->. rewrite last_char_app in Hlast. congruence.
Qed.

Lemma digit_not_space c : isdigit c = true → isspace c = false.
Proof.
  unfold isdigit, isspace, in_range. rewrite !andb_true_iff, !N.leb_le. intros [H1 H2].
  rewrite !orb_false_iff, !andb_false_iff, !N.leb_gt, !N.eqb_neq. lia.
Qed.

Lemma span_app_stop p a b :
  all_chars p a = true →
  match b with "" => True | String c _ => p c = false end →
  span p (a +:+ b) = (a, b).
Proof.
  intros Ha Hb. induction a as [|x a IH].
  - destruct b as [|c b]; [done|]. simpl. by rewrite Hb.
  - simpl in Ha. apply andb_true_iff in Ha as [Hx Ha].
    rewrite append_cons. simpl. rewrite Hx, IH by done. done.
Qed.

Lemma is_year_chars y :
  is_year y = true →
  ∃ a b c d, y = String a (String b (String c (String d "")))
    ∧ isdigit a = true ∧ isdigit b = true ∧ isdigit c = true ∧ isdigit d = true.
Proof.
  unfold is_year. intros [Hl Hd]%andb_true_iff. apply bool_decide_eq_true in Hl.
  destruct y as [|a [|b [|c [|d [|e y]]]]]; try done.
  simpl in Hd. rewrite !andb_true_iff in Hd. destruct Hd as (? & ? & ? & ? & _).
  by exists a, b, c, d.
Qed.

Lemma digit_value_range c : isdigit c = true → (0 ≤ digit_value c ≤ 9)%Z.
Proof.
  unfold isdigit, in_range, digit_value. rewrite andb_true_iff, !N.leb_le. lia.
Qed.

Lemma is_year_range y : is_year y = true → (0 ≤ int_digits 0 y ≤ 9999)%Z.
Proof.
  intros (a & b & c & d & -> & Ha & Hb & Hc & Hd)%is_year_chars. simpl.
  apply digit_value_range in Ha, Hb, Hc, Hd. lia.
Qed.

Lemma strip_shape n r y :
  all_chars isdigit n = true → n ≠ "" → is_year y = true →
  strip (n +:+ r +:+ y) = n +:+ r +:+ y.
Proof.
  intros Hn Hne Hy.
  destruct (is_year_chars y Hy) as (a & b & c & d & -> & _ & _ & _ & Hd).
  apply (strip_fixed _ d).
  - destruct n as [|x n]; [done|]. simpl in Hn. apply andb_true_iff in Hn as [Hx _].
    rewrite append_cons. simpl. by rewrite digit_not_space.
  - rewrite <- append_assoc. by rewrite last_char_app_r.
  - by apply digit_not_space.
Qed.

Lemma strip_digits n : all_chars isdigit n = true → strip n = n.
Proof.
  intros Hn. destruct n as [|x n]; [done|].
  destruct (last_char (String x n)) as [d|] eqn:E.
  - apply (strip_fixed _ d); [|done|].
    + simpl in Hn. apply andb_true_iff in Hn as [Hx _]. simpl. by rewrite digit_not_space.
    + apply digit_not_space. by apply (last_char_all isdigit (String x n)).
  - simpl in E. by destruct (last_char n).
Qed.

Lemma span_digits_only n : all_chars isdigit n = true → span isdigit n = (n, "").
Proof.
  intros Hn. induction n as [|x n IH]; [done|]. simpl in *.
  apply andb_true_iff in Hn as [Hx Hn]. by rewrite Hx, IH.
Qed.

Lemma is_char_refl c : is_char c c = true.
Proof. by apply bool_decide_eq_true. Qed.

Lemma identifier_prefixed now n l d y :
  all_chars isdigit n = true → n ≠ "" → all_chars isletter l = true →
  d = "" ∨ d = "-" → is_year y = true →
  parse_identifier now (n +:+ "/" +:+ l +:+ d +:+ y) = Ok (n, int_digits 0 y).
Proof.
  intros Hn Hne Hl Hd Hy. unfold parse_identifier.
  rewrite span_app_stop by done.
  rewrite bool_decide_false by done.
  change ("/" +:+ l +:+ d +:+ y) with (String "/" (l +:+ d +:+ y)).
  cbv beta iota. rewrite is_char_refl.
  destruct (is_year_chars y Hy) as (a & b & c & e & Ey & Ha & _).
  assert (Hspan : span isletter (l +:+ d +:+ y) = (l, d +:+ y)).
  { apply span_app_stop; [done|]. destruct Hd as [->| ->].
    - rewrite Ey. simpl. by apply digit_not_letter.
    - done. }
  rewrite Hspan. destruct Hd as [->| ->].
  - change ("" +:+ y) with y. subst y.
    rewrite (digit_not_char "-" a) by done. by rewrite Hy.
  - change ("-" +:+ y) with (String "-" y).
    cbv beta iota zeta. rewrite !is_char_refl. by rewrite Hy.
Qed.

Lemma identifier_dash now n y :
  all_chars isdigit n = true → n ≠ "" → is_year y = true →
  parse_identifier now (n +:+ "-" +:+ y) = Ok (n, int_digits 0 y).
Proof.
  intros Hn Hne Hy. unfold parse_identifier.
  rewrite span_app_stop by done.
  rewrite bool_decide_false by done.
  change ("-" +:+ y) with (String "-" y).
  cbv beta iota. replace (is_char "/" "-") with false by done.
  rewrite is_char_refl. by rewrite Hy.
Qed.

Lemma identifier_number now n :
  all_chars isdigit n = true → n ≠ "" → parse_identifier now n = Ok (n, now).
Proof.
  intros Hn Hne. unfold parse_identifier. rewrite span_digits_only by done.
  by rewrite bool_decide_false.
Qed.

Lemma span_rstrip s : (span isdigit (rstrip s)).1 = (span isdigit s).1.
Proof.
  induction s as [|c s IH]; [done|]. rewrite rstrip_cons.
  destruct (isdigit c) eqn:Ec.
  - pose proof (digit_not_space c Ec) as Hs.
    destruct (rstrip s) as [|x r] eqn:Er.
    + rewrite Hs. cbn [span] in *. rewrite Ec. destruct (span isdigit s).
      simpl in *. congruence.
    + cbn [span] in *. rewrite Ec.
      destruct (if isdigit x then let '(a, b) := span isdigit r in (String x a, b)
                else ("", String x r)), (span isdigit s).
      simpl in *. congruence.
  - destruct (rstrip s) as [|x r]; [destruct (isspace c)|]; simpl; by rewrite ?Ec.
Qed.

Lemma first_digits_rstrip s : first_digits (rstrip s) = first_digits s.
Proof.
  induction s as [|c s IH]; [done|].
  pose proof (span_rstrip (String c s)) as Hspan. rewrite rstrip_cons in *.
  destruct (isdigit c) eqn:Ec.
  - pose proof (digit_not_space c Ec) as Hs. cbn [first_digits]. rewrite Ec, <- Hspan.
    destruct (rstrip s) as [|x r]; [rewrite Hs|]; cbn [first_digits]; by rewrite Ec.
  - cbn [first_digits]. rewrite Ec, <- IH.
    destruct (rstrip s) as [|x r]; [destruct (isspace c)|]; cbn [first_digits]; by rewrite ?Ec.
Qed.

Lemma first_digits_lstrip s : first_digits (lstrip s) = first_digits s.
Proof.
  induction s as [|c s IH]; [done|]. simpl. destruct (isspace c) eqn:Es; [|done].
  destruct (isdigit c) eqn:Ec; [|done]. apply digit_not_space in Ec. congruence.
Qed.

Lemma first_digits_strip s : first_digits (strip s) = first_digits s.
Proof. unfold strip. by rewrite first_digits_lstrip, first_digits_rstrip. Qed.

Lemma identifier_result now t number year :
  parse_identifier now t = Ok (number, year) →
  first_digits t = Some number
  ∧ (year = now
     ∨ ∃ a y, t = a +:+ y ∧ is_year y = true ∧ year = int_digits 0 y).
Proof.
  assert (Hfb : parse_fallback now t = Ok (number, year) →
    first_digits t = Some number
    ∧ (year = now ∨ ∃ a y, t = a +:+ y ∧ is_year y = true ∧ year = int_digits 0 y)).
  { unfold parse_fallback. destruct (first_digits t); [|done]. intros [= -> ->]. auto. }
  unfold parse_identifier.
  pose proof (span_app isdigit t) as Ht.
  pose proof (first_digits_prefix t) as Hp.
  destruct (span isdigit t) as [n r]. simpl in Ht.
  destruct n as [|d n]; [done|]. specialize (Hp d n r eq_refl).
  replace (bool_decide (String d n = "")) with false by done.
  destruct r as [|sep r]; [intros [= <- <-]; auto|].
  destruct (is_char "/" sep).
  - pose proof (span_app isletter r) as Hr.
    destruct (span isletter r) as [l r']. simpl in Hr.
    set (y := match r' with
              | String dash year => if is_char "-" dash then year else r'
              | "" => r'
              end).
    assert (Hy : ∃ a, t = a +:+ y).
    { subst y. destruct r' as [|dash r'']; [|destruct (is_char "-" dash)].
      - exists (String d n +:+ String sep l). rewrite <- Ht, <- Hr.
        by rewrite !append_assoc, ?append_cons.
      - exists (String d n +:+ String sep (l +:+ String dash "")). rewrite <- Ht, <- Hr.
        by rewrite !append_assoc, ?append_cons, !append_assoc.
      - exists (String d n +:+ String sep l). rewrite <- Ht, <- Hr.
        by rewrite !append_assoc, ?append_cons. }
    destruct (is_year y) eqn:Ey; [|done]. intros [= <- <-]. split; [done|].
    right. destruct Hy as [a Ha]. by exists a, y.
  - destruct (is_char "-" sep); [|done].
    destruct (is_year r) eqn:Ey; [|done]. intros [= <- <-]. split; [done|].
    right. exists (String d n +:+ String sep ""), r. split_and!; [|done..].
    rewrite <- Ht. by rewrite append_assoc.
Qed.

End IdFacts.

Import Py Re TicketId Reference.

(** X1. White space around an identifier is ignored: on every text
    [parse_ticket_id] is the reference parser applied to the trimmed text,
    and so it gives the same outcome on a text and on its trimmed form. *)
Theorem parse_ticket_id_trims (now_year : Z) (ticket_id : string) :
  parse_ticket_id now_year ticket_id = parse_identifier now_year (strip ticket_id)
  ∧ parse_ticket_id now_year ticket_id = parse_ticket_id now_year (strip ticket_id).
Proof.
  split; [apply IdFacts.parse_any|].
  by rewrite !IdFacts.parse_any, IdFacts.strip_strip.
Qed.

(** X2. The documented shapes, for any number and any year: a non-empty run
    of digits followed by a slash, any letters, an optional dash and four
    digits, or by a dash and four digits, gives the number with that year;
    the digits alone give the number with the current year. *)
Theorem parse_ticket_id_shapes (now_year : Z) (number letters year : string) :
  all_chars isdigit number = true → number ≠ "" →
  all_chars isletter letters = true →
  is_year year = true →
  parse_ticket_id now_year (number +:+ "/" +:+ letters +:+ "-" +:+ year)
    = Ok (number, int_digits 0 year)
  ∧ parse_ticket_id now_year (number +:+ "/" +:+ letters +:+ year)
    = Ok (number, int_digits 0 year)
  ∧ parse_ticket_id now_year (number +:+ "-" +:+ year) = Ok (number, int_digits 0 year)
  ∧ parse_ticket_id now_year number = Ok (number, now_year).
Proof.
  intros Hn Hne Hl Hy. rewrite !IdFacts.parse_any. split_and!.
  - assert (E : "/" +:+ letters +:+ "-" +:+ year = ("/" +:+ letters +:+ "-") +:+ year).
    { change (String "/" (letters +:+ "-" +:+ year)
              = String "/" ((letters +:+ "-") +:+ year)).
      by rewrite ReFacts.append_assoc. }
    rewrite E, (IdFacts.strip_shape number ("/" +:+ letters +:+ "-") year), <- E by done.
    by apply (IdFacts.identifier_prefixed _ _ _ "-"); auto.
  - change ("/" +:+ letters +:+ year) with (("/" +:+ letters) +:+ year).
    rewrite (IdFacts.strip_shape number ("/" +:+ letters) year) by done.
    change (("/" +:+ letters) +:+ year) with ("/" +:+ letters +:+ "" +:+ year).
    by apply (IdFacts.identifier_prefixed _ _ _ ""); auto.
  - rewrite (IdFacts.strip_shape number "-" year) by done.
    by apply IdFacts.identifier_dash.
  - rewrite IdFacts.strip_digits by done. by apply IdFacts.identifier_number.
Qed.

Lemma parse_ticket_id_shapes_witness :
  parse_ticket_id 2026 "17/Ab-1999" = Ok ("17", 1999%Z)
  ∧ parse_ticket_id 2026 "17/Ab1999" = Ok ("17", 1999%Z)
  ∧ parse_ticket_id 2026 "17-1999" = Ok ("17", 1999%Z)
  ∧ parse_ticket_id 2026 "17" = Ok ("17", 2026%Z).
Proof. apply (parse_ticket_id_shapes 2026 "17" "Ab" "1999"); reflexivity || discriminate. Defined.

(** X3. What an accepted identifier yields: the number is the first run of
    digits of the text, and the year is either the current year or the
    number written by the last four characters of the trimmed text, which
    are digits, so that it lies between 0 and 9999. *)
Theorem parse_ticket_id_result (now_year : Z) (ticket_id number : string) (year : Z) :
  parse_ticket_id now_year ticket_id = Ok (number, year) →
  first_digits ticket_id = Some number
  ∧ (year = now_year
     ∨ ∃ before digits, strip ticket_id = before +:+ digits
         ∧ is_year digits = true ∧ year = int_digits 0 digits
         ∧ (0 ≤ year ≤ 9999)%Z).
Proof.
  rewrite IdFacts.parse_any. intros [Hn Hy]%IdFacts.identifier_result.
  rewrite IdFacts.first_digits_strip in Hn. split; [done|].
  destruct Hy as [->|(a & y & Ha & Hy & ->)]; [by left|right].
  exists a, y. split_and!; try done; by apply IdFacts.is_year_range.
Qed.

Lemma parse_ticket_id_result_witness :
  first_digits " 12/AB-2020 " = Some "12"
  ∧ (2020%Z = 2026%Z
     ∨ ∃ before digits, strip " 12/AB-2020 " = before +:+ digits
         ∧ is_year digits = true ∧ 2020%Z = int_digits 0 digits
         ∧ (0 ≤ 2020 ≤ 9999)%Z).
Proof. apply (parse_ticket_id_result 2026 " 12/AB-2020 " "12" 2020). reflexivity. Defined.

(** ** Ingestion and lookup together *)
Module RoundTrip.
Import Py Bs4 CleanHtml Notions.

Lemma years_text_ok : forallb year_text_ok (seqZ 1000 9000) = true.
Proof. vm_compute. reflexivity. Qed.

Lemma str_int_year (year : Z) :
  (1000 ≤ year ≤ 9999)%Z →
  is_year (str_int year) = true ∧ int_digits 0 (str_int year) = year.
Proof.
  intros Hy. pose proof years_text_ok as H.
  rewrite forallb_forall in H. specialize (H year).
  unfold year_text_ok in H. rewrite andb_true_iff, Z.eqb_eq in H. apply H.
  apply list_elem_of_In, elem_of_seqZ. lia.
Qed.

Section ingestion.
Context (html_parser : parser).
Context (fromisoformat_year : string → result Z).
Context (format_value : pyval → string).

Lemma ticket_year_cases date_str :
  ticket_year fromisoformat_year date_str = str_int 2024
  ∨ ∃ s year, fromisoformat_year s = Ok year
              ∧ ticket_year fromisoformat_year date_str = str_int year.
Proof.
  unfold ticket_year. destruct (truthy date_str); [|by left].
  destruct date_str; try by left.
  destruct (fromisoformat_year _) as [year|] eqn:E; [|by left].
  right. by eexists _, year.
Qed.

Lemma process_ticket_fields ticket document :
  process_ticket html_parser fromisoformat_year format_value ticket = Ok document →
  ∃ date_str,
    doc_id document
      = format_value (meta_original_id document) +:+ "/SPC-" +:+ meta_year document
    ∧ meta_year document = ticket_year fromisoformat_year date_str.
Proof.
  unfold process_ticket.
  destruct ticket as [| | | | | | | |d]; try done.
  cbn [ticket_get mbind result_bind Py.bind].
  destruct (clean_html_content html_parser _) as [clean_text|]; [|done].
  cbn [mbind result_bind Py.bind].
  destruct (date_only _) as [date|]; [|done].
  cbn [mbind result_bind Py.bind mret result_ret].
  intros [= <-]. by eexists.
Qed.

End ingestion.
End RoundTrip.

Import CleanHtml.

(** X4. Ingestion and lookup agree on identifiers.  When the record number
    prints as a run of digits and the date parser only yields years of four
    digits, the id [{ttnumtic}/SPC-{year}] that the ingestion gives a
    document is read back by [parse_ticket_id] as that number and that
    year. *)
Theorem ingested_id_parses (html_parser : Bs4.parser)
    (fromisoformat_year : string → result Z) (format_value : pyval → string)
    (now_year : Z) (ticket : pyval) (document : document) :
  (∀ s year, fromisoformat_year s = Ok year → (1000 ≤ year ≤ 9999)%Z) →
  process_ticket html_parser fromisoformat_year format_value ticket = Ok document →
  all_chars isdigit (format_value (meta_original_id document)) = true →
  format_value (meta_original_id document) ≠ "" →
  ∃ year, meta_year document = str_int year
    ∧ parse_ticket_id now_year (doc_id document)
        = Ok (format_value (meta_original_id document), year).
Proof.
  intros Hyears Hdoc Hdigits Hne.
  destruct (RoundTrip.process_ticket_fields _ _ _ _ _ Hdoc) as (date_str & Hid & Hyear).
  assert (Hy : ∃ year, (1000 ≤ year ≤ 9999)%Z ∧ meta_year document = str_int year).
  { destruct (RoundTrip.ticket_year_cases fromisoformat_year date_str)
      as [E|(s & year & Hs & E)].
    - exists 2024%Z. split; [lia|congruence].
    - exists year. split; [by apply (Hyears s)|congruence]. }
  destruct Hy as (year & Hrange & Hy). exists year. split; [done|].
  destruct (RoundTrip.str_int_year year Hrange) as [Hok Hint].
  rewrite Hid, Hy, IdFacts.parse_any.
  rewrite (IdFacts.strip_shape _ "/SPC-" _) by done.
  rewrite (IdFacts.identifier_prefixed now_year _ "SPC" "-" (str_int year)); auto.
  by rewrite Hint.
Qed.

Lemma ingested_id_parses_witness :
  ∃ year, "2023" = str_int year ∧ parse_ticket_id 2026 "3906/SPC-2023" = Ok ("3906", year).
Proof.
  pose (html_parser := (λ s, Ok (Bs4.Tag "[document]" None [Bs4.NavigableString s]))
                       : Bs4.parser).
  pose (fromisoformat_year := (λ s,
    if bool_decide (s = "2023-05-01T10:00:00+00:00") then Ok 2023%Z
    else Raise (ValueError "Invalid isoformat string")) : string → result Z).
  pose (format_value := (λ v,
    match v with PStr s => s | PInt n => str_int n | _ => "" end) : pyval → string).
  pose (ticket := PDict (list_to_map [("ttnumtic", PInt 3906); ("dt_testo", PStr "a  b");
                                      ("dt__data", PStr "2023-05-01T10:00:00Z")])).
  apply (ingested_id_parses html_parser fromisoformat_year format_value 2026 ticket
           (Document "3906/SPC-2023" "a b" (PStr "") (PStr "") (PStr "2023-05-01")
                     "2023" (PInt 3906))).
  - intros s year. unfold fromisoformat_year. case_bool_decide; [|done].
    intros [= <-]. lia.
  - reflexivity.
  - reflexivity.
  - discriminate.
Defined.

(** ** Values: induction on the nesting, [convert_decimals] *)
Module ValueFacts.
Import Py GetTicket Notions.

Lemma size_elem (l : list pyval) v : v ∈ l → (size v < size (PList l))%nat.
Proof.
  cbn [size]. induction 1 as [v l|v w l Hv IH]; rewrite fmap_cons; cbn [sum_list_with id]; lia.
Qed.

Lemma size_lookup (d : gmap string pyval) key v :
  d !! key = Some v → (size v < size (PDict d))%nat.
Proof.
  intros Hk. cbn [size]. rewrite <- (insert_delete_id d key v Hk).
  rewrite map_fold_insert_L.
  - lia.
  - intros. lia.
  - apply lookup_delete_eq.
Qed.

(** Induction on a value, with the property at hand for the items of a
    list and the values of a dict. *)
Lemma pyval_nested_ind (P : pyval → Prop) :
  (∀ v, match v with PList _ | PDict _ => False | _ => True end → P v) →
  (∀ l, Forall P l → P (PList l)) →
  (∀ d, map_Forall (λ _, P) d → P (PDict d)) →
  ∀ v, P v.
Proof.
  intros Hbase Hlist Hdict v.
  revert v. assert (H : ∀ n v, (size v < n)%nat → P v).
  { induction n as [|n IHn]; intros v Hv; [lia|].
    destruct v; try (by apply Hbase).
    - apply Hlist, Forall_forall. intros x Hx. apply IHn.
      pose proof (size_elem _ _ Hx). lia.
    - apply Hdict. intros k x Hx. apply IHn.
      pose proof (size_lookup _ _ _ Hx). lia. }
  intros v. apply (H (S (size v))). lia.
Qed.

Lemma fold_or_false {A} (p : A → bool) (d : gmap string A) :
  map_fold (λ _ v found, p v || found) false d = false
  ↔ map_Forall (λ _ v, p v = false) d.
Proof.
  apply (map_fold_weak_ind (λ r m, r = false ↔ map_Forall (λ _ v, p v = false) m)).
  - split; [intros _; apply map_Forall_empty|done].
  - intros k v m r Hk IH. rewrite map_Forall_insert by done.
    rewrite orb_false_iff. by rewrite IH.
Qed.

Lemma fold_and_true {A} (p : A → bool) (d : gmap string A) :
  map_fold (λ _ v ok, p v && ok) true d = true
  ↔ map_Forall (λ _ v, p v = true) d.
Proof.
  apply (map_fold_weak_ind (λ r m, r = true ↔ map_Forall (λ _ v, p v = true) m)).
  - split; [intros _; apply map_Forall_empty|done].
  - intros k v m r Hk IH. rewrite map_Forall_insert by done.
    rewrite andb_true_iff. by rewrite IH.
Qed.

Lemma existsb_false {A} (p : A → bool) (l : list A) :
  existsb p l = false ↔ Forall (λ v, p v = false) l.
Proof.
  induction l as [|x l IH]; simpl.
  - split; [constructor|done].
  - rewrite orb_false_iff, Forall_cons. by rewrite IH.
Qed.

Lemma forallb_Forall {A} (p : A → bool) (l : list A) :
  forallb p l = true ↔ Forall (λ v, p v = true) l.
Proof.
  induction l as [|x l IH]; simpl.
  - split; [constructor|done].
  - rewrite andb_true_iff, Forall_cons. by rewrite IH.
Qed.

Lemma contains_list p (l : list pyval) :
  contains p (PList l) = false ↔ p (PList l) = false ∧ Forall (λ v, contains p v = false) l.
Proof. cbn [contains]. by rewrite orb_false_iff, existsb_false. Qed.

Lemma contains_dict p (d : gmap string pyval) :
  contains p (PDict d) = false
  ↔ p (PDict d) = false ∧ map_Forall (λ _ v, contains p v = false) d.
Proof. cbn [contains]. by rewrite orb_false_iff, fold_or_false. Qed.

Lemma serializable_list_iff (l : list pyval) :
  serializable (PList l) = true ↔ Forall (λ v, serializable v = true) l.
Proof. cbn [serializable]. apply forallb_Forall. Qed.

Lemma serializable_dict_iff (d : gmap string pyval) :
  serializable (PDict d) = true ↔ map_Forall (λ _ v, serializable v = true) d.
Proof. cbn [serializable]. apply fold_and_true. Qed.

Lemma convert_idempotent v : convert_decimals (convert_decimals v) = convert_decimals v.
Proof.
  induction v as [v Hv|l IH|d IH] using pyval_nested_ind.
  - by destruct v.
  - cbn [convert_decimals]. f_equal. rewrite <- list_fmap_compose.
    apply Forall_fmap_ext_1. eapply Forall_impl; [exact IH|]. by intros x Hx.
  - cbn [convert_decimals]. f_equal. rewrite <- map_fmap_compose.
    apply map_fmap_ext. intros k x Hx. by apply (IH k x).
Qed.

Lemma convert_no_decimal v : contains is_decimal (convert_decimals v) = false.
Proof.
  induction v as [v Hv|l IH|d IH] using pyval_nested_ind.
  - by destruct v.
  - cbn [convert_decimals]. apply contains_list. split; [done|].
    by apply Forall_fmap.
  - cbn [convert_decimals]. apply contains_dict. split; [done|].
    by apply map_Forall_fmap.
Qed.

Lemma convert_fixed v : contains is_decimal v = false → convert_decimals v = v.
Proof.
  induction v as [v Hv|l IH|d IH] using pyval_nested_ind.
  - by destruct v.
  - intros [_ Hl]%contains_list. cbn [convert_decimals]. f_equal.
    rewrite <- (list_fmap_id l) at 2. apply Forall_fmap_ext_1.
    rewrite Forall_forall in *. intros x Hx. apply IH; auto.
  - intros [_ Hd]%contains_dict. cbn [convert_decimals]. f_equal.
    rewrite <- (map_fmap_id d) at 2. apply map_fmap_ext.
    intros k x Hx. apply (IH k x Hx), (Hd k x Hx).
Qed.

Lemma convert_serializable v :
  serializable (convert_decimals v) = true ↔ contains is_datetime v = false.
Proof.
  induction v as [v Hv|l IH|d IH] using pyval_nested_ind.
  - by destruct v.
  - cbn [convert_decimals]. rewrite serializable_list_iff, contains_list, Forall_fmap.
    split.
    + intros H. split; [done|]. rewrite Forall_forall in *. intros x Hx.
      apply IH; [done|]. by apply H.
    + intros [_ H]. rewrite Forall_forall in *. intros x Hx. simpl.
      apply IH; [done|]. by apply H.
  - cbn [convert_decimals]. rewrite serializable_dict_iff, contains_dict, map_Forall_fmap.
    split.
    + intros H. split; [done|]. intros k x Hx. apply (IH k x Hx), (H k x Hx).
    + intros [_ H] k x Hx. simpl. apply (IH k x Hx), (H k x Hx).
Qed.

End ValueFacts.

Import Py GetTicket Notions.

(** X5. [convert_decimals] replaces every [Decimal], at any depth of lists
    and dicts, by a float: its result holds no [Decimal], converting twice
    is converting once, and a value without [Decimal] is returned as it is.
    The result can be written as JSON exactly when the value holds no
    [datetime]. *)
Theorem convert_decimals_spec (obj : pyval) :
  contains is_decimal (convert_decimals obj) = false
  ∧ convert_decimals (convert_decimals obj) = convert_decimals obj
  ∧ (contains is_decimal obj = false → convert_decimals obj = obj)
  ∧ (contains is_datetime obj = false ↔
       json_dumps (convert_decimals obj) = Ok (JsonText (convert_decimals obj)))
  ∧ (contains is_datetime obj = true ↔ ∃ e, json_dumps (convert_decimals obj) = Raise e).
Proof.
  split_and!.
  - apply ValueFacts.convert_no_decimal.
  - apply ValueFacts.convert_idempotent.
  - apply ValueFacts.convert_fixed.
  - rewrite <- ValueFacts.convert_serializable. unfold json_dumps.
    destruct (serializable (convert_decimals obj)); by split.
  - pose proof (ValueFacts.convert_serializable obj) as H. unfold json_dumps.
    destruct (serializable (convert_decimals obj)), (contains is_datetime obj);
      split; try done; try (by eexists); try (by intros [e He]).
    + intros _. by destruct H as [H _]; specialize (H eq_refl).
    + intros _. by destruct H as [_ H]; specialize (H eq_refl).
Qed.

Lemma convert_decimals_spec_witness :
  let obj := PDict {[ "prezzo" := PList [PDecimal (1 # 2); PStr "a"] ]} in
  contains is_decimal (convert_decimals obj) = false
  ∧ json_dumps (convert_decimals obj) = Ok (JsonText (convert_decimals obj)).
Proof.
  intros obj. destruct (convert_decimals_spec obj) as (H1 & _ & _ & H4 & _).
  split; [exact H1|]. apply H4. reflexivity.
Defined.

(** ** The direct lookup *)
Module LookupFacts.
Import Py Bs4 TicketId TicketCleaner GetTicket Reference Notions.

Lemma any_digit_strip s : any_char isdigit (strip s) = any_char isdigit s.
Proof.
  pose proof (ReFacts.first_digits_any s) as H1.
  pose proof (ReFacts.first_digits_any (strip s)) as H2.
  rewrite IdFacts.first_digits_strip in H2.
  destruct (any_char isdigit s), (any_char isdigit (strip s)); try done.
  - destruct H2 as [_ H2]. specialize (H2 eq_refl). apply H1 in H2. done.
  - destruct H1 as [_ H1]. specialize (H1 eq_refl). apply H2 in H1. done.
Qed.

Lemma text_column_insert row text : text_column (<["dt_testo" := PStr text]> row).
Proof. unfold text_column. by rewrite lookup_insert_eq. Qed.

Lemma format_entry_text html_parser entry (h : heap) :
  text_store h → text_store (format_entry html_parser entry h).2.
Proof.
  intros Hh. unfold format_entry.
  destruct (h !! entry) as [row|] eqn:E; [|done].
  assert (Hrow : text_column row) by apply (Hh entry row E).
  unfold alloc. cbv zeta.
  assert (H1 : text_store (<[fresh (dom h) := row]> h)) by (by apply map_Forall_insert_2).
  destruct (row !! "dt_testo") as [v|]; [|done].
  destruct (truthy v); [|done].
  destruct (TicketCleaner.clean_html_content html_parser v); [|done].
  simpl. apply map_Forall_insert_2; [apply text_column_insert|done].
Qed.

Lemma format_ticket_data_text html_parser ticket_data : ∀ h : heap,
  text_store h → text_store (format_ticket_data html_parser ticket_data h).2.
Proof.
  induction ticket_data as [|entry rest IH]; intros h Hh; [done|].
  cbn [format_ticket_data].
  pose proof (format_entry_text html_parser entry h Hh) as H1.
  destruct (format_entry html_parser entry h) as [[formatted|e] h1]; [|done].
  specialize (IH h1 H1).
  by destruct (format_ticket_data html_parser rest h1) as [[formatted_rest|e] h2].
Qed.

Lemma formatted_copy_refl row : formatted_copy row row.
Proof. by split. Qed.

Lemma formatted_copy_trans a b c :
  formatted_copy a b → formatted_copy b c → formatted_copy a c.
Proof.
  intros [Hd1 Hk1] [Hd2 Hk2]. split; [congruence|].
  intros key Hkey. rewrite Hk2, Hk1; done.
Qed.

(** A delivered row after the date is put in ISO form and the decimals are
    converted. *)
Lemma delivered_entry row :
  delivered_row row →
  ∃ entry, with_iso_date row = Ok entry
    ∧ dom (convert_decimals <$> entry) = dom row
    ∧ text_column (convert_decimals <$> entry)
    ∧ ∀ key, (convert_decimals <$> entry) !! key = delivered_value <$> row !! key.
Proof.
  intros (Htext & Hdate & Hother).
  assert (Hval : ∀ key v, key ≠ "dt__data" → row !! key = Some v →
            convert_decimals v = delivered_value v).
  { intros key v Hkey Hv. specialize (Hother key v Hkey Hv). by destruct v. }
  assert (Hcol : ∀ entry : gmap string pyval,
            entry !! "dt_testo" = row !! "dt_testo" → text_column (convert_decimals <$> entry)).
  { intros entry He. unfold text_column in *. rewrite lookup_fmap, He.
    by destruct (row !! "dt_testo") as [[]|]. }
  unfold with_iso_date, dict_get, date_column in *.
  destruct (row !! "dt__data") as [v|] eqn:Ev.
  - destruct v; try done; simpl.
    + exists row. split_and!; [done|by rewrite dom_fmap_L|by apply Hcol|].
      intros key. rewrite lookup_fmap. destruct (decide (key = "dt__data")) as [->|Hne].
      * by rewrite Ev.
      * destruct (row !! key) as [v|] eqn:E; [|done]. simpl. f_equal. by apply (Hval key).
    + exists (<["dt__data" := PStr iso]> row). split_and!; [done| | |].
      * rewrite dom_fmap_L, dom_insert_L. apply elem_of_dom_2 in Ev.
        by apply subseteq_union_1_L, singleton_subseteq_l.
      * apply Hcol. by rewrite lookup_insert_ne.
      * intros key. rewrite lookup_fmap. destruct (decide (key = "dt__data")) as [->|Hne].
        -- by rewrite lookup_insert_eq, Ev.
        -- rewrite lookup_insert_ne by done.
           destruct (row !! key) as [v|] eqn:E; [|done]. simpl. f_equal. by apply (Hval key).
  - simpl. exists row. split_and!; [done|by rewrite dom_fmap_L|by apply Hcol|].
    intros key. rewrite lookup_fmap. destruct (decide (key = "dt__data")) as [->|Hne].
    + by rewrite Ev.
    + destruct (row !! key) as [v|] eqn:E; [|done]. simpl. f_equal. by apply (Hval key).
Qed.

Lemma answered_copy row d copy :
  dom d = dom row → (∀ key, d !! key = delivered_value <$> row !! key) →
  formatted_copy d copy → text_column copy → answered_row row copy.
Proof.
  intros Hdom Hval [Hd Hk] Htext. split_and!; [congruence|done|].
  intros key Hkey. by rewrite Hk, Hval.
Qed.

Lemma answered_formatted row entry copy :
  answered_row row entry → formatted_copy entry copy → text_column copy →
  answered_row row copy.
Proof.
  intros (Hdom & _ & Hval) [Hd Hk] Htext. split_and!; [congruence|done|].
  intros key Hkey. rewrite Hk by done. by apply Hval.
Qed.

(** The loop over the rows.  The entries gathered before are formatted once
    more at every turn; each stays an answer to its row. *)
Lemma collect_entries_spec html_parser rows : ∀ (gathered : list (gmap string pyval))
    (ticket_entries : list loc) (h : heap),
  text_store h →
  Forall2 (λ row entry, ∃ d, h !! entry = Some d ∧ answered_row row d)
    gathered ticket_entries →
  Forall delivered_row rows →
  ∃ entries (h' : heap),
    collect_entries html_parser rows ticket_entries h = (Ok entries, h')
    ∧ text_store h'
    ∧ Forall2 (λ row entry, ∃ d, h' !! entry = Some d ∧ answered_row row d)
        (gathered ++ rows) entries.
Proof.
  induction rows as [|row rows IH]; intros gathered ticket_entries h Hh Hacc Hrows.
  - exists ticket_entries, h. by rewrite app_nil_r.
  - apply Forall_cons in Hrows as [Hrow Hrows].
    destruct (delivered_entry row Hrow) as (entry & Hiso & Hdom & Htext & Hval).
    cbn [collect_entries]. rewrite Hiso.
    destruct (FormatFacts.alloc_fresh (convert_decimals <$> entry) h) as [Hfresh Halloc].
    destruct (alloc (convert_decimals <$> entry) h) as [l h1]. simpl in Hfresh, Halloc.
    assert (Hh1 : text_store h1).
    { subst h1. by apply map_Forall_insert_2. }
    assert (Hold : ∀ e d, h !! e = Some d → h1 !! e = Some d).
    { intros e d He. subst h1. rewrite lookup_insert_ne; [done|].
      intros <-. by apply elem_of_dom_2 in He. }
    assert (Hl : h1 !! l = Some (convert_decimals <$> entry)).
    { subst h1. apply lookup_insert_eq. }
    assert (Hacc1 : Forall2 (λ row entry, ∃ d, h1 !! entry = Some d ∧ answered_row row d)
              (gathered ++ [row]) (ticket_entries ++ [l])).
    { apply Forall2_app.
      - eapply Forall2_impl; [exact Hacc|]. intros r e (d & He & Hd). exists d. auto.
      - constructor; [|constructor]. exists (convert_decimals <$> entry).
        split; [done|]. split_and!; try done. }
    destruct (FormatFacts.format_ticket_data_spec html_parser (ticket_entries ++ [l]) h1)
      as (formatted_data & h2 & Hrun & Hframe & Hall & _).
    { eapply FormatFacts.Forall2_right; [exact Hacc1|].
      intros r e (d & Hd & _ & Hcol & _). by exists d. }
    assert (Hh2 : text_store h2).
    { pose proof (format_ticket_data_text html_parser (ticket_entries ++ [l]) h1 Hh1) as H2.
      by rewrite Hrun in H2. }
    assert (Hacc2 : Forall2 (λ row entry, ∃ d, h2 !! entry = Some d ∧ answered_row row d)
              (gathered ++ [row]) formatted_data).
    { eapply Forall2_trans; [|exact Hacc1|exact Hall].
      intros r e f (d & Hd & Hans) (_ & d' & copy & Hd' & Hcopy & Hfc).
      exists copy. split; [done|]. assert (d' = d) as -> by congruence.
      eapply answered_formatted; [exact Hans|exact Hfc|]. by apply (Hh2 f copy). }
    destruct (IH (gathered ++ [row])%list formatted_data h2 Hh2 Hacc2 Hrows)
      as (entries & h' & Hloop & Hh' & Hres).
    exists entries, h'. rewrite Hrun. split; [done|]. split; [done|].
    by rewrite <- app_assoc in Hres.
Qed.

Lemma success_converted ticket_id number year (entries : list (gmap string pyval)) :
  convert_decimals (PDict (success_response ticket_id number year (PDict <$> entries)))
    = PDict (success_response ticket_id number year
               (PDict <$> ((fmap convert_decimals : gmap string pyval → gmap string pyval)
                           <$> entries))).
Proof.
  cbn [convert_decimals]. f_equal. unfold success_response.
  rewrite <- list_to_map_fmap. cbn [fmap list_fmap prod_map fst snd convert_decimals id].
  rewrite !length_fmap, <- !list_fmap_compose.
  assert (E : (convert_decimals ∘ PDict <$> entries)
              = (PDict ∘ fmap convert_decimals <$> entries)) by (by apply list_fmap_ext).
  by rewrite E.
Qed.

Lemma answered_serializable row entry :
  delivered_row row → answered_row row entry →
  map_Forall (λ _ v, serializable (convert_decimals v) = true) entry.
Proof.
  intros (_ & Hdate & Hother) (Hdom & Htext & Hval) key v Hv.
  destruct (decide (key = "dt_testo")) as [->|Hne].
  - unfold text_column in Htext. rewrite Hv in Htext. by destruct v.
  - rewrite (Hval key Hne) in Hv.
    destruct (row !! key) as [w|] eqn:Ew; [|done]. simpl in Hv. injection Hv as <-.
    destruct (decide (key = "dt__data")) as [->|Hnd].
    + unfold date_column in Hdate. rewrite Ew in Hdate. by destruct w.
    + specialize (Hother key w Hnd Ew).
      assert (Hw : delivered_value w = convert_decimals w) by (by destruct w).
      rewrite Hw, ValueFacts.convert_idempotent. by apply ValueFacts.convert_serializable.
Qed.

Lemma answered_converted row entry :
  answered_row row entry → answered_row row (convert_decimals <$> entry).
Proof.
  intros (Hdom & Htext & Hval). split_and!.
  - by rewrite dom_fmap_L.
  - unfold text_column in *. rewrite lookup_fmap.
    by destruct (entry !! "dt_testo") as [[]|].
  - intros key Hkey. rewrite lookup_fmap, (Hval key Hkey).
    destruct (row !! key) as [w|]; [|done]. simpl. f_equal.
    destruct w; try done; apply ValueFacts.convert_idempotent.
Qed.

Lemma not_blank ticket_id :
  strip ticket_id ≠ "" →
  negb (str_truthy ticket_id) || negb (str_truthy (strip ticket_id)) = false.
Proof.
  intros H. destruct (negb (str_truthy ticket_id) || negb (str_truthy (strip ticket_id)))
    eqn:E; [|done].
  by apply ToolFacts.blank_query in E.
Qed.

Lemma success_dumps ticket_id number year rows (entries : list (gmap string pyval)) :
  Forall delivered_row rows → Forall2 answered_row rows entries →
  json_dumps (convert_decimals
    (PDict (success_response ticket_id number year (PDict <$> entries))))
  = Ok (JsonText (PDict (success_response ticket_id number year
          (PDict <$> ((fmap convert_decimals : gmap string pyval → gmap string pyval)
                      <$> entries))))).
Proof.
  intros Hrows Hans. rewrite success_converted.
  apply ToolFacts.json_dumps_ok, ToolFacts.serializable_fields.
  repeat constructor. cbn [snd].
  apply ToolFacts.serializable_list. rewrite <- list_fmap_compose.
  apply Forall_fmap.
  eapply FormatFacts.Forall2_right; [|intros row entry H; exact H].
  eapply FormatFacts.Forall2_with_left; [exact Hrows|exact Hans|].
  intros row entry Hrow Hentry. simpl.
  apply ValueFacts.serializable_dict_iff, map_Forall_fmap.
  by apply (answered_serializable row).
Qed.

End LookupFacts.

Import TicketId.

(** X6. A ticket that is found.  When the identifier parses, the connection
    opens and closes, and the query delivers at least one row, each with a
    text or NULL under [dt_testo], a [datetime] or NULL under [dt__data]
    and no [datetime] elsewhere, the tool answers the success object:
    [entries_count] is the number of rows, and [ticket_data] lists, in the
    order of the rows, one entry per row with the same columns, a text or
    NULL under [dt_testo], the date in ISO form and every [Decimal]
    converted.  This holds whatever the HTML parser does. *)
Theorem get_ticket_found (now_year : Z) (html_parser : Bs4.parser) (db : postgres)
    (ticket_id number : string) (year : Z) (rows : list (gmap string pyval)) :
  strip ticket_id ≠ "" →
  parse_ticket_id now_year (strip ticket_id) = Ok (number, year) →
  get_postgres_connection db = Ok () →
  fetch_rows db number (str_int year +:+ "-01-01") (str_int (year + 1) +:+ "-01-01")
    = Ok rows →
  rows ≠ [] →
  conn_close db = Ok () →
  Forall delivered_row rows →
  ∃ entries,
    get_ticket_by_id now_year html_parser db ticket_id
      = Ok (JsonText (PDict (success_response ticket_id number year (PDict <$> entries))))
    ∧ success_response ticket_id number year (PDict <$> entries) !! "entries_count"
        = Some (PInt (Z.of_nat (length rows)))
    ∧ Forall2 answered_row rows entries.
Proof.
  intros Hid Hparse Hconn Hfetch Hne Hclose Hrows.
  destruct (LookupFacts.collect_entries_spec html_parser rows [] [] ∅)
    as (locs & h & Hloop & _ & Hans); [apply map_Forall_empty|constructor|done|].
  rewrite app_nil_l in Hans.
  set (gathered := (λ l, default ∅ (h !! l)) <$> locs).
  assert (Hgathered : Forall2 answered_row rows gathered).
  { unfold gathered. apply Forall2_fmap_r.
    eapply Forall2_impl; [exact Hans|]. intros row l (d & Hd & Hrow).
    unfold compose. by rewrite Hd. }
  assert (Hvalue : entries_value h locs = PDict <$> gathered).
  { unfold entries_value, gathered. by rewrite <- list_fmap_compose. }
  exists ((fmap convert_decimals : gmap string pyval → gmap string pyval) <$> gathered).
  split_and!.
  - unfold get_ticket_by_id, get_ticket_body.
    rewrite LookupFacts.not_blank, Hparse by done.
    cbn [mbind result_bind Py.bind]. rewrite Hconn.
    cbn [mbind result_bind Py.bind]. unfold try_finally. rewrite Hclose.
    unfold lookup. rewrite Hfetch. cbn [mbind result_bind Py.bind].
    rewrite bool_decide_false by done. rewrite Hloop, Hvalue.
    by rewrite (LookupFacts.success_dumps _ _ _ rows).
  - unfold success_response. rewrite !length_fmap.
    apply Forall2_length in Hgathered. by rewrite <- Hgathered.
  - apply Forall2_fmap_r. eapply Forall2_impl; [exact Hgathered|].
    intros row entry. apply LookupFacts.answered_converted.
Qed.

(** One row with a date and a price. *)
Lemma get_ticket_found_witness :
  let row : gmap string pyval :=
    {[ "dt_testo" := PStr "<p>x</p>"; "dt__data" := PDateTime "2024-03-01T09:00:00";
       "prezzo" := PDecimal (5 # 2) ]} in
  let db := Postgres (Ok ()) (λ _ _ _, Ok [row]) (Ok ()) in
  ∃ entries,
    get_ticket_by_id 2026 Reference.rejecting_parser db " 3906/SPC-2024"
      = Ok (JsonText (PDict (success_response " 3906/SPC-2024" "3906" 2024
                               (PDict <$> entries))))
    ∧ success_response " 3906/SPC-2024" "3906" 2024 (PDict <$> entries) !! "entries_count"
        = Some (PInt (Z.of_nat (length [row])))
    ∧ Forall2 answered_row [row] entries.
Proof.
  intros row db.
  apply (get_ticket_found 2026 Reference.rejecting_parser db " 3906/SPC-2024" "3906" 2024
           [row]).
  - vm_compute. discriminate.
  - vm_compute. reflexivity.
  - reflexivity.
  - reflexivity.
  - discriminate.
  - reflexivity.
  - constructor; [|constructor]. split_and!.
    + vm_compute. exact I.
    + vm_compute. exact I.
    + intros key v Hkey Hv. unfold row in Hv.
      apply lookup_insert_Some in Hv as [[<- <-]|[_ Hv]]; [reflexivity|].
      apply lookup_insert_Some in Hv as [[<- <-]|[_ Hv]]; [done|].
      apply lookup_singleton_Some in Hv as [<- <-]. reflexivity.
Defined.

(** X7. An identifier without a digit is refused before the database is
    approached: whatever the database and the parser, the answer is the
    error object of a [ValueError], with the empty-identifier message when
    the identifier is blank and the unrecognised-format message
    otherwise. *)
Theorem get_ticket_refused (now_year : Z) (html_parser : Bs4.parser) (db : postgres)
    (ticket_id : string) :
  any_char isdigit ticket_id = false →
  ∃ e, get_ticket_by_id now_year html_parser db ticket_id
         = Ok (JsonText (PDict (error_response ticket_id e)))
    ∧ exn_type e = "ValueError"
    ∧ e = (if bool_decide (strip ticket_id = "") then empty_ticket_id
           else unrecognised (strip ticket_id)).
Proof.
  intros Hno. unfold get_ticket_by_id, get_ticket_body.
  case_bool_decide as Hblank.
  - exists empty_ticket_id. split; [|done].
    apply ToolFacts.blank_query in Hblank. rewrite Hblank. cbn [try_except].
    apply ToolFacts.ticket_error_dumps.
  - exists (unrecognised (strip ticket_id)). split; [|done].
    rewrite LookupFacts.not_blank by done.
    rewrite IdFacts.parse_any, IdFacts.strip_strip.
    destruct (ReFacts.parse_identifier_outcome now_year (strip ticket_id))
      as [[_ ->]|[Hany _]].
    + cbn [mbind result_bind Py.bind try_except]. apply ToolFacts.ticket_error_dumps.
    + rewrite LookupFacts.any_digit_strip in Hany. congruence.
Qed.

Lemma get_ticket_refused_witness :
  ∃ e, get_ticket_by_id 2026 Reference.rejecting_parser
         (Postgres (Raise (Exn "OperationalError" "no route")) (λ _ _ _, Ok []) (Ok ()))
         "SPC" = Ok (JsonText (PDict (error_response "SPC" e)))
    ∧ exn_type e = "ValueError"
    ∧ e = (if bool_decide (strip "SPC" = "") then empty_ticket_id
           else unrecognised (strip "SPC")).
Proof. apply get_ticket_refused. reflexivity. Defined.

(** ** The semantic search *)
Module SearchFacts.
Import Py Search.

Lemma substring_short (n : nat) s : (String.length s ≤ n)%nat → substring 0 n s = s.
Proof.
  revert s. induction n as [|n IH]; intros [|c s] H; simpl in *; try done; try lia.
  f_equal. apply IH. lia.
Qed.

Lemma substring_prefix (n : nat) s :
  (n < String.length s)%nat →
  ∃ rest, s = substring 0 n s +:+ rest ∧ rest ≠ ""
          ∧ String.length (substring 0 n s) = n.
Proof.
  revert s. induction n as [|n IH]; intros [|c s] H; simpl in *; try lia.
  - by exists (String c s).
  - destruct (IH s) as (rest & Hs & Hne & Hlen); [lia|].
    exists rest. rewrite ReFacts.append_cons, <- Hs, Hlen. done.
Qed.

Lemma formatted_results_lookup ids : ∀ i ds ms docs k result,
  formatted_results i ids ds ms docs !! k = Some result →
  ∃ ticket_id distance metadata document,
    ids !! k = Some ticket_id ∧ ds !! k = Some distance
    ∧ ms !! k = Some metadata ∧ docs !! k = Some document
    ∧ result = formatted_result (i + k) ticket_id distance metadata document.
Proof.
  induction ids as [|x ids IH]; intros i ds ms docs k result; [done|].
  destruct ds as [|d ds], ms as [|m ms], docs as [|doc docs]; try done.
  cbn [formatted_results]. destruct k as [|k]; simpl.
  - intros [= <-]. exists x, d, m, doc. by rewrite Nat.add_0_r.
  - intros H. destruct (IH _ _ _ _ _ _ H) as (t & e & a & b & ? & ? & ? & ? & ->).
    exists t, e, a, b. split_and!; try done. f_equal. lia.
Qed.

Lemma formatted_results_min ids : ∀ i ds ms docs,
  length (formatted_results i ids ds ms docs)
    = (length ids `min` (length ds `min` (length ms `min` length docs)))%nat.
Proof.
  induction ids as [|x ids IH]; intros i ds ms docs; [done|].
  destruct ds as [|d ds], ms as [|m ms], docs as [|doc docs]; simpl; try lia.
  by rewrite IH.
Qed.

End SearchFacts.

Import Py Search.

(** X8. The results are numbered from 1 in the order of the store: the
    entry at position [k] is built from the [k]-th id, distance, metadata
    and document, and its [rank] is [k + 1].  Lists of different lengths
    are cut to the shortest. *)
Theorem formatted_results_ranks (ids : list string) (distances : list Q)
    (metadatas : list (gmap string pyval)) (documents : list string) :
  length (formatted_results 0 ids distances metadatas documents)
    = (length ids `min` (length distances `min`
         (length metadatas `min` length documents)))%nat
  ∧ ∀ k result,
      formatted_results 0 ids distances metadatas documents !! k = Some result →
      ∃ ticket_id distance metadata document,
        ids !! k = Some ticket_id ∧ distances !! k = Some distance
        ∧ metadatas !! k = Some metadata ∧ documents !! k = Some document
        ∧ result = formatted_result k ticket_id distance metadata document
        ∧ result !! "rank" = Some (PInt (Z.of_nat k + 1))
        ∧ result !! "ticket_id" = Some (PStr ticket_id)
        ∧ result !! "content_preview" = Some (PStr (document_preview document)).
Proof.
  split; [apply SearchFacts.formatted_results_min|].
  intros k result H.
  destruct (SearchFacts.formatted_results_lookup _ _ _ _ _ _ _ H)
    as (t & d & m & doc & ? & ? & ? & ? & ->).
  exists t, d, m, doc. by split_and!.
Qed.

(** X9. The preview of a document: a document of at most 300 characters is
    shown whole; a longer one is cut to its first 300 characters, followed
    by three dots.  A preview never exceeds 303 characters. *)
Theorem document_preview_spec (document : string) :
  ((String.length document ≤ 300)%nat → document_preview document = document)
  ∧ ((300 < String.length document)%nat →
       ∃ head rest, document = head +:+ rest ∧ rest ≠ ""
         ∧ String.length head = 300%nat
         ∧ document_preview document = head +:+ "...")
  ∧ (String.length (document_preview document) ≤ 303)%nat.
Proof.
  unfold document_preview. split_and!.
  - intros H. rewrite bool_decide_false by lia. done.
  - intros H. rewrite bool_decide_true by done.
    destruct (SearchFacts.substring_prefix 300 document H) as (rest & Hs & Hne & Hlen).
    by exists (substring 0 300 document), rest.
  - case_bool_decide as H; [|lia].
    destruct (SearchFacts.substring_prefix 300 document H) as (rest & Hs & Hne & Hlen).
    rewrite ReFacts.length_append, Hlen. simpl. lia.
Qed.

Lemma document_preview_spec_witness :
  document_preview "stampante" = "stampante".
Proof. apply (proj1 (document_preview_spec "stampante")). simpl. lia. Defined.

(** X10. What the store does decides the answer of a valid search.  When
    the collection cannot be opened the query is never issued, and the
    error object carries that exception; when the query raises, the error
    object carries its exception; when the store finds nothing, the answer
    is the success object with no result and the message that no ticket
    was found.  The store is asked for the trimmed text, the answer echoes
    the text as it was given. *)
Theorem search_store_outcomes (store : vector_store) (query_text : string) (n_results : Z) :
  strip query_text ≠ "" → (1 ≤ n_results ≤ 20)%Z →
  (∀ e, get_collection store = Raise e →
     search_similar_tickets store query_text n_results
       = (Ok (JsonText (PDict (error_response query_text e))), [GetCollection]))
  ∧ (∀ e, get_collection store = Ok () →
       collection_query store [strip query_text] n_results = Raise e →
       search_similar_tickets store query_text n_results
         = (Ok (JsonText (PDict (error_response query_text e))),
            [GetCollection; Query [strip query_text] n_results]))
  ∧ (∀ results, get_collection store = Ok () →
       collection_query store [strip query_text] n_results = Ok results →
       ids results = [] ∨ (∃ others, ids results = [] :: others) →
       search_similar_tickets store query_text n_results
         = (Ok (JsonText (PDict (no_results query_text))),
            [GetCollection; Query [strip query_text] n_results])
       ∧ no_results query_text !! "results_count" = Some (PInt 0)
       ∧ no_results query_text !! "results" = Some (PList [])).
Proof.
  intros Hq Hn.
  assert (H1 : negb (str_truthy query_text) || negb (str_truthy (strip query_text)) = false)
    by (by apply LookupFacts.not_blank).
  assert (H2 : (n_results <? 1)%Z || (20 <? n_results)%Z = false).
  { apply orb_false_iff. split; apply Z.ltb_ge; lia. }
  unfold search_similar_tickets, search_body. rewrite H1, H2. split_and!.
  - intros e ->. cbn [try_except]. by rewrite ToolFacts.search_error_dumps.
  - intros e -> ->. cbn [mbind result_bind Py.bind try_except].
    by rewrite ToolFacts.search_error_dumps.
  - intros results -> -> Hids. cbn [mbind result_bind Py.bind]. split; [|done].
    unfold format_response.
    assert (Hd : json_dumps (PDict (no_results query_text))
                 = Ok (JsonText (PDict (no_results query_text)))).
    { apply ToolFacts.json_dumps_ok, ToolFacts.serializable_fields. by repeat constructor. }
    destruct Hids as [->|[others ->]]; by rewrite Hd.
Qed.

Lemma search_store_outcomes_witness :
  search_similar_tickets
    (VectorStore (Raise (Exn "ConnectionError" "store unreachable"))
       (λ _ _, Ok (QueryResult [] [] [] [])))
    " stampante " 5
  = (Ok (JsonText (PDict (error_response " stampante "
           (Exn "ConnectionError" "store unreachable")))), [GetCollection]).
Proof.
  apply (search_store_outcomes
           (VectorStore (Raise (Exn "ConnectionError" "store unreachable"))
              (λ _ _, Ok (QueryResult [] [] [] [])))
           " stampante " 5).
  - vm_compute. discriminate.
  - lia.
  - reflexivity.
Defined.

(** ** White space normalization is idempotent *)
Module WordFacts.
Import Py Reference MatchAux Notions ReFacts LenientFacts.

Lemma words_are_words s : Forall word (words s).
Proof.
  induction s as [|c s IH]; [constructor|]. simpl.
  destruct (isspace c) eqn:Ec; [done|].
  destruct (starts_word s).
  - destruct (words s) as [|w ws]; [repeat constructor; simpl; by rewrite ?Ec|].
    apply Forall_cons in IH as [[Hne Hw] Hws]. constructor; [|done].
    split; [done|]. simpl. by rewrite Ec.
  - constructor; [|done]. split; [done|]. simpl. by rewrite Ec.
Qed.

Lemma words_one w : word w → words w = [w].
Proof.
  intros [Hne Hw]. induction w as [|c w IH]; [done|]. simpl in *.
  apply orb_false_iff in Hw as [Hc Hw]. rewrite Hc.
  destruct w as [|d w]; [done|].
  rewrite IH by done. simpl in Hw. apply orb_false_iff in Hw as [Hd _].
  simpl. by rewrite Hd.
Qed.

Lemma words_blank w rest : word w → words (w +:+ String " " rest) = w :: words rest.
Proof.
  intros [Hne Hw]. induction w as [|c w IH]; [done|]. rewrite append_cons. simpl in *.
  apply orb_false_iff in Hw as [Hc Hw]. rewrite Hc.
  destruct w as [|d w]; [done|].
  rewrite IH by done. simpl in Hw. apply orb_false_iff in Hw as [Hd _].
  rewrite append_cons. simpl. by rewrite Hd.
Qed.

Lemma words_concat ws : Forall word ws → words (String.concat " " ws) = ws.
Proof.
  induction 1 as [|w ws Hw Hws IH]; [done|]. rewrite concat_cons.
  destruct ws as [|v ws]; [by apply words_one|].
  change (w +:+ " " +:+ String.concat " " (v :: ws))
    with (w +:+ String " " (String.concat " " (v :: ws))).
  by rewrite words_blank, IH.
Qed.

Lemma normalize_idempotent s :
  normalize_whitespace (normalize_whitespace s) = normalize_whitespace s.
Proof.
  unfold normalize_whitespace. by rewrite words_concat by apply words_are_words.
Qed.

End WordFacts.

(** ** Patterns that find nothing *)
Module NoMatch.
Import Py Re Notions.

Lemma cls_within_spec cls p c : cls_within cls p = true → cls c = true → p c = true.
Proof.
  unfold cls_within. rewrite forallb_forall. intros H Hc.
  specialize (H (nat_of_ascii c)). rewrite ascii_nat_embedding, Hc in H.
  apply H, in_seq. pose proof (nat_ascii_bounded c). lia.
Qed.

Section matcher.
Context {R : Type} (p : ascii → bool).

Lemma rep_none cls : ∀ s lo hi prev (k : option ascii → string → option R),
  any_char p s = false →
  (∃ n, lo = S n) ∧ cls_within cls p = true
  ∨ (∀ prev' s', any_char p s' = false → k prev' s' = None) →
  rep cls lo hi prev s k = None.
Proof.
  induction s as [|c s IH]; intros lo hi prev k Hs Hk.
  - assert (Hstop : match lo with O => k prev "" | S _ => None end = None).
    { destruct Hk as [[[n ->] _]|Hk]; [done|]. destruct lo; [by apply Hk|done]. }
    simpl. by destruct hi as [[|h]|].
  - assert (Hstop : match lo with O => k prev (String c s) | S _ => None end = None).
    { destruct Hk as [[[n ->] _]|Hk]; [done|]. destruct lo; [by apply Hk|done]. }
    simpl in Hs. apply orb_false_iff in Hs as [Hc Hs].
    assert (Hnext : cls c = true → ∀ lo' hi', rep cls lo' hi' (Some c) s k = None).
    { intros Hcls lo' hi'. apply IH; [done|].
      destruct Hk as [[_ Hw]|Hk]; [|by right].
      exfalso. pose proof (cls_within_spec cls p c Hw Hcls). congruence. }
    cbn [rep]. destruct hi as [[|h]|]; [done| |].
    + destruct (cls c) eqn:Ec; [|done]. by rewrite Hnext.
    + destruct (cls c) eqn:Ec; [|done]. by rewrite Hnext.
Qed.

Lemma rmatch_none ml r : ∀ prev s g (k : option ascii → string → groups → option R),
  any_char p s = false →
  requires p r = true ∨ (∀ prev' s' g', any_char p s' = false → k prev' s' g' = None) →
  rmatch ml r prev s g k = None.
Proof.
  induction r as [| | | |cls lo hi|r1 IH1 r2 IH2|r1 IH1 r2 IH2|i r IH];
    intros prev s g k Hs Hk; cbn [rmatch requires] in *.
  - destruct Hk as [|Hk]; [done|]. by apply Hk.
  - destruct Hk as [|Hk]; [done|]. destruct (at_bol ml prev); [by apply Hk|done].
  - destruct Hk as [|Hk]; [done|]. destruct (at_eol ml s); [by apply Hk|done].
  - destruct Hk as [|Hk]; [done|]. destruct (at_wordb prev s); [by apply Hk|done].
  - apply rep_none; [done|]. destruct Hk as [Hk|Hk].
    + left. destruct lo; [done|]. split; [by eexists|done].
    + right. intros prev' s' Hs'. by apply Hk.
  - destruct (requires p r1) eqn:E1.
    + apply IH1; auto.
    + apply IH1; [done|]. right. intros prev' s' g' Hs'. apply IH2; [done|].
      destruct Hk as [Hk|Hk]; [by left|by right].
  - assert (H1 : rmatch ml r1 prev s g k = None).
    { apply IH1; [done|]. destruct Hk as [[H _]%andb_true_iff|Hk]; auto. }
    rewrite H1. apply IH2; [done|]. destruct Hk as [[_ H]%andb_true_iff|Hk]; auto.
  - apply IH; [done|]. destruct Hk as [Hk|Hk]; [by left|right].
    intros prev' s' g' Hs'. by apply Hk.
Qed.

End matcher.

Lemma match_here_none p ml adv r prev s :
  requires p r = true → any_char p s = false → match_here ml adv r prev s = None.
Proof. intros Hr Hs. unfold match_here. apply (rmatch_none p); auto. Qed.

(** A substitution whose pattern needs a character that the subject does
    not have leaves the subject as it is. *)
Lemma re_sub_none p ml r t s :
  requires p r = true → any_char p s = false → re_sub ml r t s = s.
Proof.
  intros Hr. unfold re_sub. generalize (@None ascii) as prev.
  induction s as [|c s IH]; intros prev Hs.
  - cbn [sub_go]. by rewrite (match_here_none p).
  - cbn [sub_go]. rewrite (match_here_none p) by done.
    simpl in Hs. apply orb_false_iff in Hs as [_ Hs]. by rewrite IH.
Qed.

End NoMatch.

(** ** The normalizers of the ingestion *)
Module CleanFacts.
Import Py Re Bs4 CleanHtml Reference Notions.

Lemma spaces_then_strip s :
  strip (re_sub false re_spaces [PLit " "] s) = normalize_whitespace s.
Proof. by rewrite LenientFacts.re_sub_spaces, LenientFacts.strip_collapse. Qed.

(** The second substitution of the lenient normalizer finds nothing: no
    newline is left by the first. *)
Lemma blank_lines_idle s :
  re_sub false re_blank_lines [PLit (nl +:+ nl)] (re_sub false re_spaces [PLit " "] s)
    = re_sub false re_spaces [PLit " "] s.
Proof.
  rewrite LenientFacts.re_sub_spaces. unfold re_sub.
  apply LenientFacts.sub_blank_lines, LenientFacts.collapse_no_nl.
Qed.

Lemma any_char_lstrip p s : any_char p s = false → any_char p (lstrip s) = false.
Proof.
  induction s as [|c s IH]; [done|]. simpl. intros [Hc Hs]%orb_false_iff.
  destruct (isspace c); [by apply IH|]. simpl. by rewrite Hc, Hs.
Qed.

Lemma any_char_rstrip p s : any_char p s = false → any_char p (rstrip s) = false.
Proof.
  induction s as [|c s IH]; [done|]. rewrite LenientFacts.rstrip_cons. simpl.
  intros [Hc Hs]%orb_false_iff. specialize (IH Hs).
  destruct (rstrip s) as [|d r]; [destruct (isspace c)|]; simpl in *; by rewrite ?Hc, ?IH.
Qed.

Lemma any_char_strip p s : any_char p s = false → any_char p (strip s) = false.
Proof. intros H. unfold strip. by apply any_char_lstrip, any_char_rstrip. Qed.

Lemma preprocess_text_words text :
  preprocess_text text = "" ∧ text = ""
  ∨ ∃ t, preprocess_text text = normalize_whitespace t.
Proof.
  unfold preprocess_text. destruct (str_truthy text) eqn:E; cbn [negb].
  - right. eexists. apply spaces_then_strip.
  - left. split; [done|]. by destruct text.
Qed.

Lemma preprocess_normalized text :
  normalize_whitespace (preprocess_text text) = preprocess_text text.
Proof.
  destruct (preprocess_text_words text) as [[-> _]|[t ->]]; [done|].
  apply WordFacts.normalize_idempotent.
Qed.

Lemma preprocess_unmarked text :
  any_char marks text = false → preprocess_text text = normalize_whitespace text.
Proof.
  intros Hm. unfold preprocess_text. destruct (str_truthy text) eqn:E; cbn [negb].
  - rewrite (NoMatch.re_sub_none marks _ re_url) by done.
    rewrite (NoMatch.re_sub_none marks _ re_email) by done.
    rewrite (NoMatch.re_sub_none marks _ re_phone) by done.
    rewrite (NoMatch.re_sub_none marks _ re_date) by done.
    apply spaces_then_strip.
  - by destruct text.
Qed.

Lemma process_ticket_text html_parser fromisoformat_year format_value ticket document :
  process_ticket html_parser fromisoformat_year format_value ticket = Ok document →
  ∃ html_content clean_text,
    ticket_get ticket "dt_testo" = Ok html_content
    ∧ CleanHtml.clean_html_content html_parser html_content = Ok clean_text
    ∧ doc_text document = preprocess_text clean_text.
Proof.
  unfold process_ticket.
  destruct ticket as [| | | | | | | |d]; try done.
  cbn [ticket_get mbind result_bind Py.bind].
  destruct (CleanHtml.clean_html_content html_parser _) as [clean_text|] eqn:E; [|done].
  cbn [mbind result_bind Py.bind].
  destruct (date_only _) as [date|]; [|done].
  cbn [mbind result_bind Py.bind mret result_ret].
  intros [= <-]. by eexists _, _.
Qed.

End CleanFacts.

Import Py Re Bs4 CleanHtml Reference Notions.

(** X11. Whatever document the parser returns, the text of the lenient
    normalizer is the text of the document, lists and tables replaced, with
    its white space normalized: single blanks between words, none at the
    ends, no newline.  The substitution of blank lines that follows the
    collapsing of white space never finds a match. *)
Theorem lenient_text_normalized (html_parser : parser) (html_content : pyval)
    (text : string) :
  CleanHtml.clean_html_content html_parser html_content = Ok text →
  normalize_whitespace text = text
  ∧ any_char (is_char "010") text = false
  ∧ (truthy html_content = true →
       ∃ soup, BeautifulSoup html_parser html_content = Ok soup
         ∧ text = normalize_whitespace
             (get_text (replace_each CleanHtml.formatted_table
                          (replace_each CleanHtml.list_text soup))))
  ∧ (truthy html_content = false → text = "").
Proof.
  unfold CleanHtml.clean_html_content.
  destruct (truthy html_content) eqn:Et; cbn [negb].
  - destruct (BeautifulSoup html_parser html_content) as [soup|e]; [|done].
    cbn [mbind result_bind Py.bind]. rewrite CleanFacts.blank_lines_idle.
    rewrite CleanFacts.spaces_then_strip. intros [= <-].
    split_and!; [apply WordFacts.normalize_idempotent| |by eexists|done].
    rewrite <- LenientFacts.strip_collapse.
    apply CleanFacts.any_char_strip, LenientFacts.collapse_no_nl.
  - intros [= <-]. by split_and!.
Qed.

Lemma lenient_text_normalized_witness :
  normalize_whitespace "a b" = "a b" ∧ any_char (is_char "010") "a b" = false.
Proof.
  destruct (lenient_text_normalized
              (λ s, Ok (Tag "[document]" None [NavigableString s]))
              (PStr (" a " +:+ nl +:+ nl +:+ " b ")) "a b") as (H1 & H2 & _).
  - reflexivity.
  - split; [exact H1|exact H2].
Defined.

(** X12. The text preprocessing ends by normalizing the white space, so
    its result is always normalized; and on a text that holds no colon, no
    at sign and no digit none of its four patterns (URL, address, phone
    number, date) finds a match: such a text is only normalized. *)
Theorem preprocess_text_spec (text : string) :
  normalize_whitespace (preprocess_text text) = preprocess_text text
  ∧ (any_char marks text = false → preprocess_text text = normalize_whitespace text).
Proof.
  split; [apply CleanFacts.preprocess_normalized|apply CleanFacts.preprocess_unmarked].
Qed.

Lemma preprocess_text_spec_witness :
  preprocess_text "  stampante   rotta " = normalize_whitespace "  stampante   rotta ".
Proof. apply (proj2 (preprocess_text_spec "  stampante   rotta ")). reflexivity. Defined.

(** X13. The text of every document that the ingestion produces is the
    preprocessed text of the lenient normalizer applied to the column
    [dt_testo] of the record; it is white space normalized, and it is the
    normalized text itself when that holds no colon, no at sign and no
    digit.  The ingestion never produces more documents than records. *)
Theorem ingested_text (html_parser : parser) (fromisoformat_year : string → result Z)
    (format_value : pyval → string) (ticket : pyval) (document : document) :
  process_ticket html_parser fromisoformat_year format_value ticket = Ok document →
  (∃ html_content clean_text,
     ticket_get ticket "dt_testo" = Ok html_content
     ∧ CleanHtml.clean_html_content html_parser html_content = Ok clean_text
     ∧ doc_text document = preprocess_text clean_text
     ∧ (any_char marks clean_text = false → doc_text document = clean_text))
  ∧ normalize_whitespace (doc_text document) = doc_text document
  ∧ ∀ tickets,
      (length (processed_documents html_parser fromisoformat_year format_value tickets)
         ≤ length tickets)%nat.
Proof.
  intros Hdoc.
  destruct (CleanFacts.process_ticket_text _ _ _ _ _ Hdoc)
    as (html_content & clean_text & Hget & Hclean & Htext).
  split_and!.
  - exists html_content, clean_text. split_and!; try done.
    intros Hm. rewrite Htext, CleanFacts.preprocess_unmarked by done.
    unfold CleanHtml.clean_html_content in Hclean.
    destruct (truthy html_content); cbn [negb] in Hclean; [|by injection Hclean as <-].
    destruct (BeautifulSoup html_parser html_content) as [soup|e]; [|done].
    cbn [mbind result_bind Py.bind] in Hclean.
    rewrite CleanFacts.blank_lines_idle, CleanFacts.spaces_then_strip in Hclean.
    injection Hclean as <-. apply WordFacts.normalize_idempotent.
  - rewrite Htext. apply CleanFacts.preprocess_normalized.
  - intros tickets. induction tickets as [|t tickets IH]; [done|]. simpl.
    destruct (process_ticket html_parser fromisoformat_year format_value t); simpl; lia.
Qed.

Lemma ingested_text_witness :
  normalize_whitespace "a b" = "a b".
Proof.
  pose (html_parser := (λ s, Ok (Tag "[document]" None [NavigableString s])) : parser).
  pose (fromisoformat_year := (λ _, Raise (ValueError "Invalid isoformat string"))
                              : string → result Z).
  pose (format_value := (λ v, match v with PInt n => str_int n | _ => "" end)
                        : pyval → string).
  pose (ticket := PDict (list_to_map [("ttnumtic", PInt 7); ("dt_testo", PStr "a  b")])).
  destruct (ingested_text html_parser fromisoformat_year format_value ticket
              (Document "7/SPC-2024" "a b" (PStr "") (PStr "") (PStr "") "2024" (PInt 7)))
    as (_ & H & _).
  - reflexivity.
  - exact H.
Defined.

(** ** Lists and tables given by their texts *)
Module ShapeFacts.
Import Py Re Bs4 Reference Notions LenientFacts.

Lemma tags_named_item names text :
  tags_named names (item_of text) =
    if bool_decide ("li" ∈ names) then [item_of text] else [].
Proof. unfold item_of. simpl. by rewrite app_nil_r. Qed.

Lemma find_all_items (items : list string) :
  find_all ["li"] (list_of items) = item_of <$> items.
Proof.
  unfold find_all, list_of. cbn [children].
  induction items as [|c l IH]; [done|]. cbn [fmap list_fmap flat_map].
  rewrite tags_named_item. rewrite bool_decide_true by set_solver. simpl. f_equal. apply IH.
Qed.

Lemma get_text_strip_item text : get_text_strip (item_of text) = strip text.
Proof. apply (get_text_strip_cell text). Qed.

Lemma item_texts_list (items : list string) :
  filter (λ s, s ≠ "") (get_text_strip <$> find_all ["li"] (list_of items))
    = item_texts items.
Proof.
  rewrite find_all_items. unfold item_texts. f_equal. rewrite <- list_fmap_compose.
  apply list_fmap_ext. intros _ x _. apply get_text_strip_item.
Qed.

Lemma filter_length_le {A} (P : A → Prop) `{∀ x, Decision (P x)} (l : list A) :
  (length (filter P l) ≤ length l)%nat.
Proof. apply length_filter. Qed.

Lemma display_row_text cells :
  TicketCleaner.row_text (row_of cells) = display_row cells.
Proof.
  unfold TicketCleaner.row_text, display_row.
  rewrite find_all_cells, cell_texts_row, length_fmap.
  case_bool_decide as Hlen; [done|].
  pose proof (filter_length_le (λ s, s ≠ "") (strip <$> cells)) as Hle.
  rewrite length_fmap in Hle. unfold cell_texts.
  destruct (filter (λ s, s ≠ "") (strip <$> cells)) as [|a [|b l]]; try done.
  simpl in Hle. lia.
Qed.

Lemma display_rows rows :
  omap TicketCleaner.row_text (find_all ["tr"] (table_of rows)) = omap display_row rows.
Proof.
  rewrite find_all_rows.
  induction rows as [|r l IH]; [done|]. cbn [fmap list_fmap omap list_omap].
  rewrite display_row_text.
  fold (fmap (M:=list) row_of l). fold (omap (M:=list) TicketCleaner.row_text (row_of <$> l)).
  fold (omap (M:=list) display_row l). by rewrite IH.
Qed.

End ShapeFacts.

(** X14. A list given by the texts of its items.  Both normalizers keep
    the non-empty stripped texts, in order, and leave a list without such a
    text alone; the lenient one writes them as one sentence, the display
    one as a block of bulleted lines. *)
Theorem list_text_items (items : list string) :
  CleanHtml.list_text (list_of items)
    = (if CleanHtml.nonempty (item_texts items)
       then Some ("I punti sono: " +:+ String.concat ", " (item_texts items) +:+ ".")
       else None)
  ∧ TicketCleaner.list_text (list_of items)
    = match item_texts items with
      | [] => None
      | t :: ts =>
          Some (nl +:+ String.concat nl
                  ((λ item_text, TicketCleaner.bullet +:+ " " +:+ item_text) <$> t :: ts)
                +:+ nl)
      end.
Proof.
  split.
  - unfold CleanHtml.list_text, CleanHtml.list_items. cbn [has_name list_of].
    rewrite bool_decide_true by set_solver. fold (list_of items).
    by rewrite ShapeFacts.item_texts_list.
  - unfold TicketCleaner.list_text, TicketCleaner.list_items. cbn [has_name list_of].
    rewrite bool_decide_true by set_solver. fold (list_of items).
    rewrite ShapeFacts.item_texts_list. by destruct (item_texts items).
Qed.

(** X15. A table given by the texts of its cells, in the display
    normalizer: a row contributes exactly when it has two non-empty texts
    at least, and then gives the first as a label, a colon, and the others
    separated by bars; the lines are set between newlines, and a table
    without such a row is left alone.  A row with one text only is dropped
    here, whereas the lenient normalizer keeps it. *)
Theorem display_table_text (rows : list (list string)) :
  TicketCleaner.formatted_table (table_of rows)
    = match omap display_row rows with
      | [] => None
      | line :: lines => Some (nl +:+ String.concat nl (line :: lines) +:+ nl)
      end
  ∧ (∀ cells, display_row cells ≠ None ↔ (2 ≤ length (cell_texts cells))%nat)
  ∧ (∀ label, display_row [label; ""] = None)
  ∧ (∀ label, strip label ≠ "" →
       CleanHtml.row_text (row_of [label; ""]) = Some (strip label)).
Proof.
  split_and!.
  - unfold TicketCleaner.formatted_table. cbn [has_name table_of].
    rewrite bool_decide_true by set_solver. fold (table_of rows).
    rewrite ShapeFacts.display_rows. by destruct (omap display_row rows).
  - intros cells. unfold display_row.
    destruct (cell_texts cells) as [|a [|b l]]; simpl; split; try done; try lia.
  - intros label. unfold display_row, cell_texts. cbn [fmap list_fmap].
    destruct (decide (strip label ≠ "")).
    + rewrite filter_cons_True by done. by rewrite filter_cons_False by (by intros H).
    + rewrite filter_cons_False by done. by rewrite filter_cons_False by (by intros H).
  - intros label Hlabel. rewrite LenientFacts.row_text_row.
    unfold contributes, cell_texts. cbn [fmap list_fmap].
    rewrite filter_cons_True by done. rewrite filter_cons_False by (by intros H).
    done.
Qed.

Lemma display_table_text_witness :
  CleanHtml.row_text (row_of [" Stato "; ""]) = Some (strip " Stato ").
Proof.
  apply (proj2 (proj2 (proj2 (display_table_text [])))). vm_compute. discriminate.
Defined.

(** X16. The fallback of the display normalizer, taken when the parser
    fails: its result is white space normalized, and on markup without an
    opening angle bracket the pattern for tags finds nothing, so that the
    result is the normalized input. *)
Theorem fallback_spec (html_content : string) :
  normalize_whitespace (TicketCleaner.fallback html_content)
    = TicketCleaner.fallback html_content
  ∧ (any_char (is_char "<") html_content = false →
       TicketCleaner.fallback html_content = normalize_whitespace html_content
       ∧ (strip html_content ≠ "" →
            TicketCleaner.clean_html_content rejecting_parser (PStr html_content)
              = Ok (normalize_whitespace html_content))).
Proof.
  assert (Hn : ∀ s, strip (re_sub false TicketCleaner.re_spaces [PLit " "] s)
                    = normalize_whitespace s) by apply CleanFacts.spaces_then_strip.
  unfold TicketCleaner.fallback. split.
  - rewrite Hn. apply WordFacts.normalize_idempotent.
  - intros Hlt.
    assert (Hf : strip (re_sub false TicketCleaner.re_spaces [PLit " "]
                          (re_sub false TicketCleaner.re_tag [] html_content))
                 = normalize_whitespace html_content).
    { rewrite (NoMatch.re_sub_none (is_char "<") _ TicketCleaner.re_tag) by done. apply Hn. }
    split; [done|]. intros Hs. unfold TicketCleaner.clean_html_content.
    assert (Ht : str_truthy html_content = true) by (by destruct html_content).
    rewrite Ht, bool_decide_false by done. cbn [negb orb].
    unfold TicketCleaner.structured, rejecting_parser. cbn [BeautifulSoup].
    cbn [mbind result_bind Py.bind try_except]. unfold TicketCleaner.fallback.
    by rewrite Hf.
Qed.

Lemma fallback_spec_witness :
  TicketCleaner.fallback " a   b " = normalize_whitespace " a   b ".
Proof. apply (proj2 (fallback_spec " a   b ")). reflexivity. Defined.

(** ** The display normalizer on paragraphs *)
Module ParagraphFacts.
Import Py Re Bs4 TicketCleaner Reference MatchAux Notions ReFacts LenientFacts.

Lemma plain_cases c :
  plain c = true →
  isspace c = false ∧ is_blank c = false ∧ is_char "010" c = false
  ∧ is_char " " c = false ∧ entity_marks c = false.
Proof.
  intros Hc.
  assert (H : cls_within plain
    (λ c, negb (isspace c) && negb (is_blank c) && negb (is_char "010" c)
          && negb (is_char " " c) && negb (entity_marks c)) = true)
    by (vm_compute; reflexivity).
  apply (NoMatch.cls_within_spec _ _ c H) in Hc.
  rewrite !andb_true_iff, !negb_true_iff in Hc. by destruct Hc as ((((? & ?) & ?) & ?) & ?).
Qed.

Lemma match_plus cls prev s :
  match_here false false (Plus cls) prev s =
    if str_truthy (span cls s).1 then Some (Match (span cls s).2 ∅) else None.
Proof.
  unfold match_here, Plus. cbn [rmatch andb].
  rewrite rep_longest by done.
  by destruct (span cls s).1.
Qed.

Lemma match_at_least cls n prev s :
  match_here false false (Rep cls n None) prev s =
    if (n <=? String.length (span cls s).1)%nat
    then Some (Match (span cls s).2 ∅) else None.
Proof. unfold match_here. cbn [rmatch andb]. by rewrite rep_longest by done. Qed.

(** One position of a substitution: no match there, or a match of one
    character. *)
Lemma sub_go_skip ml r t prev c s :
  match_here ml false r prev (String c s) = None →
  sub_go ml r t prev (String c s) 0 = String c (sub_go ml r t (Some c) s 0).
Proof. intros H. rewrite sub_go_0. by rewrite H. Qed.

Lemma sub_go_one ml r t prev c s g :
  match_here ml false r prev (String c s) = Some (Match s g) →
  sub_go ml r t prev (String c s) 0 = expand t g +:+ sub_go ml r t (Some c) s 0.
Proof.
  intros H. rewrite sub_go_0. rewrite H. unfold match_len. cbn [m_rest m_groups].
  replace (String.length (String c s) - String.length s)%nat with 1%nat by (simpl; lia).
  by rewrite bool_decide_false.
Qed.

Lemma sub_go_end ml r t prev :
  match_here ml false r prev "" = None → sub_go ml r t prev "" 0 = "".
Proof. intros H. rewrite sub_go_0. by rewrite H. Qed.

Lemma rep_head_fail {R} cls lo hi prev c s (k : option ascii → string → option R) :
  cls c = false → rep cls (S lo) hi prev (String c s) k = None.
Proof. intros H. simpl. rewrite H. by destruct hi as [[|h]|]. Qed.

Lemma rep_empty_fail {R} cls lo hi prev (k : option ascii → string → option R) :
  rep cls (S lo) hi prev "" k = None.
Proof. simpl. by destruct hi as [[|h]|]. Qed.

Lemma edges_unfold prev s :
  match_here true false re_line_edges prev s =
    match (if at_bol true prev
           then rep isspace 1 None prev s (λ _ s', Some (Match s' ∅))
           else None) with
    | Some m => Some m
    | None => rep isspace 1 None prev s
                (λ _ s', if at_eol true s' then Some (Match s' ∅) else None)
    end.
Proof. unfold match_here, re_line_edges, Plus. cbn [rmatch andb]. done. Qed.

Lemma edges_head_fail prev c s :
  isspace c = false → match_here true false re_line_edges prev (String c s) = None.
Proof.
  intros Hc. rewrite edges_unfold. rewrite !rep_head_fail by done.
  by destruct (at_bol true prev).
Qed.

Lemma edges_end prev : match_here true false re_line_edges prev "" = None.
Proof. rewrite edges_unfold. rewrite !rep_empty_fail. by destruct (at_bol true prev). Qed.

Lemma plus_head_fail cls prev c s :
  cls c = false → match_here false false (Plus cls) prev (String c s) = None.
Proof. intros Hc. rewrite match_plus. simpl. by rewrite Hc. Qed.

Lemma newlines_head_fail prev c s :
  is_char "010" c = false → match_here false false re_newlines prev (String c s) = None.
Proof. intros Hc. unfold re_newlines. rewrite match_at_least. simpl. by rewrite Hc. Qed.

(** The three cases of a character of a ready text. *)
Lemma ready_cases after c s :
  ready after (String c s) = true →
  ready c s = true
  ∧ (plain c = true
     ∨ c = " "%char ∧ plain after = true ∧ starts_plain s = true
     ∨ c = "010"%char ∧ plain after = true
       ∧ (∃ s', s = String "010" s' ∧ match s' with String d _ => plain d | "" => true end = true)
     ∨ c = "010"%char ∧ after = "010"%char
       ∧ match s with String d _ => plain d | "" => true end = true).
Proof.
  cbn [ready]. intros [Hc Hr]%andb_true_iff. split; [done|].
  destruct (plain c) eqn:Ep; [by left|right]. cbn [orb] in Hc.
  destruct (is_char " " c) eqn:Eb.
  - left. apply bool_decide_eq_true in Eb. subst c.
    cbn [andb] in Hc. apply orb_true_iff in Hc as [Hc|Hc]; [|done].
    apply andb_true_iff in Hc as [? ?]. done.
  - right. cbn [andb orb] in Hc. apply andb_true_iff in Hc as [En Hc].
    apply bool_decide_eq_true in En. subst c.
    destruct (plain after) eqn:Ea.
    + left. split; [done|]. split; [done|].
      destruct s as [|d s']; [done|]. apply bool_decide_eq_true in Hc. subst d.
      exists s'. split; [done|].
      cbn [ready] in Hr. apply andb_true_iff in Hr as [Hd _].
      by destruct s' as [|e s'']; [|destruct (plain e)].
    + right. apply andb_true_iff in Hc as [Hn Hs].
      apply bool_decide_eq_true in Hn. by subst after.
Qed.

Lemma ready_end after : ready after "" = true → after = "010"%char.
Proof. cbn [ready]. by intros ->%bool_decide_eq_true. Qed.

Lemma starts_plain_inv s :
  starts_plain s = true → ∃ d s', s = String d s' ∧ plain d = true.
Proof. destruct s as [|d s']; [done|]. intros H. by exists d, s'. Qed.

(** [re.sub(r'[ \t]+', ' ', text)] changes nothing. *)
Lemma blanks_idle s : ∀ after,
  ready after s = true → sub_go false re_blanks [PLit " "] (Some after) s 0 = s.
Proof.
  induction s as [|c s IH]; intros after Hr.
  - apply sub_go_end. unfold re_blanks. by rewrite match_plus.
  - apply ready_cases in Hr as [Hr Hc]. specialize (IH c Hr).
    destruct Hc as [Hc|[(-> & Ha & Hs)|[(-> & _)|(-> & _)]]].
    + apply plain_cases in Hc as (_ & Hb & _).
      rewrite sub_go_skip by (by apply plus_head_fail). by rewrite IH.
    + apply starts_plain_inv in Hs as (d & s' & -> & Hd).
      apply plain_cases in Hd as (_ & Hb & _).
      rewrite (sub_go_one _ _ _ _ _ _ ∅).
      * by rewrite IH.
      * unfold re_blanks. rewrite match_plus. simpl. by rewrite Hb.
    + rewrite sub_go_skip by (by apply plus_head_fail). by rewrite IH.
    + rewrite sub_go_skip by (by apply plus_head_fail). by rewrite IH.
Qed.

(** [re.sub(r'\n{3,}', ...)] finds no run of three newlines. *)
Lemma newlines_idle t s : ∀ after,
  ready after s = true → sub_go false re_newlines t (Some after) s 0 = s.
Proof.
  induction s as [|c s IH]; intros after Hr.
  - apply sub_go_end. unfold re_newlines. by rewrite match_at_least.
  - apply ready_cases in Hr as [Hr Hc]. specialize (IH c Hr).
    destruct Hc as [Hc|[(-> & Ha & Hs)|[(-> & _ & s' & -> & Hs)|(-> & _ & Hs)]]].
    + apply plain_cases in Hc as (_ & _ & Hn & _).
      rewrite sub_go_skip by (by apply newlines_head_fail). by rewrite IH.
    + rewrite sub_go_skip by (by apply newlines_head_fail). by rewrite IH.
    + rewrite sub_go_skip; [by rewrite IH|].
      unfold re_newlines. rewrite match_at_least.
      destruct s' as [|d s']; [done|]. apply plain_cases in Hs as (_ & _ & Hn & _).
      simpl. by rewrite Hn.
    + rewrite sub_go_skip; [by rewrite IH|].
      unfold re_newlines. rewrite match_at_least.
      destruct s as [|d s']; [done|]. apply plain_cases in Hs as (_ & _ & Hn & _).
      simpl. by rewrite Hn.
Qed.

Lemma not_eol_plain d s : plain d = true → at_eol true (String d s) = false.
Proof.
  intros (_ & _ & Hn & _)%plain_cases. unfold at_eol. rewrite Hn. by destruct s.
Qed.

(** [re.sub(r'^\s+|\s+$', '', text, flags=re.MULTILINE)] removes every
    newline. *)
Lemma edges_glue s : ∀ after,
  ready after s = true →
  sub_go true re_line_edges [] (Some after) s 0 = without_newlines s.
Proof.
  induction s as [|c s IH]; intros after Hr.
  - apply sub_go_end, edges_end.
  - apply ready_cases in Hr as [Hr Hc]. specialize (IH c Hr).
    destruct Hc as [Hc|[(-> & Ha & Hs)|[(-> & Ha & s' & -> & Hs)|(-> & -> & Hs)]]].
    + apply plain_cases in Hc as (Hsp & _ & Hn & _).
      rewrite sub_go_skip by (by apply edges_head_fail).
      cbn [without_newlines]. by rewrite Hn, IH.
    + apply starts_plain_inv in Hs as (d & s' & -> & Hd).
      pose proof (not_eol_plain d s' Hd) as Heol.
      apply plain_cases in Hd as (Hsp & _).
      apply plain_cases in Ha as (_ & _ & Han & _).
      rewrite sub_go_skip.
      * cbn [without_newlines]. by rewrite IH.
      * rewrite edges_unfold. cbn [at_bol andb]. rewrite Han.
        cbn [rep]. replace (isspace " ") with true by done.
        cbn [Nat.pred fmap option_fmap option_map rep]. rewrite Hsp, Heol. done.
    + apply plain_cases in Ha as (_ & _ & Han & _).
      destruct s' as [|d s'].
      * rewrite sub_go_0.
        assert (Hm : match_here true false re_line_edges (Some after)
                       (String "010" (String "010" "")) = Some (Match "" ∅)).
        { rewrite edges_unfold. cbn [at_bol andb]. rewrite Han. done. }
        rewrite Hm. unfold match_len. cbn [m_rest String.length Nat.sub].
        rewrite bool_decide_false by done. cbn [expand m_groups Nat.pred].
        rewrite sub_go_S, sub_go_end by apply edges_end. done.
      * pose proof (not_eol_plain d s' Hs) as Heol.
        apply plain_cases in Hs as (Hsp & _).
        rewrite (sub_go_one _ _ _ _ _ _ ∅).
        -- cbn [without_newlines expand]. by rewrite IH.
        -- rewrite edges_unfold. cbn [at_bol andb]. rewrite Han.
           cbn [rep]. replace (isspace "010") with true by done.
           cbn [Nat.pred fmap option_fmap option_map rep].
           replace (isspace "010") with true by done.
           cbn [Nat.pred fmap option_fmap option_map rep]. rewrite Hsp, Heol. done.
    + rewrite (sub_go_one _ _ _ _ _ _ ∅).
      * cbn [without_newlines expand]. by rewrite IH.
      * rewrite edges_unfold. cbn [at_bol andb].
        replace (is_char "010" "010") with true by done.
        destruct s as [|d s']; [done|].
        apply plain_cases in Hs as (Hsp & _).
        cbn [rep]. replace (isspace "010") with true by done.
        cbn [Nat.pred fmap option_fmap option_map rep]. by rewrite Hsp.
Qed.

Lemma spaced_last c a :
  spaced c a = true → ∃ d, last_char (String c a) = Some d ∧ plain d = true.
Proof.
  revert c. induction a as [|x a IH]; intros c; cbn [spaced].
  - intros Hc. by exists c.
  - intros [_ Hx]%andb_true_iff. destruct (IH x Hx) as (d & Hd & Hp).
    exists d. split; [|done]. simpl in *. by rewrite Hd.
Qed.

Lemma spaced_chars c a :
  spaced c a = true →
  without_newlines a = a ∧ any_char entity_marks a = false.
Proof.
  revert c. induction a as [|x a IH]; intros c; cbn [spaced]; [done|].
  intros [Hc Hx]%andb_true_iff. destruct (IH x Hx) as [Hw Hm].
  cbn [without_newlines any_char]. rewrite Hw, Hm.
  destruct (plain x) eqn:Ep.
  - apply plain_cases in Ep as (_ & _ & -> & _ & ->). done.
  - cbn [orb] in Hc. apply andb_true_iff in Hc as [[Hb _]%andb_true_iff _].
    apply bool_decide_eq_true in Hb. by subst x.
Qed.

Lemma spaced_app c a b :
  spaced c a = true → sentence b = true → spaced c (a +:+ b) = true.
Proof.
  intros Ha Hb. revert c Ha. induction a as [|x a IH]; intros c; cbn [spaced].
  - intros Hc. destruct b as [|d b]; [done|]. rewrite append_nil.
    cbn [sentence] in Hb. apply andb_true_iff in Hb as [Hd Hb]. cbn [spaced].
    by rewrite Hd, Hb.
  - intros [Hc Hx]%andb_true_iff. rewrite append_cons. cbn [spaced].
    rewrite (IH x Hx), andb_true_r.
    destruct (plain x); [done|]. cbn [orb] in *.
    apply andb_true_iff in Hc as [-> Hs]. rewrite andb_true_l.
    destruct a as [|y a]; [done|]. by rewrite append_cons.
Qed.

Lemma sentence_app a b : sentence a = true → sentence b = true → sentence (a +:+ b) = true.
Proof.
  destruct a as [|c a]; [done|]. cbn [sentence]. intros [Hc Ha]%andb_true_iff Hb.
  rewrite append_cons. cbn [sentence]. by rewrite Hc, spaced_app.
Qed.

Lemma sentence_fixed u :
  sentence u = true →
  strip u = u ∧ without_newlines u = u ∧ any_char entity_marks u = false.
Proof.
  destruct u as [|c a]; [done|]. cbn [sentence]. intros [Hc Ha]%andb_true_iff.
  destruct (spaced_last c a Ha) as (d & Hd & Hp).
  destruct (spaced_chars c a Ha) as [Hw Hm].
  pose proof (plain_cases c Hc) as (Hsp & _ & Hn & _ & He).
  pose proof (plain_cases d Hp) as (Hdsp & _).
  split_and!.
  - apply (IdFacts.strip_fixed _ d); [|done..]. simpl. by rewrite Hsp.
  - cbn [without_newlines]. by rewrite Hn, Hw.
  - cbn [any_char]. by rewrite He, Hm.
Qed.

Lemma spaced_ready a : ∀ c rest,
  spaced c a = true →
  rest = "" ∨ (∃ d r, rest = String d r ∧ plain d = true ∧ ready d r = true) →
  ready c (a +:+ String "010" (String "010" rest)) = true.
Proof.
  induction a as [|x a IH]; intros c rest; cbn [spaced].
  - intros Hc Hrest. rewrite append_nil. cbn [ready]. rewrite Hc.
    replace (plain "010") with false by done.
    replace (is_char " " "010") with false by done.
    replace (is_char "010" "010") with true by done.
    cbn [orb andb].
    destruct Hrest as [->|(d & r & -> & Hd & Hr)]; [done|].
    cbn [ready]. by rewrite Hd, Hr.
  - intros [Hc Hx]%andb_true_iff Hrest. rewrite append_cons. cbn [ready].
    rewrite (IH x rest Hx Hrest), andb_true_r.
    destruct (plain x); [done|]. cbn [orb] in *.
    apply andb_true_iff in Hc as [-> Hs]. rewrite andb_true_l.
    destruct a as [|y a]; [done|]. rewrite append_cons. cbn [starts_plain] in *.
    rewrite Hs. done.
Qed.

Lemma paragraphs_ready l :
  Forall (λ a, sentence a = true) l → l ≠ [] →
  ∃ c s, paragraphs_text l = String c s ∧ plain c = true ∧ ready c s = true.
Proof.
  induction 1 as [|a l Ha Hl IH]; [done|]. intros _.
  destruct a as [|c a]; [done|]. cbn [sentence] in Ha.
  apply andb_true_iff in Ha as [Hc Ha].
  exists c, (a +:+ String "010" (String "010" (paragraphs_text l))).
  split; [done|]. split; [done|]. apply spaced_ready; [done|].
  destruct l as [|b l]; [by left|right]. by apply IH.
Qed.

Lemma without_newlines_app a b :
  without_newlines (a +:+ b) = without_newlines a +:+ without_newlines b.
Proof.
  induction a as [|c a IH]; [done|]. rewrite append_cons. cbn [without_newlines].
  rewrite IH. by destruct (is_char "010" c).
Qed.

Lemma concat_empty_sep l : String.concat "" l = foldr append "" l.
Proof.
  induction l as [|a l IH]; [done|]. rewrite concat_cons. cbn [foldr]. rewrite <- IH.
  destruct l; [|done]. simpl. clear. induction a as [|c a IH]; [done|].
  rewrite append_cons. by f_equal.
Qed.

Lemma paragraphs_glue l :
  Forall (λ a, sentence a = true) l →
  without_newlines (paragraphs_text l) = String.concat "" l.
Proof.
  rewrite concat_empty_sep.
  induction 1 as [|a l Ha Hl IH]; [done|]. cbn [paragraphs_text foldr].
  rewrite without_newlines_app. cbn [without_newlines].
  replace (is_char "010" "010") with true by done.
  apply sentence_fixed in Ha as (_ & -> & _). by rewrite IH.
Qed.

Lemma glued_sentence l :
  Forall (λ a, sentence a = true) l → l ≠ [] → sentence (String.concat "" l) = true.
Proof.
  rewrite concat_empty_sep.
  induction 1 as [|a l Ha Hl IH]; [done|]. intros _. cbn [foldr].
  destruct l as [|b l].
  - cbn [foldr]. replace (a +:+ "") with a; [done|].
    clear. induction a as [|c a IH]; [done|]. rewrite append_cons. by f_equal.
  - apply sentence_app; [done|]. by apply IH.
Qed.

Lemma replace_paragraphs f (l : list string) :
  (∀ a, f (paragraph_of a) = None) →
  replace_tags f <$> (paragraph_of <$> l) = paragraph_of <$> l.
Proof.
  intros Hf. induction l as [|a l IH]; [done|]. cbn [fmap list_fmap] in *.
  rewrite IH. f_equal. unfold paragraph_of at 1. cbn [replace_tags].
  fold (paragraph_of a). by rewrite Hf.
Qed.

Lemma paragraphs_replaced (l : list string) :
  replace_tags paragraph_text <$> (paragraph_of <$> l)
    = NavigableString <$> ((λ a, a +:+ nl +:+ nl) <$> l).
Proof. induction l as [|a l IH]; [done|]. cbn [fmap list_fmap] in *. by rewrite IH. Qed.

Lemma paragraphs_get_text name (l : list string) :
  get_text (Tag name None (NavigableString <$> ((λ a, a +:+ nl +:+ nl) <$> l)))
    = paragraphs_text l.
Proof.
  unfold get_text. cbn [strings]. rewrite strings_plain, concat_empty_sep.
  induction l as [|a l IH]; [done|]. cbn [fmap list_fmap foldr paragraphs_text] in *.
  rewrite IH. by rewrite !append_assoc.
Qed.

(** The three substitutions on the text of paragraphs. *)
Lemma paragraphs_lines l :
  Forall (λ a, sentence a = true) l → l ≠ [] →
  re_sub true re_line_edges []
    (re_sub false re_newlines [PLit (nl +:+ nl)]
       (re_sub false re_blanks [PLit " "] (paragraphs_text l)))
  = String.concat "" l.
Proof.
  intros Hl Hne. rewrite <- (paragraphs_glue l Hl).
  destruct (paragraphs_ready l Hl Hne) as (c & s & -> & Hc & Hr).
  pose proof (plain_cases c Hc) as (Hsp & Hb & Hn & _).
  unfold re_sub.
  rewrite sub_go_skip by (by apply plus_head_fail). rewrite blanks_idle by done.
  rewrite sub_go_skip by (by apply newlines_head_fail). rewrite newlines_idle by done.
  rewrite sub_go_skip by (by apply edges_head_fail). rewrite edges_glue by done.
  cbn [without_newlines]. by rewrite Hn.
Qed.

(** What follows the substitutions leaves a sentence as it is. *)
Lemma sentence_kept u :
  sentence u = true →
  strip
    (re_sub false re_mso []
       (re_sub false re_office_close []
          (re_sub false re_office_open []
             (str_replace "&quot;" (String "034" "")
                (str_replace "&amp;" "&"
                   (str_replace "&gt;" ">"
                      (str_replace "&lt;" "<" (str_replace "&nbsp;" " " u)))))))) = u.
Proof.
  intros (Hs & _ & Hm)%sentence_fixed. unfold str_replace.
  rewrite (NoMatch.re_sub_none entity_marks _ (Lit "&nbsp;")) by done.
  rewrite (NoMatch.re_sub_none entity_marks _ (Lit "&lt;")) by done.
  rewrite (NoMatch.re_sub_none entity_marks _ (Lit "&gt;")) by done.
  rewrite (NoMatch.re_sub_none entity_marks _ (Lit "&amp;")) by done.
  rewrite (NoMatch.re_sub_none entity_marks _ (Lit "&quot;")) by done.
  rewrite (NoMatch.re_sub_none entity_marks _ re_office_open) by done.
  rewrite (NoMatch.re_sub_none entity_marks _ re_office_close) by done.
  rewrite (NoMatch.re_sub_none entity_marks _ re_mso) by done.
  done.
Qed.

Lemma structured_paragraphs html_parser html_content name (l : list string) :
  Forall (λ a, sentence a = true) l → l ≠ [] →
  html_parser html_content = Ok (Tag name None (paragraph_of <$> l)) →
  structured html_parser html_content = Ok (String.concat "" l).
Proof.
  intros Hl Hne Hparse. unfold structured. cbn [BeautifulSoup]. rewrite Hparse.
  cbn [mbind result_bind Py.bind]. unfold replace_each.
  rewrite !replace_paragraphs by done.
  rewrite paragraphs_replaced, replace_plain, paragraphs_get_text.
  rewrite paragraphs_lines by done.
  by rewrite sentence_kept by (by apply glued_sentence).
Qed.

End ParagraphFacts.

Import Py Bs4 Reference Notions.

(** X17. Paragraphs in the display normalizer.  Each paragraph is replaced
    by its text and two newlines; the substitution that strips the edges of
    lines then removes both newlines, the first as white space at the end
    of a line and the second as white space at the start of the next.  A
    document made of paragraphs of plain sentences therefore comes out as
    the sentences written one after the other, with nothing between the
    last word of a paragraph and the first word of the next. *)
Theorem display_paragraphs_glued (html_parser : parser) (html_content : string)
    (paragraphs : list string) :
  strip html_content ≠ "" →
  paragraphs ≠ [] →
  Forall (λ a, sentence a = true) paragraphs →
  html_parser html_content = Ok (Tag "[document]" None (paragraph_of <$> paragraphs)) →
  TicketCleaner.clean_html_content html_parser (PStr html_content)
    = Ok (String.concat "" paragraphs)
  ∧ any_char (is_char "010") (String.concat "" paragraphs) = false.
Proof.
  intros Hs Hne Hl Hparse. split.
  - unfold TicketCleaner.clean_html_content.
    assert (Ht : str_truthy html_content = true) by (by destruct html_content).
    rewrite Ht, bool_decide_false by done. cbn [negb orb].
    by rewrite (ParagraphFacts.structured_paragraphs _ _ "[document]" paragraphs).
  - pose proof (ParagraphFacts.glued_sentence paragraphs Hl Hne) as Hg.
    apply ParagraphFacts.sentence_fixed in Hg as (_ & Hw & _).
    revert Hw. generalize (String.concat "" paragraphs). intros u.
    induction u as [|c u IH]; [done|]. cbn [without_newlines any_char].
    destruct (is_char "010" c) eqn:E.
    + intros Hw. exfalso. assert (Hlen : String.length (without_newlines u)
                                         = S (String.length u)) by (by rewrite Hw).
      assert (Hle : ∀ v, (String.length (without_newlines v) ≤ String.length v)%nat).
      { clear. induction v as [|d v IH]; [done|]. cbn [without_newlines].
        destruct (is_char "010" d); simpl; lia. }
      specialize (Hle u). lia.
    + intros [= Hw]. by apply IH.
Qed.

Lemma display_paragraphs_glued_witness :
  TicketCleaner.clean_html_content
    (λ _, Ok (Tag "[document]" None (paragraph_of <$> ["Buongiorno a tutti"; "Grazie"])))
    (PStr "<p>Buongiorno a tutti</p><p>Grazie</p>")
  = Ok "Buongiorno a tuttiGrazie"
  ∧ any_char (is_char "010") "Buongiorno a tuttiGrazie" = false.
Proof.
  apply (display_paragraphs_glued
           (λ _, Ok (Tag "[document]" None (paragraph_of <$> ["Buongiorno a tutti"; "Grazie"])))
           "<p>Buongiorno a tutti</p><p>Grazie</p>" ["Buongiorno a tutti"; "Grazie"]).
  - vm_compute. discriminate.
  - discriminate.
  - repeat constructor.
  - reflexivity.
Defined.

(** ** Loading the documents into the store *)
Module LoaderFacts.
Import Py TicketLoader Notions.

Section loader.
Context (repr : json → string).
Context {collection : Type}.
Context (collection_add : collection → add_call → result unit * collection).

Lemma add_tickets_objects (objects : list (list (string * json))) : ∀ acc,
  add_tickets repr acc (JObject <$> objects)
    = Ok (let kept := filter (λ items, is_Some (item "text" items)) objects in
          Prepared
            (documents acc ++ ((λ items, default JNull (item "text" items)) <$> kept))%list
            (metadatas acc ++ (flatten repr <$> kept))%list
            (ids acc ++ imap (λ k, loaded_id repr (length (ids acc) + k)) kept)%list).
Proof.
  induction objects as [|items objects IH]; intros acc.
  - cbn. rewrite !app_nil_r. by destruct acc.
  - cbn [fmap list_fmap add_tickets add_ticket].
    destruct (item "text" items) as [text|] eqn:E.
    + cbn [mbind result_bind Py.bind]. rewrite IH. cbv zeta.
      assert (Hs : is_Some (item "text" items)) by (by exists text).
      rewrite filter_cons_True by exact Hs.
      cbn [documents metadatas ids fmap list_fmap imap]. f_equal.
      rewrite E. cbn [default]. rewrite <- !app_assoc. cbn [app].
      f_equal. f_equal. f_equal.
      * unfold loaded_id. by rewrite Nat.add_0_r.
      * apply imap_ext. intros k x _. unfold compose. rewrite length_app. cbn [length].
        f_equal. lia.
    + cbn [mbind result_bind Py.bind]. rewrite IH. cbv zeta.
      by rewrite filter_cons_False by (rewrite E; by intros [? ?]).
Qed.

Lemma add_tickets_raises tickets : ∀ acc ticket,
  ticket ∈ tickets → (∀ items, ticket ≠ JObject items) →
  ∃ e, add_tickets repr acc tickets = Raise e.
Proof.
  induction tickets as [|t tickets IH]; intros acc ticket Hin Hno.
  - by apply elem_of_nil in Hin.
  - cbn [add_tickets]. apply elem_of_cons in Hin as [<-|Hin].
    + destruct ticket as [| | | |s|l|items]; cbn [add_ticket];
        try (by eexists).
      * destruct (str_contains "text" s); by eexists.
      * destruct (existsb is_text l); by eexists.
      * by destruct (Hno items).
    + destruct (add_ticket repr acc t) as [acc'|e]; [|by eexists].
      cbn [mbind result_bind Py.bind]. by apply (IH acc' ticket).
Qed.

(** The calls made are the batches of the first starts, all of them when
    no call raises. *)
Lemma add_batches_calls p : ∀ starts c,
  ∃ k, (add_batches collection_add starts p c).2 = call_at p <$> take k starts
       ∧ ((add_batches collection_add starts p c).1.1 = Ok () → k = length starts).
Proof.
  induction starts as [|i starts IH]; intros c.
  - exists 0%nat. done.
  - cbn [add_batches]. fold (call_at p i).
    destruct (collection_add c (call_at p i)) as [[[]|e] c1].
    + destruct (IH c1) as (k & Hcalls & Hk).
      destruct (add_batches collection_add starts p c1) as [[outcome c2] calls].
      cbn [fst snd] in *. exists (S k). cbn [take fmap list_fmap length].
      split; [by rewrite Hcalls|]. intros Ho. by rewrite Hk.
    + exists 1%nat. cbn [fst snd take fmap list_fmap]. split; [by rewrite take_0|done].
Qed.

End loader.

(** The pieces cut from a list by the first [k] starts of the range. *)
Lemma slices_prefix {A} (l : list A) (n : nat) : ∀ fuel i k,
  n = length l →
  ∃ m, concat ((λ i, slice i ((i + batch_size) `min` n) l)
               <$> take k (range_from fuel i n batch_size))
       = take m (drop i l)
    ∧ (k = length (range_from fuel i n batch_size) → (n - i ≤ fuel)%nat →
       take m (drop i l) = drop i l).
Proof.
  intros fuel i k Hn. revert i k.
  assert (Hbs : (1 ≤ batch_size)%nat) by (unfold batch_size; lia).
  induction fuel as [|fuel IH]; intros i k.
  - exists 0%nat. cbn [range_from]. rewrite take_nil. split; [done|].
    intros _ Hf. rewrite drop_ge by lia. done.
  - cbn [range_from]. destruct (i <? n)%nat eqn:E.
    + apply Nat.ltb_lt in E. destruct k as [|k].
      * exists 0%nat. split; [done|]. done.
      * destruct (IH (i + batch_size)%nat k) as (m & Hm & Hall).
        cbn [take fmap list_fmap concat]. rewrite Hm. unfold slice.
        destruct (decide (i + batch_size ≤ n)%nat) as [Hle|Hgt].
        -- exists (batch_size + m)%nat.
           rewrite Nat.min_l by done.
           replace (i + batch_size - i)%nat with batch_size by lia.
           rewrite <- (drop_drop l batch_size i), take_take_drop.
           split; [done|].
           cbn [length]. intros [= Hk] Hf.
           rewrite <- take_take_drop, drop_drop, Hall by (done || lia).
           rewrite <- drop_drop. apply take_drop.
        -- exists (n - i)%nat.
           rewrite Nat.min_r by lia.
           rewrite (drop_ge l (i + batch_size)) by lia. rewrite take_nil, app_nil_r.
           split; [done|]. intros _ _. apply take_ge. rewrite length_drop. lia.
    + apply Nat.ltb_ge in E. exists 0%nat. rewrite take_nil. split; [done|].
      intros _ _. by rewrite drop_ge by lia.
Qed.

Lemma range_starts n : ∀ fuel i, Forall (λ j, (j < n)%nat) (range_from fuel i n batch_size).
Proof.
  induction fuel as [|fuel IH]; intros i; cbn [range_from]; [constructor|].
  destruct (i <? n)%nat eqn:E; [|constructor].
  apply Nat.ltb_lt in E. by constructor.
Qed.

Lemma slice_length {A} (l : list A) i n :
  n = length l → (i < n)%nat →
  length (slice i ((i + batch_size) `min` n) l) = (batch_size `min` (n - i))%nat.
Proof. intros -> Hi. unfold slice. rewrite length_take, length_drop. lia. Qed.

End LoaderFacts.

Import Py TicketLoader Notions.

(** X18. The loop over the tickets of the loader, on tickets that are
    objects: the tickets without a [text] key are skipped; the others give,
    in order, their text, their flattened metadata and their id, so that
    the three lists have the same length.  The id is the text of the [id]
    of the ticket, and [ticket_k] for a ticket without one, [k] counting
    the tickets loaded before it, not the tickets read. *)
Theorem loader_entries (repr : json → string) (objects : list (list (string * json))) :
  let kept := filter (λ items, is_Some (item "text" items)) objects in
  ∃ p, add_tickets repr (Prepared [] [] []) (JObject <$> objects) = Ok p
    ∧ documents p = (λ items, default JNull (item "text" items)) <$> kept
    ∧ metadatas p = flatten repr <$> kept
    ∧ ids p = imap (loaded_id repr) kept
    ∧ length (metadatas p) = length (documents p)
    ∧ length (ids p) = length (documents p).
Proof.
  intros kept. rewrite LoaderFacts.add_tickets_objects. eexists. split; [done|].
  cbn [documents metadatas ids app length Nat.add]. fold kept.
  split_and!; try done; by rewrite ?length_imap, !length_fmap.
Qed.

(** X19. The batches of the loader.  Every call of [collection.add] passes
    between 1 and 500 documents with as many metadata and ids; the batches
    are consecutive pieces of the three lists from their start; and when no
    call raises they cover the lists entirely.  The loop ends at the first
    call that raises. *)
Theorem batches_cover {collection : Type}
    (collection_add : collection → add_call → result unit * collection)
    (p : prepared) (c : collection) :
  length (metadatas p) = length (documents p) →
  length (ids p) = length (documents p) →
  let run := add_batches collection_add (range (length (documents p)) batch_size) p c in
  let calls := run.2 in
  Forall (λ call, (1 ≤ length (batch_docs call) ≤ 500)%nat
                  ∧ length (batch_metas call) = length (batch_docs call)
                  ∧ length (batch_ids call) = length (batch_docs call)) calls
  ∧ concat (batch_docs <$> calls) `prefix_of` documents p
  ∧ concat (batch_metas <$> calls) `prefix_of` metadatas p
  ∧ concat (batch_ids <$> calls) `prefix_of` ids p
  ∧ (run.1.1 = Ok () →
       concat (batch_docs <$> calls) = documents p
       ∧ concat (batch_metas <$> calls) = metadatas p
       ∧ concat (batch_ids <$> calls) = ids p)
  ∧ (∀ e, run.1.1 = Raise e → ∃ call, last calls = Some call
                                 ∧ ∃ c0, (collection_add c0 call).1 = Raise e).
Proof.
  intros Hm Hi run calls. set (n := length (documents p)) in *.
  destruct (LoaderFacts.add_batches_calls collection_add p (range n batch_size) c)
    as (k & Hcalls & Hk).
  fold run in Hcalls, Hk. fold calls in Hcalls.
  assert (Hpieces : ∀ {A} (l : list A) (proj : add_call → list A),
            n = length l →
            (∀ i, proj (call_at p i) = slice i ((i + batch_size) `min` n) l) →
            concat (proj <$> calls) `prefix_of` l
            ∧ (run.1.1 = Ok () → concat (proj <$> calls) = l)).
  { intros A l proj Hl Hproj. rewrite Hcalls, <- list_fmap_compose.
    destruct (LoaderFacts.slices_prefix l n n 0 k Hl) as (m & Hcat & Hall).
    assert (Hfun : (proj ∘ call_at p <$> take k (range n batch_size))
                   = ((λ i, slice i ((i + batch_size) `min` n) l)
                        <$> take k (range n batch_size))).
    { apply list_fmap_ext. intros _ i _. apply Hproj. }
    rewrite Hfun. unfold range. rewrite Hcat, drop_0 in *. split.
    - exists (drop m l). by rewrite take_drop.
    - intros Ho. apply Hall; [by apply Hk|apply Nat.le_sub_l]. }
  destruct (Hpieces _ (documents p) batch_docs eq_refl) as [Hd1 Hd2]; [done|].
  destruct (Hpieces _ (metadatas p) batch_metas (eq_sym Hm)) as [Hm1 Hm2]; [done|].
  destruct (Hpieces _ (ids p) batch_ids (eq_sym Hi)) as [Hi1 Hi2]; [done|].
  split_and!; try done.
  - rewrite Hcalls. apply Forall_fmap.
    eapply Forall_impl; [apply Forall_take, LoaderFacts.range_starts|].
    intros i Hlt. cbn [compose call_at batch_docs batch_metas batch_ids].
    fold n. rewrite !(LoaderFacts.slice_length _ i n) by done.
    split; [|done]. cbv beta in Hlt. change batch_size with 500%nat. lia.
  - intros Ho. auto.
  - intros e He. clear -He. subst calls run. revert c He.
    induction (range n batch_size) as [|i starts IH]; intros c; [done|].
    cbn [add_batches]. fold (call_at p i).
    destruct (collection_add c (call_at p i)) as [[[]|e'] c1] eqn:E.
    + specialize (IH c1).
      destruct (add_batches collection_add starts p c1) as [[outcome c2] calls].
      cbn [fst snd] in *. intros He. destruct (IH He) as (call & Hlast & Hcall).
      exists call. split; [|done]. rewrite last_cons. by rewrite Hlast.
    + cbn [fst snd]. intros [= ->]. exists (call_at p i). split; [done|].
      exists c. by rewrite E.
Qed.

Lemma batches_cover_witness :
  let p := Prepared [JStr "primo"; JStr "secondo"] [∅; ∅] ["1/SPC-2024"; "2/SPC-2024"] in
  concat (batch_ids <$> (add_batches (λ (c : unit) _, (Ok (), c))
                           (range (length (documents p)) batch_size) p ()).2)
    = ["1/SPC-2024"; "2/SPC-2024"].
Proof.
  intros p.
  destruct (batches_cover (λ (c : unit) _, (Ok (), c)) p ()) as (_ & _ & _ & _ & H & _);
    [reflexivity..|].
  cbv zeta in H. destruct H as (_ & _ & H); [reflexivity|]. exact H.
Defined.

(** X20. When the loading stops before the store is written.  Data that is
    neither a list nor an object with a [documents] key is reported as an
    unrecognised format; and one ticket that is not an object, anywhere in
    the list, makes the loop raise.  In both cases no call to
    [collection.add] is made: the tickets read before are not loaded
    either. *)
Theorem load_stops_early (repr : json → string) {collection : Type}
    (collection_add : collection → add_call → result unit * collection)
    (data : json) (c : collection) :
  (∀ e, tickets_of data = Raise e →
     load_tickets_from_json repr collection_add data c = (Raise e, c, []))
  ∧ (match data with
     | JList _ => False
     | JObject items => item "documents" items = None
     | _ => True
     end → tickets_of data = Raise unrecognised_format)
  ∧ (∀ tickets ticket,
       tickets_of data = Ok tickets → ticket ∈ tickets →
       (∀ items, ticket ≠ JObject items) →
       ∃ e, load_tickets_from_json repr collection_add data c = (Raise e, c, [])).
Proof.
  unfold load_tickets_from_json. split_and!.
  - intros e ->. done.
  - destruct data as [| | | | | |items]; try done. cbn [tickets_of]. by intros ->.
  - intros tickets ticket -> Hin Hno. cbn [mbind result_bind Py.bind].
    destruct (LoaderFacts.add_tickets_raises repr tickets (Prepared [] [] []) ticket Hin Hno)
      as [e ->].
    by exists e.
Qed.

Lemma load_stops_early_witness :
  ∃ e, load_tickets_from_json (λ _, "") (λ (c : unit) _, (Ok (), c))
         (JList [JObject [("text", JStr "a")]; JStr "b"]) ()
       = (Raise e, (), []).
Proof.
  destruct (load_stops_early (λ _, "") (λ (c : unit) _, (Ok (), c))
              (JList [JObject [("text", JStr "a")]; JStr "b"]) ()) as (_ & _ & H).
  apply (H [JObject [("text", JStr "a")]; JStr "b"] (JStr "b")).
  - reflexivity.
  - apply list_elem_of_further, list_elem_of_here.
  - intros items. discriminate.
Defined.

(** X21. The metadata the loader gives a document written by
    [process_tickets]: the nested [metadata] object is flattened, so that
    the entry has the keys [id], [title], [company], [date], [year] and
    [original_id], each with the text of its value, or null, and no key
    [text].  None of these keys has the prefix that the search looks for
    first: the search reads its four fields under the bare keys.  The
    document is loaded under its own id, with its text. *)
Theorem loaded_metadata (repr : json → string) (id text : string)
    (title company date : json) (year : string) (original_id : json) :
  let items := document_items id text title company date year original_id in
  let metadata := flatten repr items in
  metadata !! "id" = Some (PStr id)
  ∧ metadata !! "title" = Some (str_or_none repr title)
  ∧ metadata !! "company" = Some (str_or_none repr company)
  ∧ metadata !! "date" = Some (str_or_none repr date)
  ∧ metadata !! "year" = Some (PStr year)
  ∧ metadata !! "original_id" = Some (str_or_none repr original_id)
  ∧ metadata !! "text" = None
  ∧ dom metadata = {[ "id"; "title"; "company"; "date"; "year"; "original_id" ]}
  ∧ add_tickets repr (Prepared [] [] []) [JObject items]
      = Ok (Prepared [JStr text] [metadata] [id])
  ∧ ∀ i ticket_id distance document,
      let result := Search.formatted_result i ticket_id distance metadata document in
      result !! "title" = Some (str_or_none repr title)
      ∧ result !! "company" = Some (str_or_none repr company)
      ∧ result !! "date" = Some (str_or_none repr date)
      ∧ result !! "original_id" = Some (str_or_none repr original_id).
Proof.
  intros items metadata.
  assert (Hm : metadata = <["original_id" := str_or_none repr original_id]>
                 (<["year" := PStr year]>
                 (<["date" := str_or_none repr date]>
                 (<["company" := str_or_none repr company]>
                 (<["title" := str_or_none repr title]>
                 (<["id" := PStr id]> ∅)))))) by reflexivity.
  assert (H1 : metadata !! "title" = Some (str_or_none repr title)) by (by rewrite Hm).
  assert (H2 : metadata !! "company" = Some (str_or_none repr company)) by (by rewrite Hm).
  assert (H3 : metadata !! "date" = Some (str_or_none repr date)) by (by rewrite Hm).
  assert (H4 : metadata !! "original_id" = Some (str_or_none repr original_id))
    by (by rewrite Hm).
  assert (N1 : metadata !! "metadata_title" = None) by (by rewrite Hm).
  assert (N2 : metadata !! "metadata_company" = None) by (by rewrite Hm).
  assert (N3 : metadata !! "metadata_date" = None) by (by rewrite Hm).
  assert (N4 : metadata !! "metadata_original_id" = None) by (by rewrite Hm).
  assert (Hr : ∀ i ticket_id distance document,
            let result := Search.formatted_result i ticket_id distance metadata document in
            result !! "title" = Some (str_or_none repr title)
            ∧ result !! "company" = Some (str_or_none repr company)
            ∧ result !! "date" = Some (str_or_none repr date)
            ∧ result !! "original_id" = Some (str_or_none repr original_id)).
  { intros i ticket_id distance document result.
    unfold result, Search.formatted_result, dict_get.
    rewrite N1, N2, N3, N4, H1, H2, H3, H4. done. }
  assert (Hd : dom metadata = {[ "id"; "title"; "company"; "date"; "year"; "original_id" ]}).
  { rewrite Hm, !dom_insert_L, dom_empty_L. set_solver. }
  split_and!; try done; by rewrite Hm.
Qed.

(** ** The dispatch of the tool calls *)
Module ServerFacts.
Import Py Server.

Lemma get_ticket_returns now_year html_parser db ticket_id :
  ∃ j, GetTicket.get_ticket_by_id now_year html_parser db ticket_id = Ok j.
Proof.
  unfold GetTicket.get_ticket_by_id.
  destruct (GetTicket.get_ticket_body now_year html_parser db ticket_id) as [j|e].
  - by exists j.
  - cbn [try_except]. rewrite ToolFacts.ticket_error_dumps. by eexists.
Qed.

Lemma search_returns store query_text n_results :
  ∃ j, (Search.search_similar_tickets store query_text n_results).1 = Ok j.
Proof.
  unfold Search.search_similar_tickets.
  destruct (Search.search_body store query_text n_results) as [[j|e] calls]; cbn [fst].
  - by exists j.
  - cbn [try_except]. rewrite ToolFacts.search_error_dumps. by eexists.
Qed.

Lemma error_dumps name arguments e :
  serializable (PDict arguments) = true →
  json_dumps (PDict (error_response name arguments e))
    = Ok (JsonText (PDict (error_response name arguments e))).
Proof.
  intros Ha. apply ToolFacts.json_dumps_ok, ToolFacts.serializable_fields.
  by repeat constructor.
Qed.

Section server.
Context (now_year : Z) (html_parser : Bs4.parser).
Context (db : GetTicket.postgres) (store : Search.vector_store).
Context (search_untyped : pyval → pyval → result json_text).
Context (get_ticket_untyped : pyval → result json_text).

Local Abbreviation handle_call_tool :=
  (handle_call_tool now_year html_parser db store search_untyped get_ticket_untyped).

(** What the handler of a tool does decides the answer. *)
Lemma handled name arguments (outcome : result json_text) :
  serializable (PDict arguments) = true →
  (if bool_decide (name = "search_similar_tickets")
   then search_handler store search_untyped arguments
   else if bool_decide (name = "get_ticket_by_id")
   then get_ticket_handler now_year html_parser db get_ticket_untyped arguments
   else Raise (unknown_tool name)) = outcome →
  handle_call_tool name arguments
    = Ok [TextContent "text"
            match outcome with
            | Ok j => j
            | Raise e => JsonText (PDict (error_response name arguments e))
            end].
Proof.
  intros Ha Ho. unfold Server.handle_call_tool. rewrite Ho.
  destruct outcome as [j|e]; [done|].
  cbn [mbind result_bind Py.bind try_except]. by rewrite error_dumps.
Qed.

End server.
End ServerFacts.

Import Py Server.

(** X22. The dispatch of a tool call, for arguments that can be written as
    JSON.  The answer is always a single text.  A name other than the two
    tools, or a call without the required argument, is answered by the
    error object of the server, which names the tool and repeats the
    arguments; a call of a tool with a text is answered by the JSON of that
    tool, the number of results being 5 when it is not given. *)
Theorem handle_call_tool_spec (now_year : Z) (html_parser : Bs4.parser)
    (db : GetTicket.postgres) (store : Search.vector_store)
    (search_untyped : pyval → pyval → result json_text)
    (get_ticket_untyped : pyval → result json_text)
    (name : string) (arguments : gmap string pyval) :
  let handle_call_tool :=
    handle_call_tool now_year html_parser db store search_untyped get_ticket_untyped in
  serializable (PDict arguments) = true →
  (∃ j, handle_call_tool name arguments = Ok [TextContent "text" j])
  ∧ (name ≠ "search_similar_tickets" → name ≠ "get_ticket_by_id" →
       handle_call_tool name arguments
         = Ok [TextContent "text"
                 (JsonText (PDict (error_response name arguments (unknown_tool name))))])
  ∧ (arguments !! "ticket_id" = None →
       handle_call_tool "get_ticket_by_id" arguments
         = Ok [TextContent "text"
                 (JsonText (PDict (error_response "get_ticket_by_id" arguments
                                     (KeyError "ticket_id"))))])
  ∧ (arguments !! "query_text" = None →
       handle_call_tool "search_similar_tickets" arguments
         = Ok [TextContent "text"
                 (JsonText (PDict (error_response "search_similar_tickets" arguments
                                     (KeyError "query_text"))))])
  ∧ (∀ ticket_id, arguments !! "ticket_id" = Some (PStr ticket_id) →
       ∃ j, GetTicket.get_ticket_by_id now_year html_parser db ticket_id = Ok j
            ∧ handle_call_tool "get_ticket_by_id" arguments = Ok [TextContent "text" j])
  ∧ (∀ query_text, arguments !! "query_text" = Some (PStr query_text) →
       ∃ j, (Search.search_similar_tickets store query_text
               match arguments !! "n_results" with
               | Some (PInt n_results) => n_results
               | _ => 5%Z
               end).1 = Ok j
            ∧ (match arguments !! "n_results" with
               | Some (PInt _) | None => True
               | Some _ => False
               end →
               handle_call_tool "search_similar_tickets" arguments
                 = Ok [TextContent "text" j])).
Proof.
  intros handle Ha. subst handle. split_and!.
  - erewrite ServerFacts.handled; [|done|reflexivity]. by eexists.
  - intros H1 H2. erewrite ServerFacts.handled; [|done|reflexivity].
    by rewrite !bool_decide_false by done.
  - intros Hk. erewrite ServerFacts.handled; [|done|reflexivity].
    cbn [bool_decide]. unfold get_ticket_handler, subscript. by rewrite Hk.
  - intros Hk. erewrite ServerFacts.handled; [|done|reflexivity].
    cbn [bool_decide]. unfold search_handler, subscript. by rewrite Hk.
  - intros ticket_id Hk.
    destruct (ServerFacts.get_ticket_returns now_year html_parser db ticket_id) as [j Hj].
    exists j. split; [done|]. erewrite ServerFacts.handled; [|done|reflexivity].
    cbn [bool_decide]. unfold get_ticket_handler, subscript. rewrite Hk.
    cbn [mbind result_bind Py.bind]. by rewrite Hj.
  - intros query_text Hk.
    assert (Hrun : ∀ n_results,
              dict_get arguments "n_results" (PInt 5) = PInt n_results →
              ∃ j, (Search.search_similar_tickets store query_text n_results).1 = Ok j
                   ∧ Server.handle_call_tool now_year html_parser db store search_untyped
                       get_ticket_untyped "search_similar_tickets" arguments
                     = Ok [TextContent "text" j]).
    { intros n_results Hn.
      destruct (ServerFacts.search_returns store query_text n_results) as [j Hj].
      exists j. split; [done|]. erewrite ServerFacts.handled; [|done|reflexivity].
      cbn [bool_decide]. unfold search_handler, subscript. rewrite Hk, Hn.
      cbn [mbind result_bind Py.bind]. by rewrite Hj. }
    unfold dict_get in Hrun.
    destruct (arguments !! "n_results") as [v|].
    + destruct v as [| |n_results| | | | | |];
        try (destruct (ServerFacts.search_returns store query_text 5) as [j Hj];
             exists j; by split).
      destruct (Hrun n_results eq_refl) as (j & Hj & Hh). exists j. by split.
    + destruct (Hrun 5%Z eq_refl) as (j & Hj & Hh). exists j. by split.
Qed.

Lemma handle_call_tool_spec_witness :
  Server.handle_call_tool 2026 Reference.rejecting_parser
    (GetTicket.Postgres (Ok ()) (λ _ _ _, Ok []) (Ok ()))
    (Search.VectorStore (Ok ()) (λ _ _, Ok (Search.QueryResult [] [] [] [])))
    (λ _ _, Raise (TypeError "unsupported")) (λ _, Raise (TypeError "unsupported"))
    "chiudi_ticket" {[ "ticket_id" := PStr "3906" ]}
  = Ok [TextContent "text"
          (JsonText (PDict (error_response "chiudi_ticket" {[ "ticket_id" := PStr "3906" ]}
                              (unknown_tool "chiudi_ticket"))))].
Proof.
  apply (handle_call_tool_spec 2026 Reference.rejecting_parser
           (GetTicket.Postgres (Ok ()) (λ _ _ _, Ok []) (Ok ()))
           (Search.VectorStore (Ok ()) (λ _ _, Ok (Search.QueryResult [] [] [] [])))
           (λ _ _, Raise (TypeError "unsupported")) (λ _, Raise (TypeError "unsupported"))
           "chiudi_ticket" {[ "ticket_id" := PStr "3906" ]}).
  - reflexivity.
  - discriminate.
  - discriminate.
Defined.

(** ** The date of an ingested record *)
Module DateFacts.
Import Py CleanHtml ReFacts.

Lemma contains_T_cons c s :
  str_contains "T" (String c s) = is_char "T" c || str_contains "T" s.
Proof.
  cbn [str_contains String.prefix]. unfold is_char.
  destruct (ascii_dec "T" c) as [<-|Hne].
  - rewrite bool_decide_true by done. by destruct s.
  - rewrite bool_decide_false by done. done.
Qed.

Lemma before_T_clean s : str_contains "T" (before_T s) = false.
Proof.
  induction s as [|c s IH]; [done|]. cbn [before_T].
  destruct (is_char "T" c) eqn:E; [done|]. by rewrite contains_T_cons, E, IH.
Qed.

Lemma before_T_split s :
  str_contains "T" s = true → ∃ rest, s = before_T s +:+ "T" +:+ rest.
Proof.
  induction s as [|c s IH]; [done|]. rewrite contains_T_cons. cbn [before_T].
  destruct (is_char "T" c) eqn:E.
  - intros _. apply bool_decide_eq_true in E. subst c. by exists s.
  - cbn [orb]. intros [rest Hs]%IH. exists rest. rewrite append_cons. by f_equal.
Qed.

End DateFacts.

Import Py CleanHtml.

(** X23. The date of an ingested record.  Of a text the ingestion keeps
    what comes before the first [T], the whole text when it has none: the
    date it stores never holds a [T].  A record whose [dt__data] is null, a
    number or a boolean makes the membership test raise, so that the
    record is skipped, whereas a record without the key is ingested. *)
Theorem date_only_spec (html_parser : Bs4.parser) (fromisoformat_year : string → result Z)
    (format_value : pyval → string) (fields : gmap string pyval) :
  (∀ s, ∃ d, date_only (PStr s) = Ok (PStr d)
        ∧ str_contains "T" d = false
        ∧ (d = s ∨ ∃ rest, s = d +:+ "T" +:+ rest))
  ∧ (∀ date_str,
       fields !! "dt__data" = Some date_str →
       match date_str with
       | PNone | PBool _ | PInt _ | PFloat _ => True
       | _ => False
       end →
       (∃ e, process_ticket html_parser fromisoformat_year format_value (PDict fields)
               = Raise e)
       ∧ ∀ before after,
           processed_documents html_parser fromisoformat_year format_value
             (before ++ PDict fields :: after)%list
           = (processed_documents html_parser fromisoformat_year format_value before
              ++ processed_documents html_parser fromisoformat_year format_value after)%list)
  ∧ (fields !! "dt__data" = None →
       ∀ text, CleanHtml.clean_html_content html_parser (dict_get fields "dt_testo" (PStr ""))
                 = Ok text →
       ∃ document,
         process_ticket html_parser fromisoformat_year format_value (PDict fields)
           = Ok document
         ∧ meta_date document = PStr "").
Proof.
  split_and!.
  - intros s. unfold date_only. destruct (str_contains "T" s) eqn:E.
    + exists (before_T s). split; [done|]. split; [apply DateFacts.before_T_clean|].
      right. by apply DateFacts.before_T_split.
    + exists s. split_and!; [done|done|by left].
  - intros date_str Hd Hkind.
    assert (Hraise : ∃ e, process_ticket html_parser fromisoformat_year format_value
                            (PDict fields) = Raise e).
    { unfold process_ticket. cbn [ticket_get mbind result_bind Py.bind].
      destruct (CleanHtml.clean_html_content html_parser _) as [text|e]; [|by eexists].
      cbn [mbind result_bind Py.bind].
      assert (Hget : dict_get fields "dt__data" (PStr "") = date_str).
      { unfold dict_get. by rewrite Hd. }
      rewrite Hget. destruct date_str; try done; by eexists. }
    split; [done|]. intros before after. destruct Hraise as [e He].
    rewrite IngestFacts.processed_documents_app. cbn [processed_documents].
    by rewrite He.
  - intros Hd text Hclean. unfold process_ticket.
    cbn [ticket_get mbind result_bind Py.bind]. rewrite Hclean.
    cbn [mbind result_bind Py.bind].
    assert (Hget : dict_get fields "dt__data" (PStr "") = PStr "").
    { unfold dict_get. by rewrite Hd. }
    rewrite Hget. cbn [date_only str_contains String.prefix orb].
    cbn [mbind result_bind Py.bind mret result_ret]. by eexists.
Qed.

Lemma date_only_spec_witness :
  ∃ e, process_ticket (λ s, Ok (Bs4.Tag "[document]" None [Bs4.NavigableString s]))
         (λ _, Ok 2023%Z) (λ _, "7")
         (PDict {[ "dt__data" := PNone; "dt_testo" := PStr "a" ]}) = Raise e.
Proof.
  destruct (date_only_spec (λ s, Ok (Bs4.Tag "[document]" None [Bs4.NavigableString s]))
              (λ _, Ok 2023%Z) (λ _, "7")
              {[ "dt__data" := PNone; "dt_testo" := PStr "a" ]}) as (_ & H & _).
  destruct (H PNone) as [He _]; [reflexivity|exact I|]. exact He.
Defined.
